(** * Sale Transaction Engine: the sale-creation handler and the sale formatter

    A shallow embedding of the route handler of the sales API (its POST
    handler, [formatSale], [toCents] and [centsToAmount]) together with the
    part of the persistence layer the handler talks to.

    Modelling conventions.
    - A JavaScript number is a [num]: NaN, the two infinities, or a finite
      value carried as an exact rational.  The special values follow the
      IEEE rules the handler can observe ([Number.isFinite], [Number.isNaN],
      comparisons that are false on NaN).  Finite arithmetic is exact: the
      rounding error of binary64 operations and the sign of zero are not
      represented.
    - A parsed JSON body is a [jsval].
    - Built-in string functions of the platform whose full definition is
      outside the repository ([String.prototype.trim], [toUpperCase], the
      string-to-number and number-to-string conversions) and the members of
      the [PaymentMethod] enumeration, which the handler imports from the
      generated database client, are fields of a [Platform] record.
    - The database is a record of tables.  [prisma.$transaction] runs its
      body on the state the transaction sees and keeps the resulting state
      only when the body and the commit succeed.  Failures the persistence
      layer may raise on its own (connection loss, the 30 second timeout,
      constraint violations other than the receipt-number one) are supplied
      by an environment, one optional error per call site. *)

From Stdlib Require Import ZArith QArith Qround Lia.
From stdpp Require Import base option list strings gmap pretty.

Local Open Scope string_scope.

(** ** JavaScript numbers *)

Module Num.

Inductive num : Type :=
| NaN
| PInf
| NInf
| Fin (q : Q).

Definition zero : num := Fin 0.
Definition of_Z (z : Z) : num := Fin (inject_Z z).

(** [Number.isFinite] and [Number.isNaN] on a value that is a number. *)
Definition isFinite (n : num) : bool :=
  match n with Fin _ => true | _ => false end.

Definition isNaN (n : num) : bool :=
  match n with NaN => true | _ => false end.

Definition inf_of_sign (c : comparison) : num :=
  match c with Gt => PInf | Lt => NInf | Eq => NaN end.

Definition flip (c : comparison) : comparison := CompOpp c.

Definition mul (a b : num) : num :=
  match a, b with
  | NaN, _ | _, NaN => NaN
  | Fin x, Fin y => Fin (x * y)
  | Fin x, PInf | PInf, Fin x => inf_of_sign (x ?= 0)%Q
  | Fin x, NInf | NInf, Fin x => inf_of_sign (flip (x ?= 0)%Q)
  | PInf, PInf | NInf, NInf => PInf
  | PInf, NInf | NInf, PInf => NInf
  end.

Definition add (a b : num) : num :=
  match a, b with
  | NaN, _ | _, NaN => NaN
  | Fin x, Fin y => Fin (x + y)
  | PInf, NInf | NInf, PInf => NaN
  | PInf, _ | _, PInf => PInf
  | NInf, _ | _, NInf => NInf
  end.

Definition neg (a : num) : num :=
  match a with
  | NaN => NaN
  | PInf => NInf
  | NInf => PInf
  | Fin x => Fin (- x)
  end.

Definition sub (a b : num) : num :=
  match a, b with
  | Fin x, Fin y => Fin (x - y)
  | _, _ => add a (neg b)
  end.

Definition div (a b : num) : num :=
  match a, b with
  | NaN, _ | _, NaN => NaN
  | Fin x, Fin y =>
      if Qeq_bool y 0 then inf_of_sign (x ?= 0)%Q else Fin (x / y)
  | Fin _, _ => Fin 0
  | PInf, Fin y => if Qle_bool 0 y then PInf else NInf
  | NInf, Fin y => if Qle_bool 0 y then NInf else PInf
  | _, _ => NaN
  end.

(** [a < b]; false when either side is NaN. *)
Definition lt (a b : num) : bool :=
  match a, b with
  | NaN, _ | _, NaN => false
  | Fin x, Fin y => negb (Qle_bool y x)
  | NInf, NInf => false
  | NInf, _ => true
  | _, NInf => false
  | PInf, _ => false
  | _, PInf => true
  end.

Definition gt (a b : num) : bool := lt b a.

(** [a === b] on numbers. *)
Definition eqb (a b : num) : bool :=
  match a, b with
  | Fin x, Fin y => Qeq_bool x y
  | PInf, PInf | NInf, NInf => true
  | _, _ => false
  end.

(** [a <= b]; false when either side is NaN. *)
Definition le (a b : num) : bool := lt a b || eqb a b.

(** [Math.round]: the nearest integer, ties towards plus infinity. *)
Definition round (a : num) : num :=
  match a with
  | Fin x => Fin (inject_Z (Qfloor (x + (1 # 2))))
  | _ => a
  end.

(** Numeric equality as a proposition: equal finite values, or the same
    infinity.  NaN equals nothing. *)
Definition eq (a b : num) : Prop :=
  match a, b with
  | Fin x, Fin y => (x == y)%Q
  | PInf, PInf | NInf, NInf => True
  | _, _ => False
  end.

(** The number is a mathematical integer. *)
Definition is_integer (a : num) : Prop :=
  exists z : Z, eq a (of_Z z).

End Num.

Export Num (num, NaN, PInf, NInf, Fin).

(** ** Monetary normaliser *)

Definition toCents (value : num) : num :=
  Num.round (Num.mul value (Num.of_Z 100)).

Definition centsToAmount (cents : num) : num :=
  Num.div cents (Num.of_Z 100).

(** ** Parsed JSON values and the conversions the handler applies to them *)

#[warnings="-register-all"]
Inductive jsval : Type :=
| VUndef
| VNull
| VBool (b : bool)
| VNum (n : num)
| VStr (s : string)
| VArr (elems : list jsval)
| VObj (fields : list (string * jsval)).

(** Built-ins of the platform and the imported enumeration. *)
Record Platform : Type := {
  (** [Number(s)] on a string *)
  str_to_num : string -> num;
  (** [String(n)] on a number, also used by template literals *)
  num_to_str : num -> string;
  (** [String(v)] on an array or an object *)
  obj_to_str : jsval -> string;
  (** [String.prototype.toUpperCase] *)
  toUpperCase : string -> string;
  (** [String.prototype.trim] *)
  trim : string -> string;
  (** [Object.values(PaymentMethod)] *)
  paymentMethodValues : list string;
}.

(** Property read [v.k]; a value that is not an object has none of the
    properties the handler reads. *)
Fixpoint assoc (k : string) (fields : list (string * jsval)) : jsval :=
  match fields with
  | [] => VUndef
  | (k', v) :: rest => if String.eqb k k' then v else assoc k rest
  end.

Definition get (v : jsval) (k : string) : jsval :=
  match v with
  | VObj fields => assoc k fields
  | _ => VUndef
  end.

(** ToBoolean. *)
Definition truthy (v : jsval) : bool :=
  match v with
  | VUndef | VNull => false
  | VBool b => b
  | VNum n => negb (Num.isNaN n || Num.eqb n Num.zero)
  | VStr s => negb (String.eqb s "")
  | VArr _ | VObj _ => true
  end.

(** [a ?? b] *)
Definition nullish (v : jsval) : bool :=
  match v with VUndef | VNull => true | _ => false end.

Definition coalesce (a b : jsval) : jsval := if nullish a then b else a.

(** [typeof v === 'object'] *)
Definition typeof_object (v : jsval) : bool :=
  match v with VNull | VArr _ | VObj _ => true | _ => false end.

(** [v !== undefined] *)
Definition is_defined (v : jsval) : bool :=
  match v with VUndef => false | _ => true end.

(** SameValueZero, the key equality of [Set] and [Map].  Two objects parsed
    from one body are never the same object. *)
Definition same_value_zero (a b : jsval) : bool :=
  match a, b with
  | VUndef, VUndef | VNull, VNull => true
  | VBool x, VBool y => Bool.eqb x y
  | VNum x, VNum y => (Num.isNaN x && Num.isNaN y) || Num.eqb x y
  | VStr x, VStr y => String.eqb x y
  | _, _ => false
  end.

(** [haystack.includes(needle)] on strings. *)
Fixpoint includes (haystack needle : string) : bool :=
  String.prefix needle haystack
  || match haystack with
     | EmptyString => false
     | String _ rest => includes rest needle
     end.

(** [Array.prototype.join] on strings. *)
Fixpoint join (sep : string) (parts : list string) : string :=
  match parts with
  | [] => ""
  | [p] => p
  | p :: rest => p ++ sep ++ join sep rest
  end.

Section Conversions.
Context (P : Platform).

(** [String(v)] *)
Definition js_String (v : jsval) : string :=
  match v with
  | VUndef => "undefined"
  | VNull => "null"
  | VBool true => "true"
  | VBool false => "false"
  | VNum n => num_to_str P n
  | VStr s => s
  | VArr _ | VObj _ => obj_to_str P v
  end.

(** [Number(v)] *)
Definition js_Number (v : jsval) : num :=
  match v with
  | VUndef => NaN
  | VNull => Num.zero
  | VBool true => Num.of_Z 1
  | VBool false => Num.zero
  | VNum n => n
  | VStr s => str_to_num P s
  | VArr _ | VObj _ => str_to_num P (obj_to_str P v)
  end.

(** [paymentMethodSet.has(s)] *)
Definition paymentMethodSet_has (s : string) : bool :=
  existsb (String.eqb s) (paymentMethodValues P).

End Conversions.

(** ** Errors and responses *)

(** A thrown value: whether it is an [Error], its [message], and the [code]
    and [meta.target] the database client attaches to known request errors. *)
Record js_error : Type := {
  is_Error : bool;
  message : string;
  code : option string;
  meta_target : option (list string);
}.

(** [new Error(msg)] *)
Definition Error (msg : string) : js_error :=
  {| is_Error := true; message := msg; code := None; meta_target := None |}.

(** The external representation of a sale. *)
Record FormattedAttendant : Type := {
  fa_id : string;
  fa_fullName : option string;
  fa_username : option string;
}.

Record FormattedProduct : Type := {
  fp_id : string;
  fp_name : string;
  fp_sku : string;
}.

Record FormattedItem : Type := {
  fi_id : string;
  fi_productId : jsval;
  fi_quantity : num;
  fi_price : num;
  fi_total : num;
  fi_product : option FormattedProduct;
}.

Record FormattedSale : Type := {
  fs_id : string;
  fs_receiptNumber : string;
  fs_userId : jsval;
  fs_paymentMethod : string;
  fs_subtotal : num;
  fs_discount : num;
  fs_totalAmount : num;
  fs_createdAt : Z;
  fs_attendant : option FormattedAttendant;
  fs_items : list FormattedItem;
}.

Inductive response_body : Type :=
| ErrorBody (error : string)
| SaleBody (sale : FormattedSale).

Record response : Type := {
  status : Z;
  body : response_body;
}.

(** [NextResponse.json({ error }, { status })] *)
Definition error_response (st : Z) (msg : string) : response :=
  {| status := st; body := ErrorBody msg |}.

(** ** Persistence layer *)

(** Rows.  Decimal columns hold numbers; the scale of a column (rounding on
    store) is not represented. *)
Record Product : Type := {
  product_name : string;
  product_sku : string;
  product_price : num;
}.

Record User : Type := {
  user_fullName : option string;
  user_username : option string;
}.

Record SaleItem : Type := {
  item_id : string;
  item_productId : jsval;
  item_quantity : num;
  item_price : num;
  item_total : num;
}.

Record Sale : Type := {
  sale_id : string;
  sale_receiptNumber : string;
  sale_userId : jsval;
  sale_paymentMethod : string;
  sale_subtotal : num;
  sale_discount : option num;
  sale_totalAmount : num;
  sale_createdAt : Z;
  sale_items : list SaleItem;
}.

(** Tables: products and users by id, stock by productId (one row per
    product at most), sales in creation order. *)
Record DB : Type := {
  products : gmap string Product;
  stocks : gmap string num;
  users : gmap string User;
  sales : list Sale;
}.

(** The places where the handler calls the persistence layer. *)
Inductive call_site : Type :=
| AtFindMany
| AtFindUnique (i : nat)
| AtCreate
| AtUpdate (i : nat)
| AtCommit.

(** What the handler takes from its surroundings: failures raised by the
    persistence layer on its own, the clock, and generated identifiers. *)
Record Env : Type := {
  fault : call_site -> option js_error;
  date_now : Z;
  created_at : Z;
  new_sale_id : string;
  new_item_id : nat -> string;
}.

(** A row of [prisma.product.findMany] with the handler's [select]. *)
Record ProductWithStock : Type := {
  pws_id : string;
  pws_name : string;
  pws_price : num;
  pws_stock : option num;
}.

(** A sale loaded with [saleInclude]: the attendant and each item's product. *)
Record ItemWithProduct : Type := {
  iwp_item : SaleItem;
  iwp_product : option (string * Product);
}.

Record SaleWithRelations : Type := {
  swr_sale : Sale;
  swr_attendant : option (string * User);
  swr_items : list ItemWithProduct;
}.

(** [where: { id: { in: ids } }] keeps the rows whose id is one of [ids];
    the handler passes distinct ids, and nothing it does depends on the
    order of the rows. *)
Definition product_findMany (db : DB) (ids : list jsval) : list ProductWithStock :=
  omap (fun id =>
          match id with
          | VStr s =>
              (fun p => {| pws_id := s;
                           pws_name := product_name p;
                           pws_price := product_price p;
                           pws_stock := stocks db !! s |}) <$> (products db !! s)
          | _ => None
          end) ids.

(** [tx.stock.findUnique({ where: { productId } })] *)
Definition stock_findUnique (db : DB) (productId : jsval) : option num :=
  match productId with
  | VStr s => stocks db !! s
  | _ => None
  end.

Definition with_stocks (db : DB) (st : gmap string num) : DB :=
  {| products := products db; stocks := st; users := users db; sales := sales db |}.

Definition with_sales (db : DB) (sl : list Sale) : DB :=
  {| products := products db; stocks := stocks db; users := users db; sales := sl |}.

(** The error of an update whose row does not exist. *)
Definition record_not_found : js_error :=
  {| is_Error := true;
     message := "Record to update not found.";
     code := Some "P2025";
     meta_target := None |}.

(** The error of a write that breaks the uniqueness of [receiptNumber]. *)
Definition unique_violation : js_error :=
  {| is_Error := true;
     message := "Unique constraint failed on the fields: (`receiptNumber`)";
     code := Some "P2002";
     meta_target := Some ["receiptNumber"] |}.

(** [tx.stock.update({ where: { productId }, data: { quantity: { decrement } } })] *)
Definition stock_update_decrement (db : DB) (productId : jsval) (amount : num)
  : js_error + DB :=
  match productId with
  | VStr s =>
      match stocks db !! s with
      | Some q => inr (with_stocks db (<[s := Num.sub q amount]> (stocks db)))
      | None => inl record_not_found
      end
  | _ => inl record_not_found
  end.

Definition attendant_of (db : DB) (userId : jsval) : option (string * User) :=
  match userId with
  | VStr s => (fun u => (s, u)) <$> (users db !! s)
  | _ => None
  end.

Definition product_of (db : DB) (productId : jsval) : option (string * Product) :=
  match productId with
  | VStr s => (fun p => (s, p)) <$> (products db !! s)
  | _ => None
  end.

(** [include: saleInclude] *)
Definition load_relations (db : DB) (s : Sale) : SaleWithRelations :=
  {| swr_sale := s;
     swr_attendant := attendant_of db (sale_userId s);
     swr_items :=
       map (fun it => {| iwp_item := it;
                         iwp_product := product_of db (item_productId it) |})
           (sale_items s) |}.

(** [tx.sale.create]: the receipt number must be new. *)
Definition sale_create (db : DB) (s : Sale) : js_error + (SaleWithRelations * DB) :=
  if existsb (fun old => String.eqb (sale_receiptNumber old) (sale_receiptNumber s))
             (sales db)
  then inl unique_violation
  else inr (load_relations db s, with_sales db (sales db ++ [s])%list).

(** ** Sale formatter *)

Definition formatSale (sale : SaleWithRelations) : FormattedSale :=
  let s := swr_sale sale in
  {| fs_id := sale_id s;
     fs_receiptNumber := sale_receiptNumber s;
     fs_userId := sale_userId s;
     fs_paymentMethod := sale_paymentMethod s;
     fs_subtotal := sale_subtotal s;
     fs_discount := default Num.zero (sale_discount s);
     fs_totalAmount := sale_totalAmount s;
     fs_createdAt := sale_createdAt s;
     fs_attendant :=
       match swr_attendant sale with
       | Some (id, u) =>
           Some {| fa_id := id;
                   fa_fullName := user_fullName u;
                   fa_username := user_username u |}
       | None => None
       end;
     fs_items :=
       map (fun item =>
              {| fi_id := item_id (iwp_item item);
                 fi_productId := item_productId (iwp_item item);
                 fi_quantity := item_quantity (iwp_item item);
                 fi_price := item_price (iwp_item item);
                 fi_total := item_total (iwp_item item);
                 fi_product :=
                   match iwp_product item with
                   | Some (id, p) =>
                       Some {| fp_id := id;
                               fp_name := product_name p;
                               fp_sku := product_sku p |}
                   | None => None
                   end |})
           (swr_items sale) |}.

(** The attendant label of the dashboard's activity feed:
    [sale.attendant?.fullName ?? sale.attendant?.username ?? 'Walk-in customer']. *)
Definition activity_context (attendant : option User) : string :=
  match attendant with
  | Some u =>
      match user_fullName u with
      | Some n => n
      | None => default "Walk-in customer" (user_username u)
      end
  | None => "Walk-in customer"
  end.

(** ** Control flow of the handler

    A step of the handler either goes on with a value, returns a response,
    or throws into the handler's [catch]. *)

Inductive flow (A : Type) : Type :=
| Next (a : A)
| Return (r : response)
| Throw (e : js_error).

Arguments Next {A} a.
Arguments Return {A} r.
Arguments Throw {A} e.

#[global] Instance flow_ret : MRet flow := fun A a => Next a.

#[global] Instance flow_bind : MBind flow := fun A B f m =>
  match m with
  | Next a => f a
  | Return r => Return r
  | Throw e => Throw e
  end.

(** ** Request validator *)

Record SanitizedItem : Type := {
  si_productId : jsval;
  si_quantity : num;
  si_priceOverride : option num;
}.

Record ValidRequest : Type := {
  vr_receiptNumber : jsval;
  vr_userId : jsval;
  vr_paymentMethod : string;
  vr_discount : num;
  vr_items : list SanitizedItem;
}.

Definition bad_request {A : Type} (msg : string) : flow A :=
  Return (error_response 400 msg).

Section Handler.
Context (P : Platform).

(** One round of the loop over [items]; [index] counts from 0. *)
Definition sanitize_item (index : nat) (item : jsval) : flow SanitizedItem :=
  if negb (truthy item) || negb (typeof_object item) then
    bad_request ("Item at position " ++ pretty (index + 1)%nat ++ " is invalid.")
  else if negb (truthy (get item "productId")) then
    bad_request ("Item " ++ pretty (index + 1)%nat ++ " is missing productId.")
  else
    let quantity := js_Number P (get item "quantity") in
    if negb (Num.isFinite quantity) || Num.le quantity Num.zero then
      bad_request ("Item " ++ pretty (index + 1)%nat
                     ++ " quantity must be a positive number.")
    else
      let price := get item "price" in
      if is_defined price then
        let priceOverride := js_Number P price in
        if negb (Num.isFinite priceOverride) || Num.lt priceOverride Num.zero then
          bad_request ("Item " ++ pretty (index + 1)%nat
                         ++ " price must be a positive number.")
        else
          Next {| si_productId := get item "productId";
                  si_quantity := quantity;
                  si_priceOverride := Some priceOverride |}
      else
        Next {| si_productId := get item "productId";
                si_quantity := quantity;
                si_priceOverride := None |}.

Fixpoint sanitize_items (index : nat) (items : list jsval)
  : flow (list SanitizedItem) :=
  match items with
  | [] => Next []
  | item :: rest =>
      sanitized ← sanitize_item index item;
      more ← sanitize_items (S index) rest;
      Next (sanitized :: more)
  end.

(** Lines 189 to 235 of the handler: destructuring and the checks up to
    the end of the loop. *)
Definition validate (body : jsval) : flow ValidRequest :=
  let b := coalesce body (VObj []) in
  let receiptNumber := get b "receiptNumber" in
  let userId := get b "userId" in
  let paymentMethod := get b "paymentMethod" in
  let items := get b "items" in
  let discount := if is_defined (get b "discount") then get b "discount"
                  else VNum Num.zero in
  if negb (truthy userId) then
    bad_request "userId is required."
  else
    let normalizedPaymentMethod := toUpperCase P (js_String P paymentMethod) in
    if negb (truthy paymentMethod)
       || negb (paymentMethodSet_has P normalizedPaymentMethod) then
      bad_request "paymentMethod is invalid."
    else
      match items with
      | VArr (first :: others) =>
          let parsedDiscount := js_Number P (coalesce discount (VNum Num.zero)) in
          if Num.isNaN parsedDiscount || Num.lt parsedDiscount Num.zero then
            bad_request "discount must be a positive number."
          else
            sanitizedItems ← sanitize_items 0 (first :: others);
            Next {| vr_receiptNumber := receiptNumber;
                    vr_userId := userId;
                    vr_paymentMethod := normalizedPaymentMethod;
                    vr_discount := parsedDiscount;
                    vr_items := sanitizedItems |}
      | _ => bad_request "At least one sale item is required."
      end.

(** *** Stock arbiter and pricing calculator *)

(** [Array.from(new Set(values))]: first occurrences, in order. *)
Definition unique (values : list jsval) : list jsval :=
  foldl (fun acc v => if existsb (same_value_zero v) acc then acc else (acc ++ [v])%list)
        [] values.

(** [products.find((product) => product.id === id)] as a test. *)
Definition found_in (found : list ProductWithStock) (id : jsval) : bool :=
  existsb (fun product => same_value_zero (VStr (pws_id product)) id) found.

(** [new Map(products.map((product) => [product.id, product]))] *)
Definition productMap_of (found : list ProductWithStock)
  : gmap string ProductWithStock :=
  foldl (fun m product => <[pws_id product := product]> m) ∅ found.

Definition productMap_get (m : gmap string ProductWithStock) (key : jsval)
  : option ProductWithStock :=
  match key with
  | VStr s => m !! s
  | _ => None
  end.

Record ItemPayload : Type := {
  ip_productId : jsval;
  ip_quantity : num;
  ip_price : num;
  ip_total : num;
}.

Definition dquote : string := String (Ascii.ascii_of_nat 34) EmptyString.

(** The resolved unit price, [item.priceOverride ?? defaultPrice]. *)
Definition resolve_unitPrice (priceOverride : option num) (defaultPrice : num) : num :=
  default defaultPrice priceOverride.

(** The callback of [sanitizedItems.map]: the payload of one line and its
    [lineTotalInCents]. *)
Definition price_item (productMap : gmap string ProductWithStock)
           (item : SanitizedItem) : flow (ItemPayload * num) :=
  match productMap_get productMap (si_productId item) with
  | None => Throw (Error "Product missing during sale creation.")
  | Some product =>
      match pws_stock product with
      | None =>
          Throw (Error ("Product " ++ dquote ++ pws_name product ++ dquote
                          ++ " has no stock record."))
      | Some available =>
          if Num.gt (si_quantity item) available then
            Throw (Error ("Insufficient stock for " ++ pws_name product
                            ++ ". Available: " ++ num_to_str P available))
          else
            let defaultPrice := pws_price product in
            let unitPrice := resolve_unitPrice (si_priceOverride item) defaultPrice in
            if negb (Num.isFinite unitPrice) || Num.le unitPrice Num.zero then
              Throw (Error ("Invalid price for " ++ pws_name product ++ "."))
            else
              let priceInCents := toCents unitPrice in
              let lineTotalInCents :=
                Num.round (Num.mul priceInCents (si_quantity item)) in
              Next ({| ip_productId := si_productId item;
                       ip_quantity := si_quantity item;
                       ip_price := centsToAmount priceInCents;
                       ip_total := centsToAmount lineTotalInCents |},
                    lineTotalInCents)
      end
  end.

(** [sanitizedItems.map(...)] with its running [subtotalInCents]. *)
Fixpoint build_itemsPayload (productMap : gmap string ProductWithStock)
         (items : list SanitizedItem) (subtotalInCents : num)
  : flow (list ItemPayload * num) :=
  match items with
  | [] => Next ([], subtotalInCents)
  | item :: rest =>
      line ← price_item productMap item;
      more ← build_itemsPayload productMap rest (Num.add subtotalInCents line.2);
      Next (line.1 :: more.1, more.2)
  end.

(** Lines 237 to 294: the product query, the 404 answer, and pricing with
    the advisory stock check.  The result is [itemsPayload] and
    [subtotalInCents]. *)
Definition price_request (env : Env) (db : DB) (req : ValidRequest)
  : flow (list ItemPayload * num) :=
  let productIds := unique (map si_productId (vr_items req)) in
  match fault env AtFindMany with
  | Some e => Throw e
  | None =>
      let found := product_findMany db productIds in
      if negb (length found =? length productIds)%nat then
        let missing := filter (fun id => negb (found_in found id)) productIds in
        Return (error_response 404
                  ("Products not found: " ++ join ", " (map (js_String P) missing)))
      else
        build_itemsPayload (productMap_of found) (vr_items req) Num.zero
  end.

(** What the handler holds when it opens the transaction. *)
Record Prepared : Type := {
  pr_request : ValidRequest;
  pr_itemsPayload : list ItemPayload;
  pr_subtotalInCents : num;
  pr_discountInCents : num;
}.

(** Lines 296 to 299: the discount check. *)
Definition check_discount (req : ValidRequest) (priced : list ItemPayload * num)
  : flow Prepared :=
  let subtotalInCents := priced.2 in
  let discountInCents := toCents (vr_discount req) in
  if Num.gt discountInCents subtotalInCents then
    bad_request "Discount cannot exceed subtotal."
  else
    Next {| pr_request := req;
            pr_itemsPayload := priced.1;
            pr_subtotalInCents := subtotalInCents;
            pr_discountInCents := discountInCents |}.

Definition prepare (env : Env) (db : DB) (req : ValidRequest) : flow Prepared :=
  price_request env db req ≫= check_discount req.

(** *** Transaction coordinator *)

Definition stock_changed : js_error :=
  Error "Stock levels changed. Please refresh and try again.".

(** The loop that re-reads the stock of every line inside the transaction. *)
Fixpoint recheck_stock (env : Env) (db : DB) (i : nat) (items : list ItemPayload)
  : option js_error :=
  match items with
  | [] => None
  | item :: rest =>
      match fault env (AtFindUnique i) with
      | Some e => Some e
      | None =>
          match stock_findUnique db (ip_productId item) with
          | None => Some stock_changed
          | Some quantity =>
              if Num.lt quantity (ip_quantity item) then Some stock_changed
              else recheck_stock env db (S i) rest
          end
      end
  end.

(** The generated receipt number, [`SAL-${Date.now()}`]. *)
Definition generated_receiptNumber (env : Env) : string :=
  "SAL-" ++ pretty (date_now env).

(** The receipt number written by [tx.sale.create]. *)
Definition resolve_receiptNumber (env : Env) (receiptNumber : jsval) : string :=
  match receiptNumber with
  | VStr s =>
      if truthy receiptNumber && (0 <? String.length (trim P s))%nat
      then trim P s
      else generated_receiptNumber env
  | _ => generated_receiptNumber env
  end.

(** The row handed to [tx.sale.create], items included. *)
Definition new_sale (env : Env) (p : Prepared) : Sale :=
  {| sale_id := new_sale_id env;
     sale_receiptNumber := resolve_receiptNumber env (vr_receiptNumber (pr_request p));
     sale_userId := vr_userId (pr_request p);
     sale_paymentMethod := vr_paymentMethod (pr_request p);
     sale_subtotal := centsToAmount (pr_subtotalInCents p);
     sale_discount := Some (centsToAmount (pr_discountInCents p));
     sale_totalAmount :=
       centsToAmount (Num.sub (pr_subtotalInCents p) (pr_discountInCents p));
     sale_createdAt := created_at env;
     sale_items :=
       imap (fun i item => {| item_id := new_item_id env i;
                              item_productId := ip_productId item;
                              item_quantity := ip_quantity item;
                              item_price := ip_price item;
                              item_total := ip_total item |})
            (pr_itemsPayload p) |}.

(** [Promise.all(itemsPayload.map((item) => tx.stock.update(...)))]: the
    updates reach the transaction in order, the first failure is thrown. *)
Fixpoint decrement_stock (env : Env) (db : DB) (i : nat) (items : list ItemPayload)
  : js_error + DB :=
  match items with
  | [] => inr db
  | item :: rest =>
      match fault env (AtUpdate i) with
      | Some e => inl e
      | None =>
          match stock_update_decrement db (ip_productId item) (ip_quantity item) with
          | inl e => inl e
          | inr db' => decrement_stock env db' (S i) rest
          end
      end
  end.

(** The callback passed to [prisma.$transaction]. *)
Definition transaction_body (env : Env) (p : Prepared) (db : DB)
  : js_error + (SaleWithRelations * DB) :=
  match recheck_stock env db 0 (pr_itemsPayload p) with
  | Some e => inl e
  | None =>
      match fault env AtCreate with
      | Some e => inl e
      | None =>
          match sale_create db (new_sale env p) with
          | inl e => inl e
          | inr (createdSale, db1) =>
              match decrement_stock env db1 0 (pr_itemsPayload p) with
              | inl e => inl e
              | inr db2 => inr (createdSale, db2)
              end
          end
      end
  end.

(** [prisma.$transaction(callback, { timeout })]: the state after the
    callback is kept only if the callback returns and the commit goes
    through; otherwise the state is the one the transaction started from
    and the error is thrown on. *)
Definition transaction {A : Type} (env : Env)
           (callback : DB -> js_error + (A * DB)) (db : DB) : (js_error + A) * DB :=
  match callback db with
  | inl e => (inl e, db)
  | inr (a, db') =>
      match fault env AtCommit with
      | Some e => (inl e, db)
      | None => (inr a, db')
      end
  end.

(** *** The catch block *)

Definition handle_error (error : js_error) : response :=
  let message :=
    if is_Error error && negb (String.eqb (message error) EmptyString) then
      if includes (message error) "Insufficient stock"
         || includes (message error) "no stock record"
      then Some (message error)
      else None
    else None in
  match message with
  | Some m => error_response 400 m
  | None =>
      let metaMessage :=
        if bool_decide (code error = Some "P2002")
           && match meta_target error with
              | Some target => existsb (String.eqb "receiptNumber") target
              | None => false
              end
        then "Receipt number must be unique."
        else "Unable to create sale." in
      error_response 500 metaMessage
  end.

(** *** The POST handler

    [request] is the outcome of [request.json()]; [db_read] is the state
    the product query reads and [db_tx] the state the transaction starts
    from (the two differ when another request commits in between).  The
    result is the response and the state of the database afterwards. *)
Definition POST (env : Env) (request : js_error + jsval) (db_read db_tx : DB)
  : response * DB :=
  match request with
  | inl e => (handle_error e, db_tx)
  | inr body =>
      match validate body ≫= prepare env db_read with
      | Return r => (r, db_tx)
      | Throw e => (handle_error e, db_tx)
      | Next prepared =>
          match transaction env (transaction_body env prepared) db_tx with
          | (inl e, db) => (handle_error e, db)
          | (inr sale, db) =>
              ({| status := 201; body := SaleBody (formatSale sale) |}, db)
          end
      end
  end.

End Handler.

(** ** Vocabulary of the properties *)

(** What the loop over [items] guarantees of a sanitized item. *)
Definition valid_item (s : SanitizedItem) : Prop :=
  (exists q, si_quantity s = Fin q /\ (0 < q)%Q)
  /\ match si_priceOverride s with
     | Some o => exists p, o = Fin p /\ (0 <= p)%Q
     | None => True
     end.

(** The discount of a validated request is a number that is not negative. *)
Definition valid_discount (d : num) : Prop :=
  d = PInf \/ exists q, d = Fin q /\ (0 <= q)%Q.

(** The amount is exactly [c] minor units. *)
Definition is_cents (amount : num) (c : Z) : Prop :=
  Num.eq amount (centsToAmount (Num.of_Z c)).

Definition sum_cents (l : list Z) : Z := foldr Z.add 0%Z l.

(** No call to the persistence layer fails on its own. *)
Definition no_faults (env : Env) : Prop :=
  forall site, fault env site = None.

(** The receipt number is not yet stored. *)
Definition receipt_unused (db : DB) (receipt : string) : Prop :=
  Forall (fun old => sale_receiptNumber old <> receipt) (sales db).

(** A step inside the transaction fails with [e]: the callback throws [e],
    or the callback returns and the commit fails with [e]. *)
Definition transaction_fails (P : Platform) (env : Env) (prepared : Prepared)
           (db : DB) (e : js_error) : Prop :=
  transaction_body P env prepared db = inl e
  \/ exists r, transaction_body P env prepared db = inr r
               /\ fault env AtCommit = Some e.

(** The line passed the advisory check against the stock row of [db]. *)
Definition covered (db : DB) (item : ItemPayload) : Prop :=
  exists available,
    stock_findUnique db (ip_productId item) = Some available
    /\ Num.lt available (ip_quantity item) = false.


(** The parts of a body the validator looks at, as it reads them. *)
Definition body_field (body : jsval) (k : string) : jsval :=
  get (coalesce body (VObj [])) k.

Definition userId_present (body : jsval) : bool :=
  truthy (body_field body "userId").

Definition paymentMethod_accepted (P : Platform) (body : jsval) : bool :=
  truthy (body_field body "paymentMethod")
  && paymentMethodSet_has P (toUpperCase P (js_String P (body_field body "paymentMethod"))).

(** [items] when it is a non-empty array. *)
Definition items_of (body : jsval) : option (list jsval) :=
  match body_field body "items" with
  | VArr (first :: others) => Some (first :: others)
  | _ => None
  end.

Definition discount_of (P : Platform) (body : jsval) : num :=
  js_Number P (coalesce (if is_defined (body_field body "discount")
                         then body_field body "discount"
                         else VNum Num.zero)
                        (VNum Num.zero)).

(** The discount check rejects NaN and negative numbers. *)
Definition discount_rejected (P : Platform) (body : jsval) : bool :=
  Num.isNaN (discount_of P body) || Num.lt (discount_of P body) Num.zero.

(** The fields of an item, as the loop reads them. *)
Definition item_shape_ok (item : jsval) : bool :=
  truthy item && typeof_object item.

Definition item_quantity_rejected (P : Platform) (item : jsval) : bool :=
  negb (Num.isFinite (js_Number P (get item "quantity")))
  || Num.le (js_Number P (get item "quantity")) Num.zero.

Definition item_price_rejected (P : Platform) (item : jsval) : bool :=
  is_defined (get item "price")
  && (negb (Num.isFinite (js_Number P (get item "price")))
      || Num.lt (js_Number P (get item "price")) Num.zero).

(** The fallback chain applied to the attendant of a formatted sale. *)
Definition formatted_attendant_label (a : option FormattedAttendant) : string :=
  match a with
  | Some a =>
      match fa_fullName a with
      | Some n => n
      | None => default "Walk-in customer" (fa_username a)
      end
  | None => "Walk-in customer"
  end.




(** ** A platform on ASCII strings, to run the handler on examples

    The conversions below cover the strings and numbers of the examples
    only.  The members of the payment-method enumeration are taken to
    include CASH, the method of the scenario in the specification. *)

Module Scenario.

Definition upper_ascii (c : Ascii.ascii) : Ascii.ascii :=
  let n := Ascii.nat_of_ascii c in
  if (97 <=? n)%nat && (n <=? 122)%nat then Ascii.ascii_of_nat (n - 32) else c.

Fixpoint map_string (f : Ascii.ascii -> Ascii.ascii) (s : string) : string :=
  match s with
  | EmptyString => EmptyString
  | String c rest => String (f c) (map_string f rest)
  end.

Definition is_space (c : Ascii.ascii) : bool :=
  let n := Ascii.nat_of_ascii c in
  ((9 <=? n)%nat && (n <=? 13)%nat) || (n =? 32)%nat.

Fixpoint drop_spaces (s : string) : string :=
  match s with
  | String c rest => if is_space c then drop_spaces rest else s
  | EmptyString => EmptyString
  end.

Definition trim_ascii (s : string) : string :=
  String.rev (drop_spaces (String.rev (drop_spaces s))).

Fixpoint digits_value (acc : Z) (s : string) : option Z :=
  match s with
  | EmptyString => Some acc
  | String c rest =>
      let n := Z.of_nat (Ascii.nat_of_ascii c) in
      if (48 <=? n)%Z && (n <=? 57)%Z then digits_value (10 * acc + (n - 48)) rest
      else None
  end.

Definition number_of_string (s : string) : num :=
  match digits_value 0 s with
  | Some z => Num.of_Z z
  | None => NaN
  end.

Definition string_of_number (n : num) : string :=
  match n with
  | NaN => "NaN"
  | PInf => "Infinity"
  | NInf => "-Infinity"
  | Fin q =>
      let r := Qred q in
      if (Zpos (Qden r) =? 1)%Z then pretty (Qnum r)
      else pretty (Qnum r) ++ "/" ++ pretty (Zpos (Qden r))
  end.

Definition platform : Platform :=
  {| str_to_num := number_of_string;
     num_to_str := string_of_number;
     obj_to_str := fun _ => "[object Object]";
     toUpperCase := map_string upper_ascii;
     trim := trim_ascii;
     paymentMethodValues := ["CASH"; "MOBILE_MONEY"; "CARD"] |}.

Definition no_fault : call_site -> option js_error := fun _ => None.

Definition env (now : Z) : Env :=
  {| fault := no_fault;
     date_now := now;
     created_at := now;
     new_sale_id := "sale-" ++ pretty now;
     new_item_id := fun i => "item-" ++ pretty i |}.

Definition num_of (n d : Z) : num := Fin (n # Z.to_pos d).

(** One product, P1, at 9.99 with 5 units in stock, and one user. *)
Definition shop : DB :=
  {| products := {[ "P1" := {| product_name := "Soap";
                               product_sku := "S-1";
                               product_price := num_of 999 100 |} ]};
     stocks := {[ "P1" := Num.of_Z 5 ]};
     users := {[ "U1" := {| user_fullName := Some "Ama"; user_username := Some "ama" |} ]};
     sales := [] |}.

Definition line (productId : string) (quantity : Z) : jsval :=
  VObj [("productId", VStr productId); ("quantity", VNum (Num.of_Z quantity))].

Definition request (items : list jsval) (extra : list (string * jsval)) : jsval :=
  VObj ([("userId", VStr "U1"); ("paymentMethod", VStr "cash"); ("items", VArr items)]
          ++ extra)%list.

(** A line with a price override. *)
Definition line_at (productId : string) (quantity : Z) (price : num) : jsval :=
  VObj [("productId", VStr productId); ("quantity", VNum (Num.of_Z quantity));
        ("price", VNum price)].


Definition error_of (r : response) : option string :=
  match body r with
  | ErrorBody e => Some e
  | SaleBody _ => None
  end.

(** An item without productId, and a body that carries it together with a
    negative discount. *)
Definition item_without_productId : jsval :=
  VObj [("quantity", VNum (Num.of_Z 1))].

Definition bad_item_and_bad_discount : jsval :=
  request [item_without_productId] [("discount", VNum (Num.of_Z (-1)))].


(** A stored sale without attendant, and one whose attendant has a username
    but no full name. *)
Definition stored_sale : Sale :=
  {| sale_id := "sale-1";
     sale_receiptNumber := "R-1";
     sale_userId := VStr "U2";
     sale_paymentMethod := "CASH";
     sale_subtotal := num_of 999 100;
     sale_discount := None;
     sale_totalAmount := num_of 999 100;
     sale_createdAt := 1000;
     sale_items := [{| item_id := "item-1";
                       item_productId := VStr "P7";
                       item_quantity := Num.of_Z 1;
                       item_price := num_of 999 100;
                       item_total := num_of 999 100 |}] |}.

Definition sale_without_attendant : SaleWithRelations :=
  {| swr_sale := stored_sale;
     swr_attendant := None;
     swr_items := [{| iwp_item := {| item_id := "item-1";
                                     item_productId := VStr "P7";
                                     item_quantity := Num.of_Z 1;
                                     item_price := num_of 999 100;
                                     item_total := num_of 999 100 |};
                      iwp_product := None |}] |}.

Definition sale_by_username_only : SaleWithRelations :=
  {| swr_sale := stored_sale;
     swr_attendant := Some ("U2", {| user_fullName := None;
                                     user_username := Some "kofi" |});
     swr_items := [] |}.

(** The shop with another quantity of P1 in stock. *)
Definition shop_with_stock (quantity : Z) : DB :=
  with_stocks shop {[ "P1" := Num.of_Z quantity ]}.

(** The error of a transaction that ran out of time. *)
Definition timeout_error : js_error :=
  {| is_Error := true;
     message := "Transaction already closed: the timeout of 30000 ms has passed.";
     code := Some "P2028";
     meta_target := None |}.

(** An environment in which the second stock update of the transaction
    fails with the timeout. *)
Definition env_timeout : Env :=
  {| fault := fun site => match site with
                          | AtUpdate 1 => Some timeout_error
                          | _ => None
                          end;
     date_now := 1000;
     created_at := 1000;
     new_sale_id := "sale-1000";
     new_item_id := fun i => "item-" ++ pretty i |}.

(** Two units of P1, 19.98 in all, with a discount given in cents. *)
Definition two_units (discount_cents : Z) : jsval :=
  request [line "P1" 2] [("discount", VNum (num_of discount_cents 100))].

(** One unit of P1 at an overriding price. *)
Definition one_unit_at (price : num) : jsval :=
  request [line_at "P1" 1 price] [].


End Scenario.


(** * Further parts of the code *)

From Stdlib Require Import Lqa.
From Stdlib Require Qabs.
From Stdlib Require Import Sorted.

(** ** Vocabulary of the further properties of the handler *)

(** The productIds a body names, item by item. *)
Definition named_products (body : jsval) : list jsval :=
  match items_of body with
  | Some items => map (fun item => get item "productId") items
  | None => []
  end.

(** The id is the id of a product of the database. *)
Definition in_catalog (db : DB) (id : jsval) : bool :=
  match id with
  | VStr s => bool_decide (is_Some (products db !! s))
  | _ => false
  end.

(** The receipt numbers of the stored sales. *)
Definition receiptNumbers (db : DB) : list string :=
  map sale_receiptNumber (sales db).

(** The line can be sold from [db]: its product exists, the stock row of the
    product covers the quantity, and the resolved unit price is a finite
    number above 0. *)
Definition sellable (db : DB) (item : SanitizedItem) : Prop :=
  exists (s : string) (product : Product) (available : num),
    si_productId item = VStr s
    /\ products db !! s = Some product
    /\ stocks db !! s = Some available
    /\ Num.gt (si_quantity item) available = false
    /\ Num.isFinite (resolve_unitPrice (si_priceOverride item) (product_price product))
       = true
    /\ Num.le (resolve_unitPrice (si_priceOverride item) (product_price product))
              Num.zero = false.

(** The row [prisma.product.findMany] returns for product [s]. *)
Definition product_row (db : DB) (s : string) (product : Product) : ProductWithStock :=
  {| pws_id := s;
     pws_name := product_name product;
     pws_price := product_price product;
     pws_stock := stocks db !! s |}.

(** Why the pricing of [item], a line for product [s], throws [e]: the
    product has no stock row, the line asks for more than the row holds, or
    the resolved unit price is not a finite number above 0. *)
Definition pricing_failure (P : Platform) (db : DB) (item : SanitizedItem)
           (s : string) (product : Product) (e : js_error) : Prop :=
  (stocks db !! s = None
   /\ e = Error ("Product " ++ dquote ++ product_name product ++ dquote
                   ++ " has no stock record."))
  \/ (exists available,
         stocks db !! s = Some available
         /\ Num.gt (si_quantity item) available = true
         /\ e = Error ("Insufficient stock for " ++ product_name product
                         ++ ". Available: " ++ num_to_str P available))
  \/ (exists available,
         stocks db !! s = Some available
         /\ Num.gt (si_quantity item) available = false
         /\ (negb (Num.isFinite (resolve_unitPrice (si_priceOverride item)
                                                   (product_price product)))
             || Num.le (resolve_unitPrice (si_priceOverride item)
                                          (product_price product)) Num.zero) = true
         /\ e = Error ("Invalid price for " ++ product_name product ++ ".")).

(** ** Further example data *)

Module Cases.

(** Soap and rice in stock, and a product without stock row. *)
Definition shop : DB :=
  {| products := {[ "P1" := {| product_name := "Soap";
                               product_sku := "S-1";
                               product_price := Scenario.num_of 999 100 |};
                    "P2" := {| product_name := "Rice";
                               product_sku := "R-1";
                               product_price := Scenario.num_of 2500 100 |};
                    "P3" := {| product_name := "Salt";
                               product_sku := "T-1";
                               product_price := Scenario.num_of 150 100 |} ]};
     stocks := {[ "P1" := Num.of_Z 5; "P2" := Num.of_Z 2 ]};
     users := {[ "U1" := {| user_fullName := Some "Ama"; user_username := Some "ama" |} ]};
     sales := [Scenario.stored_sale] |}.

(** Two units of soap, as a body and as the validator sanitizes it. *)
Definition soap_body : jsval := Scenario.request [Scenario.line "P1" 2] [].

Definition soap_request : ValidRequest :=
  {| vr_receiptNumber := VUndef;
     vr_userId := VStr "U1";
     vr_paymentMethod := "CASH";
     vr_discount := Num.zero;
     vr_items := [{| si_productId := VStr "P1";
                     si_quantity := Num.of_Z 2;
                     si_priceOverride := None |}] |}.

(** Nine units of soap, more than the stock holds. *)
Definition greedy_body : jsval := Scenario.request [Scenario.line "P1" 9] [].

Definition greedy_request : ValidRequest :=
  {| vr_receiptNumber := VUndef;
     vr_userId := VStr "U1";
     vr_paymentMethod := "CASH";
     vr_discount := Num.zero;
     vr_items := [{| si_productId := VStr "P1";
                     si_quantity := Num.of_Z 9;
                     si_priceOverride := None |}] |}.

(** A body that names two products the shop does not have, one of them
    twice. *)
Definition unknown_body : jsval :=
  Scenario.request [Scenario.line "P1" 1; Scenario.line "P9" 1;
                    Scenario.line "P8" 1; Scenario.line "P9" 2] [].

Definition unknown_request : ValidRequest :=
  {| vr_receiptNumber := VUndef;
     vr_userId := VStr "U1";
     vr_paymentMethod := "CASH";
     vr_discount := Num.zero;
     vr_items := [{| si_productId := VStr "P1"; si_quantity := Num.of_Z 1;
                     si_priceOverride := None |};
                  {| si_productId := VStr "P9"; si_quantity := Num.of_Z 1;
                     si_priceOverride := None |};
                  {| si_productId := VStr "P8"; si_quantity := Num.of_Z 1;
                     si_priceOverride := None |};
                  {| si_productId := VStr "P9"; si_quantity := Num.of_Z 2;
                     si_priceOverride := None |}] |}.

(** Two units of soap under the receipt number of the stored sale. *)
Definition taken_receipt_body : jsval :=
  Scenario.request [Scenario.line "P1" 2] [("receiptNumber", VStr "R-1")].

Definition taken_receipt_request : ValidRequest :=
  {| vr_receiptNumber := VStr "R-1";
     vr_userId := VStr "U1";
     vr_paymentMethod := "CASH";
     vr_discount := Num.zero;
     vr_items := [{| si_productId := VStr "P1";
                     si_quantity := Num.of_Z 2;
                     si_priceOverride := None |}] |}.

End Cases.

(** ** More of the operations on numbers *)

(** [Math.abs] *)
Definition Math_abs (a : num) : num :=
  match a with
  | NaN => NaN
  | PInf | NInf => PInf
  | Fin q => Fin (Qabs.Qabs q)
  end.

(** [Math.min] and [Math.max] of two numbers. *)
Definition Math_min (a b : num) : num :=
  if Num.isNaN a || Num.isNaN b then NaN else if Num.lt b a then b else a.

Definition Math_max (a b : num) : num :=
  if Num.isNaN a || Num.isNaN b then NaN else if Num.lt a b then b else a.

(** [a >= b] *)
Definition Num_ge (a b : num) : bool := Num.le b a.

Definition ten_pow (f : nat) : Q := inject_Z (10 ^ Z.of_nat f).

(** [Number(x.toFixed(f))].  [toFixed] prints a value that is not finite by
    name and a finite value of magnitude 10^21 or more in full, so the
    number read back is the value itself; below that it prints the sign and
    n / 10^f for the integer n nearest to the magnitude times 10^f, the
    larger n on a tie. *)
Definition Number_toFixed (f : nat) (x : num) : num :=
  match x with
  | Fin q =>
      if Qle_bool (inject_Z (10 ^ 21)) (Qabs.Qabs q) then Fin q
      else
        let n := Qfloor (Qabs.Qabs q * ten_pow f + (1 # 2)) in
        if Qle_bool 0 q then Fin (inject_Z n / ten_pow f)
        else Fin (- (inject_Z n / ten_pow f))
  | _ => x
  end.

(** ** Week-over-week changes: [buildChangeSummary] and [describeChange] *)

Record MetricChange : Type := {
  mc_delta : num;
  mc_percentage : option num;
}.

Definition buildChangeSummary (current previous : num) : MetricChange :=
  let delta := Num.sub current previous in
  let percentage :=
    if Num.eqb previous Num.zero then
      if Num.eqb current Num.zero then Some Num.zero else None
    else
      Some (Number_toFixed 1
              (Num.mul (Num.div delta (Math_abs previous)) (Num.of_Z 100))) in
  {| mc_delta := delta; mc_percentage := percentage |}.

Inductive ChangeType : Type :=
| positive
| negative.

Record ChangeDescriptor : Type := {
  cd_text : string;
  cd_type : ChangeType;
}.

Record DescribeChangeOptions : Type := {
  descriptor : string;
  formatter : option (num -> string);
  fallbackText : option string;
}.

(** The number formatting of the browser: [x.toFixed(f)] as a string and
    [x.toLocaleString()]. *)
Record Display : Type := {
  toFixed_string : nat -> num -> string;
  toLocaleString : num -> string;
}.

Definition describeChange (D : Display) (change : option MetricChange)
           (options : DescribeChangeOptions) : ChangeDescriptor :=
  match change with
  | None =>
      {| cd_text := default "No prior data" (fallbackText options);
         cd_type := positive |}
  | Some change =>
      let isPositive := Num_ge (mc_delta change) Num.zero in
      let sign := if isPositive then "+" else "-" in
      match mc_percentage change with
      | Some percentage =>
          let percentageValue := toFixed_string D 1 (Math_abs percentage) in
          {| cd_text := sign ++ percentageValue ++ "% " ++ descriptor options;
             cd_type := if isPositive then positive else negative |}
      | None =>
          let absoluteDelta := Math_abs (mc_delta change) in
          let formattedDelta :=
            match formatter options with
            | Some format => format absoluteDelta
            | None => toLocaleString D absoluteDelta
            end in
          {| cd_text := sign ++ formattedDelta ++ " " ++ descriptor options;
             cd_type := if isPositive then positive else negative |}
      end
  end.

(** ** The summary of the sales listing: [buildRevenueOverview] and
    [buildSalesSummary] *)

(** The calendar of the platform, on instants in milliseconds. *)
Record Calendar : Type := {
  (** [date.setDate(today.getDate() - k)] on a copy of [today] *)
  days_before : Z -> nat -> Z;
  (** [date.toISOString().slice(0, 10)] *)
  iso_date : Z -> string;
  (** [date.toLocaleDateString('en-US', { weekday: 'short' })] *)
  weekday_short : Z -> string;
}.

Section Summary.
Context (C : Calendar).

(** The keys and labels of the last seven days, oldest first. *)
Definition lastSevenDays (today : Z) : list (string * string) :=
  map (fun index =>
         let date := days_before C today (6 - index) in
         (iso_date C date, weekday_short C date))
      (seq 0 7).

(** The [Map] from date key to revenue that the reduction builds. *)
Definition revenueByDate (sales : list FormattedSale) : gmap string num :=
  foldl (fun m sale =>
           let saleDateKey := iso_date C (fs_createdAt sale) in
           let currentTotal := default Num.zero (m !! saleDateKey) in
           <[saleDateKey := Num.add currentTotal (fs_totalAmount sale)]> m)
        ∅ sales.

Definition buildRevenueOverview (today : Z) (sales : list FormattedSale)
  : list (string * num) :=
  map (fun day =>
         (day.2, Number_toFixed 2 (default Num.zero (revenueByDate sales !! day.1))))
      (lastSevenDays today).



End Summary.

(** The totals of the sales of one date key, added up in the order of the
    sales. *)
Definition revenue_of_day (C : Calendar) (key : string) (sales : list FormattedSale)
  : num :=
  foldl Num.add Num.zero
        (map fs_totalAmount
             (filter (fun sale => iso_date C (fs_createdAt sale) = key) sales)).

(** ** Array operations *)

(** [array.slice(start, end)]: a negative index counts from the end, and
    both ends are clamped to the array. *)
Definition slice {A : Type} (l : list A) (start end_ : Z) : list A :=
  let len := Z.of_nat (length l) in
  let k := if (start <? 0)%Z then Z.max (len + start) 0 else Z.min start len in
  let final := if (end_ <? 0)%Z then Z.max (len + end_) 0 else Z.min end_ len in
  take (Z.to_nat (final - k)) (drop (Z.to_nat k) l).

(** [Array.from({ length }, (_, index) => f(index))]. *)
Definition Array_from (length : Z) (f : Z -> Z) : list Z :=
  map (fun index => f (Z.of_nat index)) (seq 0 (Z.to_nat length)).

(** ** The transactions table of the sales page: pages and page numbers *)

Module SalesPage.

Definition TRANSACTIONS_PER_PAGE : Z := 6.

Definition totalPages {A : Type} (filteredTransactions : list A) : Z :=
  if (length filteredTransactions =? 0)%nat then 0%Z
  else Qceiling (inject_Z (Z.of_nat (length filteredTransactions))
                 / inject_Z TRANSACTIONS_PER_PAGE).

Definition paginatedTransactions {A : Type}
  (filteredTransactions : list A) (currentPage : Z) : list A :=
  if (length filteredTransactions =? 0)%nat then []
  else
    let startIndex := ((currentPage - 1) * TRANSACTIONS_PER_PAGE)%Z in
    slice filteredTransactions startIndex (startIndex + TRANSACTIONS_PER_PAGE).

Definition paginationNumbers (totalPages currentPage : Z) : list Z :=
  if (totalPages <=? 1)%Z then [1%Z]
  else
    let VISIBLE_PAGES := 5%Z in
    if (totalPages <=? VISIBLE_PAGES)%Z
    then Array_from totalPages (fun index => (index + 1)%Z)
    else
      let halfWindow := Qfloor (inject_Z VISIBLE_PAGES / 2) in
      let start := (currentPage - halfWindow)%Z in
      let end_ := (currentPage + halfWindow)%Z in
      let '(start, end_) :=
        if (start <? 1)%Z then (1%Z, VISIBLE_PAGES) else (start, end_) in
      let '(start, end_) :=
        if (totalPages <? end_)%Z
        then ((totalPages - VISIBLE_PAGES + 1)%Z, totalPages)
        else (start, end_) in
      Array_from (end_ - start + 1) (fun index => (start + index)%Z).

Definition showingFrom {A : Type} (filteredTransactions : list A) (currentPage : Z) : Z :=
  if (length filteredTransactions =? 0)%nat then 0%Z
  else ((currentPage - 1) * TRANSACTIONS_PER_PAGE + 1)%Z.

Definition showingTo {A : Type} (filteredTransactions : list A) (currentPage : Z) : Z :=
  if (length filteredTransactions =? 0)%nat then 0%Z
  else Z.min (currentPage * TRANSACTIONS_PER_PAGE)
             (Z.of_nat (length filteredTransactions)).

(** The buttons under the table and what each does to [currentPage]. *)
Inductive Button : Type :=
| Previous
| PageNumber (page : Z)
| Next.

Definition click (totalPages : Z) (button : Button) (prev : Z) : Z :=
  match button with
  | Previous => Z.max (prev - 1) 1
  | PageNumber page => page
  | Next => Z.min (prev + 1) totalPages
  end.

(** The buttons that are rendered under the table: [Previous], [Next], and
    one button per page number. *)
Definition rendered (totalPages currentPage : Z) (button : Button) : Prop :=
  match button with
  | PageNumber page => page ∈ paginationNumbers totalPages currentPage
  | Previous | Next => True
  end.

(** The effect that brings [currentPage] back into range. *)
Definition clamp_effect (totalPages currentPage : Z) : Z :=
  if ((0 <? totalPages) && (totalPages <? currentPage))%Z then totalPages
  else currentPage.

End SalesPage.

(** [array.sort(compare)]: the stable sort by a comparator; [a] stays before
    [b] unless [compare a b] is positive. *)
Fixpoint sort_insert {A : Type} (compare : A -> A -> Z) (x : A) (l : list A) : list A :=
  match l with
  | [] => [x]
  | y :: rest =>
      if (0 <? compare x y)%Z then y :: sort_insert compare x rest
      else x :: y :: rest
  end.

Definition Array_sort {A : Type} (compare : A -> A -> Z) (l : list A) : list A :=
  foldr (sort_insert compare) [] l.

(** ** The dashboard route: recent activity and quick statistics *)

Module Dashboard.

Definition LOW_STOCK_THRESHOLD : Z := 10.
Definition MAX_ACTIVITY_ITEMS : Z := 6.

(** A sale with its attendant, and a product, as the two queries of the
    activity feed return them. *)
Record RecentSale : Type := {
  rs_id : string;
  rs_attendant : option User;
  rs_totalAmount : option num;
  rs_createdAt : Z;
}.

Record ProductRecord : Type := {
  prod_id : string;
  prod_name : string;
  prod_createdAt : Z;
}.

Record Activity : Type := {
  act_id : string;
  act_action : string;
  act_context : string;
  act_amount : option num;
  act_timestamp : string;
}.

Section Activities.
(** [date.toISOString()] and [new Date(text).getTime()]. *)
Context (toISOString : Z -> string) (Date_getTime : string -> Z).

Definition saleActivity (sale : RecentSale) : Activity :=
  {| act_id := rs_id sale;
     act_action := "Sale completed";
     act_context := activity_context (rs_attendant sale);
     act_amount := Some (default Num.zero (rs_totalAmount sale));
     act_timestamp := toISOString (rs_createdAt sale) |}.

Definition productActivity (product : ProductRecord) : Activity :=
  {| act_id := prod_id product;
     act_action := "Product added";
     act_context := prod_name product;
     act_amount := None;
     act_timestamp := toISOString (prod_createdAt product) |}.

Definition newest_first (a b : Activity) : Z :=
  (Date_getTime (act_timestamp b) - Date_getTime (act_timestamp a))%Z.

Definition buildRecentActivity (sales : list RecentSale) (products : list ProductRecord)
  : list Activity :=
  slice (Array_sort newest_first
                    (map saleActivity sales ++ map productActivity products)%list)
        0 MAX_ACTIVITY_ITEMS.

End Activities.

(** A sale of the current week as the overview query selects it. *)
Record WeeklySale : Type := {
  ws_createdAt : Z;
  ws_totalAmount : option num;
}.

Section Overview.
(** The calendar, and [date.setHours(0, 0, 0, 0)]. *)
Context (C : Calendar) (start_of_day : Z -> Z).

Definition days (now : Z) : list (string * string) :=
  let today := start_of_day now in
  map (fun index =>
         let date := days_before C today (6 - index) in
         (iso_date C date, weekday_short C date))
      (seq 0 7).

Definition weekly_revenueByDate (sales : list WeeklySale) : gmap string num :=
  foldl (fun m sale =>
           let key := iso_date C (ws_createdAt sale) in
           let amount := default Num.zero (ws_totalAmount sale) in
           <[key := Num.add (default Num.zero (m !! key)) amount]> m)
        ∅ sales.

Definition buildWeeklySalesOverview (now : Z) (sales : list WeeklySale)
  : list (string * num) :=
  map (fun day =>
         (day.2, Number_toFixed 2 (default Num.zero (weekly_revenueByDate sales !! day.1))))
      (days now).

End Overview.

(** The amounts of the sales of one date key, added up in the order of the
    sales; a sale without total counts as 0. *)
Definition weekly_revenue_of_day (C : Calendar) (key : string) (sales : list WeeklySale)
  : num :=
  foldl Num.add Num.zero
        (map (fun sale => default Num.zero (ws_totalAmount sale))
             (filter (fun sale => iso_date C (ws_createdAt sale) = key) sales)).


Definition conversionRate (totalSales totalProducts : Z) : num :=
  if (0 <? totalProducts)%Z
  then Math_min (Num.of_Z 100)
                (Num.mul (Num.div (Num.of_Z totalSales) (Num.of_Z totalProducts))
                         (Num.of_Z 100))
  else if (0 <? totalSales)%Z then Num.of_Z 100 else Num.zero.

Definition previousTotalProducts (totalProducts productsCreatedThisWeek : Z) : num :=
  Math_max (Num.sub (Num.of_Z totalProducts) (Num.of_Z productsCreatedThisWeek))
           Num.zero.

(** [metricChanges.totalProducts]. *)
Definition totalProducts_change (totalProducts productsCreatedThisWeek : Z) : MetricChange :=
  buildChangeSummary (Num.of_Z totalProducts)
                     (previousTotalProducts totalProducts productsCreatedThisWeek).

End Dashboard.

(** ** The inventory route *)

Module Inventory.

Definition LOW_STOCK_THRESHOLD : num := Num.of_Z 10.
Definition REORDER_LEVEL_DEFAULT : num := Num.of_Z 20.

Inductive InventoryStatus : Type := in_stock | low_stock | out_of_stock.

#[global] Instance InventoryStatus_eq_dec : EqDecision InventoryStatus.
Proof. solve_decision. Defined.

Definition determineStatus (quantity : num) : InventoryStatus :=
  if Num.le quantity Num.zero then out_of_stock
  else if Num.le quantity LOW_STOCK_THRESHOLD then low_stock
  else in_stock.

(** A stock row and a product with its stock row, as the query returns
    them.  The quantity is taken as the number that the conversion of the
    handler yields. *)
Record StockRow : Type := {
  stock_quantity : num;
  stock_lastUpdatedAt : option Z;
}.

Record StockedProduct : Type := {
  sp_id : string;
  sp_name : string;
  sp_sku : option string;
  sp_updatedAt : Z;
  sp_stock : option StockRow;
}.

Record InventoryItem : Type := {
  ii_id : string;
  ii_name : string;
  ii_sku : string;
  ii_quantity : num;
  ii_reorderLevel : num;
  ii_status : InventoryStatus;
  ii_lastRestocked : string;
}.

Record Metrics : Type := {
  totalUnits : num;
  productCount : nat;
  lowStockCount : nat;
  outOfStockCount : nat;
}.

Section Items.
(** [date.toISOString()] *)
Context (toISOString : Z -> string).

Definition item_of (product : StockedProduct) : InventoryItem :=
  let quantity := default Num.zero (stock_quantity <$> sp_stock product) in
  let status := determineStatus quantity in
  let reorderLevel :=
    Math_max REORDER_LEVEL_DEFAULT (Num.round (Num.mul quantity (Fin (1 # 2)))) in
  {| ii_id := sp_id product;
     ii_name := sp_name product;
     ii_sku := default "" (sp_sku product);
     ii_quantity := if Num.isFinite quantity then quantity else Num.zero;
     ii_reorderLevel := reorderLevel;
     ii_status := status;
     ii_lastRestocked :=
       default (toISOString (sp_updatedAt product))
               (toISOString <$> (sp_stock product ≫= stock_lastUpdatedAt)) |}.

Definition items (products : list StockedProduct) : list InventoryItem :=
  map item_of products.

Definition metrics (products : list StockedProduct) : Metrics :=
  let items := items products in
  {| totalUnits := foldl (fun sum item => Num.add sum (ii_quantity item)) Num.zero items;
     productCount := length items;
     lowStockCount := length (filter (fun item => ii_status item = low_stock) items);
     outOfStockCount := length (filter (fun item => ii_status item = out_of_stock) items) |}.

End Items.

(** [getStockPercentage] of the inventory page. *)
Definition getStockPercentage (stock reorderLevel : num) : num :=
  let doubled := Num.mul reorderLevel (Num.of_Z 2) in
  let denominator :=
    if Num.isNaN doubled || Num.eqb doubled Num.zero then Num.of_Z 1 else doubled in
  let percentage := Num.mul (Num.div stock denominator) (Num.of_Z 100) in
  Math_min percentage (Num.of_Z 100).

End Inventory.

(** The quantity that a product adds to the total of units: the quantity of
    its stock row when that is a finite number, and 0 otherwise. *)
Definition counted_quantity (product : Inventory.StockedProduct) : Q :=
  match Inventory.sp_stock product with
  | Some {| Inventory.stock_quantity := Fin q |} => q
  | _ => 0
  end.

(** ** The seeding script: [generateSku] *)

Module Seed.

Definition is_digit (c : Ascii.ascii) : bool :=
  let n := Ascii.nat_of_ascii c in
  (48 <=? n)%nat && (n <=? 57)%nat.

(** A character of the class [[A-Z0-9]]. *)
Definition is_upper_or_digit (c : Ascii.ascii) : bool :=
  let n := Ascii.nat_of_ascii c in
  ((65 <=? n)%nat && (n <=? 90)%nat) || is_digit c.

Definition dash : Ascii.ascii := Ascii.ascii_of_nat 45.
Definition zero_digit : Ascii.ascii := Ascii.ascii_of_nat 48.

Definition is_dash (c : Ascii.ascii) : bool :=
  (Ascii.nat_of_ascii c =? 45)%nat.

(** [text.replace(/[^A-Z0-9]+/g, '-')]: every maximal run of other
    characters becomes one dash.  [in_run] tells that the character before
    was part of such a run. *)
Fixpoint replace_other_runs (in_run : bool) (text : string) : string :=
  match text with
  | EmptyString => EmptyString
  | String c rest =>
      if is_upper_or_digit c then String c (replace_other_runs false rest)
      else if in_run then replace_other_runs true rest
      else String dash (replace_other_runs true rest)
  end.

(** [text.replace(/^-+|-+$/g, '')]: the dashes at the start and those at the
    end are removed. *)
Fixpoint drop_leading_dashes (text : string) : string :=
  match text with
  | String c rest => if is_dash c then drop_leading_dashes rest else text
  | EmptyString => EmptyString
  end.

Fixpoint drop_trailing_dashes (text : string) : string :=
  match text with
  | EmptyString => EmptyString
  | String c rest =>
      match drop_trailing_dashes rest with
      | EmptyString => if is_dash c then EmptyString else String c EmptyString
      | kept => String c kept
      end
  end.

Fixpoint repeat_char (n : nat) (c : Ascii.ascii) : string :=
  match n with
  | O => EmptyString
  | S n' => String c (repeat_char n' c)
  end.

(** [text.padStart(targetLength, fill)] for a filler of one character. *)
Definition padStart (targetLength : nat) (fill : Ascii.ascii) (text : string) : string :=
  repeat_char (targetLength - String.length text) fill +:+ text.

Section Sku.
(** [name.toUpperCase()] *)
Context (toUpperCase : string -> string).

Definition sku_base (name : string) : string :=
  String.substring 0 40
    (drop_trailing_dashes
       (drop_leading_dashes (replace_other_runs false (toUpperCase name)))).

Definition sku_suffix (index : nat) : string :=
  padStart 4 zero_digit (pretty (N.of_nat (index + 1))).

Definition generateSku (name : string) (index : nat) : string :=
  let base := sku_base name in
  let suffix := sku_suffix index in
  (if String.eqb base "" then "ITEM" else base) +:+ "-" +:+ suffix.

End Sku.

End Seed.

(** Every character of the text satisfies the test. *)
Fixpoint string_forall (test : Ascii.ascii -> bool) (text : string) : bool :=
  match text with
  | EmptyString => true
  | String c rest => test c && string_forall test rest
  end.

(** A character that may occur in a SKU: a capital letter, a digit or a
    dash. *)
Definition sku_char (c : Ascii.ascii) : bool :=
  Seed.is_upper_or_digit c || Seed.is_dash c.

(** * Properties *)

(** ** Numbers *)

Lemma toCents_Fin (u : Q) :
  toCents (Fin u) = Num.of_Z (Qfloor (u * inject_Z 100 + (1 # 2))).
Proof. reflexivity. Qed.


Lemma le_zero_false (q : Q) : Num.le (Fin q) Num.zero = false -> (0 < q)%Q.
Proof.
  unfold Num.le, Num.lt, Num.eqb, Num.zero.
  intros H. apply orb_false_iff in H as [Hlt Heq].
  apply negb_false_iff, Qle_bool_iff in Hlt.
  destruct (Qeq_bool q 0) eqn:E; [discriminate |].
  apply Qeq_bool_neq in E.
  apply Qle_lteq in Hlt as [Hlt | Hq]; [exact Hlt |].
  exfalso. apply E. symmetry. exact Hq.
Qed.

Lemma lt_zero_false (q : Q) : Num.lt (Fin q) Num.zero = false -> (0 <= q)%Q.
Proof.
  unfold Num.lt, Num.zero. intros H.
  apply negb_false_iff, Qle_bool_iff in H. exact H.
Qed.

Lemma isFinite_true (n : num) : Num.isFinite n = true -> exists q, n = Fin q.
Proof. destruct n; try discriminate. intros _. eauto. Qed.

(** ** Request validator *)

Lemma sanitize_item_valid (P : Platform) (index : nat) (item : jsval) (s : SanitizedItem) :
  sanitize_item P index item = Next s -> valid_item s.
Proof.
  unfold sanitize_item, bad_request.
  destruct (negb (truthy item) || negb (typeof_object item)); [discriminate |].
  destruct (negb (truthy (get item "productId"))); [discriminate |].
  destruct (negb (Num.isFinite (js_Number P (get item "quantity")))
            || Num.le (js_Number P (get item "quantity")) Num.zero) eqn:Hq;
    [discriminate |].
  apply orb_false_iff in Hq as [Hfin Hpos].
  apply negb_false_iff, isFinite_true in Hfin as [q Hq].
  rewrite Hq in Hpos. apply le_zero_false in Hpos.
  destruct (is_defined (get item "price")).
  - destruct (negb (Num.isFinite (js_Number P (get item "price")))
              || Num.lt (js_Number P (get item "price")) Num.zero) eqn:Hp;
      [discriminate |].
    apply orb_false_iff in Hp as [Hpfin Hpge].
    apply negb_false_iff, isFinite_true in Hpfin as [p Hp].
    rewrite Hp in Hpge. apply lt_zero_false in Hpge.
    intros [= <-]. split; simpl; eauto.
  - intros [= <-]. split; simpl; eauto.
Qed.

Lemma sanitize_items_valid (P : Platform) (items : list jsval) :
  forall (index : nat) (l : list SanitizedItem),
    sanitize_items P index items = Next l -> Forall valid_item l.
Proof.
  induction items as [| item rest IH]; intros index l; simpl.
  - intros [= <-]. constructor.
  - destruct (sanitize_item P index item) as [s | r | e] eqn:Hs; simpl; try discriminate.
    destruct (sanitize_items P (S index) rest) as [more | r | e] eqn:Hm; simpl;
      try discriminate.
    intros [= <-]. constructor.
    + eapply sanitize_item_valid; eassumption.
    + eapply IH; eassumption.
Qed.

Lemma validate_valid (P : Platform) (body : jsval) (req : ValidRequest) :
  validate P body = Next req ->
  Forall valid_item (vr_items req) /\ valid_discount (vr_discount req).
Proof.
  unfold validate, bad_request.
  set (b := coalesce body (VObj [])).
  set (discount := if is_defined (get b "discount") then get b "discount"
                   else VNum Num.zero).
  destruct (negb (truthy (get b "userId"))); [discriminate |].
  destruct (negb (truthy (get b "paymentMethod")) || _); [discriminate |].
  destruct (get b "items") as [| | | | | [| first others] |]; try discriminate.
  destruct (Num.isNaN _ || Num.lt _ Num.zero) eqn:Hd; [discriminate |].
  apply orb_false_iff in Hd as [Hnan Hneg].
  destruct (sanitize_items P 0 (first :: others)) as [l | r | e] eqn:Hl;
    try discriminate.
  cbn. intros [= <-]. simpl. split.
  - eapply sanitize_items_valid; eassumption.
  - unfold valid_discount.
    destruct (js_Number P (coalesce discount (VNum Num.zero))) as [| | | q];
      try discriminate; [by left | right].
    exists q. split; [reflexivity | by apply lt_zero_false].
Qed.

(** ** Pricing calculator *)

Lemma price_item_Next (P : Platform) (pm : gmap string ProductWithStock)
      (item : SanitizedItem) (payload : ItemPayload) (line : num) :
  valid_item item ->
  price_item P pm item = Next (payload, line) ->
  exists product available q u,
    productMap_get pm (si_productId item) = Some product
    /\ pws_stock product = Some available
    /\ si_quantity item = Fin q /\ (0 < q)%Q
    /\ Num.gt (Fin q) available = false
    /\ resolve_unitPrice (si_priceOverride item) (pws_price product) = Fin u
    /\ (0 < u)%Q
    /\ line = Num.round (Num.mul (toCents (Fin u)) (Fin q))
    /\ payload = {| ip_productId := si_productId item;
                    ip_quantity := Fin q;
                    ip_price := centsToAmount (toCents (Fin u));
                    ip_total := centsToAmount line |}.
Proof.
  intros [(q & Hq & Hqpos) _]. unfold price_item.
  destruct (productMap_get pm (si_productId item)) as [product |] eqn:Hpm;
    [| discriminate].
  destruct (pws_stock product) as [available |] eqn:Hst; [| discriminate].
  destruct (Num.gt (si_quantity item) available) eqn:Hgt; [discriminate |].
  destruct (negb (Num.isFinite _) || Num.le _ Num.zero) eqn:Hu; [discriminate |].
  apply orb_false_iff in Hu as [Hfin Hpos].
  apply negb_false_iff, isFinite_true in Hfin as [u Hu].
  rewrite Hu in Hpos |- *. apply le_zero_false in Hpos.
  rewrite Hq in Hgt |- *.
  intros [= <- <-].
  exists product, available, q, u. repeat split; auto.
Qed.

(** [build_itemsPayload] prices the lines one by one, in order. *)
Lemma build_itemsPayload_Next (P : Platform) (pm : gmap string ProductWithStock)
      (items : list SanitizedItem) :
  forall (sub0 : num) (payload : list ItemPayload) (sub : num),
    build_itemsPayload P pm items sub0 = Next (payload, sub) ->
    Forall2 (fun item p => exists line, price_item P pm item = Next (p, line))
            items payload.
Proof.
  induction items as [| item rest IH]; intros sub0 payload sub; simpl.
  - intros [= <- <-]. constructor.
  - destruct (price_item P pm item) as [[p l] | r | e] eqn:Hp; simpl; try discriminate.
    destruct (build_itemsPayload P pm rest (Num.add sub0 l)) as [[ps s] | r | e] eqn:Hb;
      simpl; try discriminate.
    intros [= <- <-]. constructor; [eauto | eapply IH; eassumption].
Qed.

Lemma Num_eq_add_of_Z (a : num) (z c : Z) :
  Num.eq a (Num.of_Z z) -> Num.eq (Num.add a (Num.of_Z c)) (Num.of_Z (z + c)).
Proof.
  destruct a as [| | | x]; simpl; try contradiction.
  intros H. rewrite H, inject_Z_plus. reflexivity.
Qed.

Lemma round_mul_cents (pc : Z) (q : Q) :
  Num.round (Num.mul (Num.of_Z pc) (Fin q))
  = Num.of_Z (Qfloor (inject_Z pc * q + (1 # 2))).
Proof. reflexivity. Qed.

(** Every priced line is a whole number of cents, and so is its unit price. *)
Lemma price_item_cents (P : Platform) (pm : gmap string ProductWithStock)
      (item : SanitizedItem) (payload : ItemPayload) (line : num) :
  valid_item item ->
  price_item P pm item = Next (payload, line) ->
  exists pc lc : Z,
    line = Num.of_Z lc
    /\ ip_price payload = centsToAmount (Num.of_Z pc)
    /\ ip_total payload = centsToAmount (Num.of_Z lc).
Proof.
  intros Hv Hp.
  destruct (price_item_Next _ _ _ _ _ Hv Hp)
    as (product & available & q & u & _ & _ & _ & _ & _ & _ & _ & Hline & ->).
  subst line.
  exists (Qfloor (u * inject_Z 100 + (1 # 2))).
  exists (Qfloor (inject_Z (Qfloor (u * inject_Z 100 + (1 # 2))) * q + (1 # 2))).
  repeat split.
Qed.

(** The subtotal is the exact integer sum of the line totals. *)
Lemma build_itemsPayload_cents (P : Platform) (pm : gmap string ProductWithStock)
      (items : list SanitizedItem) :
  forall (sub0 : num) (z0 : Z) (payload : list ItemPayload) (sub : num),
    Forall valid_item items ->
    Num.eq sub0 (Num.of_Z z0) ->
    build_itemsPayload P pm items sub0 = Next (payload, sub) ->
    exists lines : list Z,
      Forall2 (fun p c => ip_total p = centsToAmount (Num.of_Z c)
                          /\ exists pc, ip_price p = centsToAmount (Num.of_Z pc))
              payload lines
      /\ Num.eq sub (Num.of_Z (z0 + sum_cents lines)).
Proof.
  induction items as [| item rest IH]; intros sub0 z0 payload sub Hv H0; simpl.
  - intros [= <- <-]. exists []. split; [constructor |].
    simpl. by rewrite Z.add_0_r.
  - inversion Hv as [| ? ? Hitem Hrest]; subst.
    destruct (price_item P pm item) as [[p l] | r | e] eqn:Hp; simpl; try discriminate.
    destruct (build_itemsPayload P pm rest (Num.add sub0 l)) as [[ps s] | r | e] eqn:Hb;
      simpl; try discriminate.
    intros [= <- <-].
    destruct (price_item_cents _ _ _ _ _ Hitem Hp) as (pc & lc & -> & Hprice & Htotal).
    destruct (IH _ (z0 + lc)%Z _ _ Hrest (Num_eq_add_of_Z _ _ _ H0) Hb)
      as (lines & Hall & Hsum).
    exists (lc :: lines). split.
    + constructor; [split; [exact Htotal | exists pc; exact Hprice] | exact Hall].
    + simpl. by rewrite Z.add_assoc.
Qed.

(** ** Statuses of the early answers *)

Lemma sanitize_item_Return (P : Platform) (index : nat) (item : jsval) (r : response) :
  sanitize_item P index item = Return r -> status r = 400%Z.
Proof.
  unfold sanitize_item, bad_request.
  repeat match goal with
         | |- context [if ?c then _ else _] => destruct c
         end; intros [= <-]; reflexivity.
Qed.

Lemma sanitize_items_Return (P : Platform) (items : list jsval) :
  forall (index : nat) (r : response),
    sanitize_items P index items = Return r -> status r = 400%Z.
Proof.
  induction items as [| item rest IH]; intros index r; simpl; [discriminate |].
  destruct (sanitize_item P index item) as [s | r' | e] eqn:Hs; simpl; try discriminate.
  - destruct (sanitize_items P (S index) rest) as [more | r' | e] eqn:Hm; simpl;
      try discriminate.
    intros [= <-]. eapply IH; eassumption.
  - intros [= <-]. eapply sanitize_item_Return; eassumption.
Qed.

Lemma validate_Return (P : Platform) (body : jsval) (r : response) :
  validate P body = Return r -> status r = 400%Z.
Proof.
  unfold validate, bad_request.
  destruct (negb (truthy _)); [by intros [= <-] |].
  destruct (negb (truthy _) || _); [by intros [= <-] |].
  destruct (get _ "items") as [| | | | | [| first others] |]; try by intros [= <-].
  destruct (Num.isNaN _ || Num.lt _ Num.zero); [by intros [= <-] |].
  destruct (sanitize_items P 0 (first :: others)) as [l | r' | e] eqn:Hl;
    cbn; try discriminate.
  intros [= <-]. eapply sanitize_items_Return; eassumption.
Qed.

Lemma price_item_not_Return (P : Platform) (pm : gmap string ProductWithStock)
      (item : SanitizedItem) (r : response) :
  price_item P pm item <> Return r.
Proof.
  unfold price_item.
  repeat match goal with
         | |- context [match ?c with _ => _ end] => destruct c
         end; discriminate.
Qed.

Lemma build_itemsPayload_not_Return (P : Platform) (pm : gmap string ProductWithStock)
      (items : list SanitizedItem) :
  forall (sub0 : num) (r : response), build_itemsPayload P pm items sub0 <> Return r.
Proof.
  induction items as [| item rest IH]; intros sub0 r; simpl; [discriminate |].
  destruct (price_item P pm item) as [[p l] | r' | e] eqn:Hp; simpl; try discriminate.
  - destruct (build_itemsPayload P pm rest (Num.add sub0 l)) as [[ps s] | r' | e] eqn:Hb;
      simpl; try discriminate.
    intros [= <-]. by eapply IH.
  - intros _. by eapply price_item_not_Return.
Qed.

Lemma price_request_Return (P : Platform) (env : Env) (db : DB) (req : ValidRequest)
      (r : response) :
  price_request P env db req = Return r -> status r = 404%Z.
Proof.
  unfold price_request.
  destruct (fault env AtFindMany); [discriminate |].
  destruct (negb _); [by intros [= <-] |].
  intros H. by apply build_itemsPayload_not_Return in H.
Qed.

Lemma check_discount_Return (req : ValidRequest) (priced : list ItemPayload * num)
      (r : response) :
  check_discount req priced = Return r -> status r = 400%Z.
Proof.
  unfold check_discount, bad_request.
  destruct (Num.gt _ _); [by intros [= <-] | discriminate].
Qed.

Lemma handle_error_status (e : js_error) :
  status (handle_error e) = 400%Z \/ status (handle_error e) = 500%Z.
Proof.
  unfold handle_error.
  destruct (is_Error e && _); [destruct (includes _ _ || _) |]; simpl; auto.
Qed.

Lemma handle_error_not_created (e : js_error) : status (handle_error e) <> 201%Z.
Proof. destruct (handle_error_status e) as [-> | ->]; discriminate. Qed.

(** ** Transaction coordinator *)

Lemma decrement_stock_frame (env : Env) (items : list ItemPayload) :
  forall (db : DB) (i : nat) (db' : DB),
    decrement_stock env db i items = inr db' ->
    sales db' = sales db /\ products db' = products db /\ users db' = users db.
Proof.
  induction items as [| item rest IH]; intros db i db'; simpl.
  - by intros [= <-].
  - destruct (fault env (AtUpdate i)); [discriminate |].
    destruct (stock_update_decrement db (ip_productId item) (ip_quantity item))
      as [e | db1] eqn:Hup; [discriminate |].
    intros H. apply IH in H as (Hs & Hp & Hu).
    unfold stock_update_decrement in Hup.
    destruct (ip_productId item); try discriminate.
    destruct (stocks db !! s); [| discriminate].
    injection Hup as <-. auto.
Qed.

(** What a successful run of the transaction callback did. *)
Lemma transaction_body_inr (P : Platform) (env : Env) (p : Prepared) (db : DB)
      (sale : SaleWithRelations) (db' : DB) :
  transaction_body P env p db = inr (sale, db') ->
  recheck_stock env db 0 (pr_itemsPayload p) = None
  /\ receipt_unused db (sale_receiptNumber (new_sale P env p))
  /\ sale = load_relations db (new_sale P env p)
  /\ decrement_stock env (with_sales db (sales db ++ [new_sale P env p])) 0
                     (pr_itemsPayload p) = inr db'.
Proof.
  unfold transaction_body, sale_create.
  destruct (recheck_stock env db 0 (pr_itemsPayload p)); [discriminate |].
  destruct (fault env AtCreate); [discriminate |].
  destruct (existsb _ (sales db)) eqn:Hex; [discriminate |].
  destruct (decrement_stock env _ 0 (pr_itemsPayload p)) as [e | db2] eqn:Hdec;
    [discriminate |].
  intros [= <- <-]. repeat split; auto.
  unfold receipt_unused. apply Forall_forall. intros old Hin Heq.
  assert (existsb (fun old => String.eqb (sale_receiptNumber old)
                                (sale_receiptNumber (new_sale P env p))) (sales db) = true)
    as Htrue.
  { apply existsb_exists. exists old. split; [by apply list_elem_of_In |].
    by apply String.eqb_eq. }
  congruence.
Qed.

(** ** The handler as a whole *)

(** A 201 answer means every stage went through: the shape of such a run. *)
Lemma POST_created (P : Platform) (env : Env) (request : js_error + jsval)
      (db_read db_tx : DB) (resp : response) (db' : DB) :
  POST P env request db_read db_tx = (resp, db') ->
  status resp = 201%Z ->
  exists (body : jsval) (req : ValidRequest) (payload : list ItemPayload) (sub : num),
    request = inr body
    /\ validate P body = Next req
    /\ price_request P env db_read req = Next (payload, sub)
    /\ Num.gt (toCents (vr_discount req)) sub = false
    /\ fault env AtCommit = None
    /\ let prepared := {| pr_request := req;
                          pr_itemsPayload := payload;
                          pr_subtotalInCents := sub;
                          pr_discountInCents := toCents (vr_discount req) |} in
       let sale := new_sale P env prepared in
       recheck_stock env db_tx 0 payload = None
       /\ receipt_unused db_tx (sale_receiptNumber sale)
       /\ decrement_stock env (with_sales db_tx (sales db_tx ++ [sale])%list) 0 payload
          = inr db'
       /\ sales db' = (sales db_tx ++ [sale])%list
       /\ resp = {| status := 201;
                    body := SaleBody (formatSale (load_relations db_tx sale)) |}.
Proof.
  unfold POST. destruct request as [e | body].
  { intros [= <- _] H. by apply handle_error_not_created in H. }
  destruct (validate P body) as [req | r | e] eqn:Hval; cbn.
  2: { intros [= <- _] H. apply validate_Return in Hval. congruence. }
  2: { intros [= <- _] H. by apply handle_error_not_created in H. }
  unfold prepare.
  destruct (price_request P env db_read req) as [[payload sub] | r | e] eqn:Hprice; cbn.
  2: { intros [= <- _] H. apply price_request_Return in Hprice. congruence. }
  2: { intros [= <- _] H. by apply handle_error_not_created in H. }
  unfold check_discount. cbn.
  destruct (Num.gt (toCents (vr_discount req)) sub) eqn:Hgt; cbn.
  { intros [= <- _] H. discriminate. }
  unfold transaction.
  destruct (transaction_body P env _ db_tx) as [e | [sale db2]] eqn:Htx.
  { intros [= <- _] H. by apply handle_error_not_created in H. }
  destruct (fault env AtCommit) eqn:Hcommit.
  { intros [= <- _] H. by apply handle_error_not_created in H. }
  intros [= <- <-] _.
  exists body, req, payload, sub.
  apply transaction_body_inr in Htx as (Hre & Hun & -> & Hdec). cbn in *.
  repeat split; auto.
  by apply decrement_stock_frame in Hdec as (-> & _ & _).
Qed.

(** An answer other than 201 leaves the database as the transaction found
    it, whatever failed and wherever. *)
Lemma rejected_request_changes_nothing
      (P : Platform) (env : Env) (request : js_error + jsval)
      (db_read db_tx : DB) (resp : response) (db' : DB) :
  POST P env request db_read db_tx = (resp, db') ->
  status resp <> 201%Z ->
  db' = db_tx.
Proof.
  unfold POST. destruct request as [e | body]; [by intros [= _ <-] |].
  destruct (validate P body ≫= prepare P env db_read) as [prepared | r | e];
    [| by intros [= _ <-] | by intros [= _ <-]].
  unfold transaction.
  destruct (transaction_body P env prepared db_tx) as [e | [sale db2]];
    [by intros [= _ <-] |].
  destruct (fault env AtCommit); [by intros [= _ <-] |].
  intros [= <- _] H. by destruct H.
Qed.

(** C3. When the request reaches the transaction and a step inside it fails
    with [e] (the stock re-check, the creation of the sale with its items,
    the uniqueness of the receipt number, a stock decrement, the commit, or
    an error the persistence layer raises at one of these calls, such as its
    timeout), the handler answers with the error and the database is exactly
    the one the transaction started from: no sale, no sale item and no stock
    change of the request remains. *)
Theorem transaction_failure_rolls_back
        (P : Platform) (env : Env) (body : jsval) (db_read db_tx : DB)
        (prepared : Prepared) (e : js_error) :
  validate P body ≫= prepare P env db_read = Next prepared ->
  transaction_fails P env prepared db_tx e ->
  POST P env (inr body) db_read db_tx = (handle_error e, db_tx)
  /\ status (handle_error e) <> 201%Z.
Proof.
  intros Hprep Hfail. split; [| apply handle_error_not_created].
  unfold POST, transaction. rewrite Hprep.
  destruct Hfail as [-> | (r & -> & ->)]; [reflexivity |].
  by destruct r.
Qed.

(** ** Totals of a committed sale *)

Lemma price_request_Next (P : Platform) (env : Env) (db : DB) (req : ValidRequest)
      (priced : list ItemPayload * num) :
  price_request P env db req = Next priced ->
  let productIds := unique (map si_productId (vr_items req)) in
  fault env AtFindMany = None
  /\ length (product_findMany db productIds) = length productIds
  /\ build_itemsPayload P (productMap_of (product_findMany db productIds))
                        (vr_items req) Num.zero = Next priced.
Proof.
  unfold price_request. cbn.
  destruct (fault env AtFindMany); [discriminate |].
  destruct (length _ =? length _)%nat eqn:Hlen; [| discriminate].
  apply Nat.eqb_eq in Hlen. cbn. auto.
Qed.

Lemma Forall2_imap_l {A B C : Type} (R : B -> C -> Prop) (R' : A -> C -> Prop)
      (l : list A) (k : list C) :
  forall f : nat -> A -> B,
    (forall i x y, R' x y -> R (f i x) y) ->
    Forall2 R' l k -> Forall2 R (imap f l) k.
Proof.
  intros f Hf H. revert f Hf.
  induction H as [| x y l k Hxy _ IH]; intros f Hf; [constructor |].
  rewrite imap_cons. constructor; [by apply Hf |].
  apply IH. intros i. apply Hf.
Qed.

(** The discount that passed the check is a whole number of cents between
    zero and the subtotal. *)
Lemma accepted_discount_cents (d sub : num) (s : Z) :
  valid_discount d ->
  Num.eq sub (Num.of_Z s) ->
  Num.gt (toCents d) sub = false ->
  exists disc : Z, toCents d = Num.of_Z disc /\ (0 <= disc <= s)%Z.
Proof.
  intros [-> | (q & -> & Hq)] Hsub Hgt.
  - destruct sub; simpl in Hsub; try contradiction. discriminate.
  - rewrite toCents_Fin in Hgt |- *.
    exists (Qfloor (q * inject_Z 100 + (1 # 2))). split; [reflexivity |].
    destruct sub as [| | | x]; simpl in Hsub; try contradiction.
    unfold Num.gt, Num.lt, Num.of_Z in Hgt.
    apply negb_false_iff, Qle_bool_iff in Hgt. rewrite Hsub in Hgt.
    rewrite <- Zle_Qle in Hgt. split; [| exact Hgt].
    change 0%Z with (Qfloor 0). apply Qfloor_resp_le.
    assert (0 <= q * inject_Z 100)%Q by (apply Qmult_le_0_compat; [exact Hq | done]).
    assert (0 <= 1 # 2)%Q by done.
    replace 0%Q with (0 + 0)%Q by reflexivity. by apply Qplus_le_compat.
Qed.

Lemma is_cents_amount (x : num) (z : Z) :
  Num.eq x (Num.of_Z z) -> is_cents (centsToAmount x) z.
Proof.
  unfold is_cents. destruct x as [| | | q]; simpl; try contradiction.
  intros ->. reflexivity.
Qed.

Lemma Num_eq_sub_of_Z (a : num) (z c : Z) :
  Num.eq a (Num.of_Z z) -> Num.eq (Num.sub a (Num.of_Z c)) (Num.of_Z (z - c)).
Proof.
  destruct a as [| | | x]; simpl; try contradiction.
  intros H. rewrite H. unfold Z.sub, Qminus.
  rewrite inject_Z_plus, inject_Z_opp. reflexivity.
Qed.

Lemma Num_eq_refl_of_Z (z : Z) : Num.eq (Num.of_Z z) (Num.of_Z z).
Proof. simpl. reflexivity. Qed.

(** C2. The sale a 201 answer has stored carries amounts that are whole
    numbers of cents with total = subtotal - discount and subtotal = the sum
    of the line totals, as integer equalities; the discount lies between
    zero and the subtotal. *)
Theorem committed_sale_totals_exact
        (P : Platform) (env : Env) (request : js_error + jsval)
        (db_read db_tx : DB) (resp : response) (db' : DB) :
  POST P env request db_read db_tx = (resp, db') ->
  status resp = 201%Z ->
  exists (sale : Sale) (subtotal discount : Z) (lines : list Z),
    sales db' = (sales db_tx ++ [sale])%list
    /\ is_cents (sale_subtotal sale) subtotal
    /\ (exists d, sale_discount sale = Some d /\ is_cents d discount)
    /\ is_cents (sale_totalAmount sale) (subtotal - discount)
    /\ Forall2 (fun item c => is_cents (item_total item) c) (sale_items sale) lines
    /\ subtotal = sum_cents lines
    /\ (0 <= discount <= subtotal)%Z.
Proof.
  intros HPOST Hstatus.
  destruct (POST_created _ _ _ _ _ _ _ HPOST Hstatus)
    as (body & req & payload & sub & -> & Hval & Hprice & Hgt & _ & Hrun).
  cbn zeta in Hrun. destruct Hrun as (_ & _ & _ & Hsales & _).
  apply validate_valid in Hval as [Hitems Hdisc].
  apply price_request_Next in Hprice as (_ & _ & Hbuild).
  destruct (build_itemsPayload_cents _ _ _ _ 0%Z _ _ Hitems (Num_eq_refl_of_Z 0) Hbuild)
    as (lines & Hlines & Hsub).
  rewrite Z.add_0_l in Hsub.
  destruct (accepted_discount_cents _ _ _ Hdisc Hsub Hgt) as (disc & Hd & Hrange).
  eexists _, (sum_cents lines), disc, lines.
  split; [exact Hsales |]. cbn. rewrite Hd. repeat split.
  - by apply is_cents_amount.
  - eexists. split; [reflexivity |]. apply is_cents_amount, Num_eq_refl_of_Z.
  - by apply is_cents_amount, Num_eq_sub_of_Z.
  - eapply Forall2_imap_l; [| exact Hlines].
    intros i p c [Htotal _]. cbn. rewrite Htotal.
    apply is_cents_amount, Num_eq_refl_of_Z.
  - lia.
  - lia.
Qed.

(** ** The advisory check and the re-check agree on an unchanged database *)

Lemma product_findMany_stock (db : DB) (ids : list jsval) (p : ProductWithStock) :
  p ∈ product_findMany db ids -> pws_stock p = stocks db !! pws_id p.
Proof.
  unfold product_findMany. intros Hin.
  apply list_elem_of_omap in Hin as (id & _ & Hid).
  destruct id as [| | | | s | |]; try discriminate.
  destruct (products db !! s); [| discriminate].
  by injection Hid as <-.
Qed.

Lemma productMap_of_lookup (found : list ProductWithStock) (s : string)
      (p : ProductWithStock) :
  productMap_of found !! s = Some p -> p ∈ found /\ pws_id p = s.
Proof.
  unfold productMap_of.
  assert (forall m : gmap string ProductWithStock,
             foldl (fun m product => <[pws_id product := product]> m) m found !! s
             = Some p ->
             (p ∈ found /\ pws_id p = s) \/ m !! s = Some p) as Hgen.
  { induction found as [| x rest IH]; intros m; simpl; [auto |].
    intros H. apply IH in H as [[Hin Hid] | H].
    - left. split; [by apply elem_of_cons; right | done].
    - destruct (decide (pws_id x = s)) as [Heq | Hne].
      + rewrite <- Heq, lookup_insert_eq in H. injection H as ->.
        left. split; [apply list_elem_of_here | done].
      + rewrite lookup_insert_ne in H by done. by right. }
  intros H. apply Hgen in H as [H | H]; [done |].
  by rewrite lookup_empty in H.
Qed.

Lemma price_item_covered (P : Platform) (db : DB) (ids : list jsval)
      (item : SanitizedItem) (payload : ItemPayload) (line : num) :
  valid_item item ->
  price_item P (productMap_of (product_findMany db ids)) item = Next (payload, line) ->
  covered db payload.
Proof.
  intros Hv Hp.
  destruct (price_item_Next _ _ _ _ _ Hv Hp)
    as (product & available & q & u & Hget & Hstock & _ & _ & Hgt & _ & _ & _ & ->).
  unfold productMap_get in Hget.
  destruct (si_productId item) as [| | | | s | |] eqn:Hid; try discriminate.
  apply productMap_of_lookup in Hget as [Hin <-].
  apply product_findMany_stock in Hin.
  exists available. cbn. split; [congruence | exact Hgt].
Qed.

Lemma recheck_stock_covered (env : Env) (db : DB) (items : list ItemPayload) :
  no_faults env ->
  Forall (covered db) items ->
  forall i, recheck_stock env db i items = None.
Proof.
  intros Hnf Hall. induction Hall as [| item rest (available & Hfind & Hlt) _ IH];
    intros i; simpl; [reflexivity |].
  by rewrite Hnf, Hfind, Hlt.
Qed.

Lemma decrement_stock_succeeds (env : Env) (items : list ItemPayload) :
  no_faults env ->
  forall (db : DB) (i : nat),
    Forall (fun item => is_Some (stock_findUnique db (ip_productId item))) items ->
    exists db', decrement_stock env db i items = inr db'.
Proof.
  intros Hnf. induction items as [| item rest IH]; intros db i Hall; simpl; [eauto |].
  inversion Hall as [| ? ? [q Hq] Hrest]; subst.
  rewrite Hnf. unfold stock_update_decrement.
  destruct (ip_productId item) as [| | | | s | |] eqn:Hid; try discriminate.
  cbn in Hq. rewrite Hq. apply IH.
  eapply Forall_impl; [exact Hrest |].
  intros other [q' Hq']. unfold stock_findUnique in *.
  destruct (ip_productId other) as [| | | | t | |]; try discriminate.
  cbn. destruct (decide (s = t)) as [-> | Hne].
  - rewrite lookup_insert_eq. eauto.
  - rewrite lookup_insert_ne by done. eauto.
Qed.

Lemma priced_lines_covered (P : Platform) (db : DB) (ids : list jsval)
      (items : list SanitizedItem) (payload : list ItemPayload) :
  Forall valid_item items ->
  Forall2 (fun item p =>
             exists line,
               price_item P (productMap_of (product_findMany db ids)) item
               = Next (p, line))
          items payload ->
  Forall (covered db) payload.
Proof.
  intros Hv H. induction H as [| item p items payload [line Hp] _ IH];
    [constructor |].
  inversion Hv; subst. constructor; [| by apply IH].
  eapply price_item_covered; eassumption.
Qed.

Lemma receipt_unused_existsb (db : DB) (receipt : string) :
  receipt_unused db receipt ->
  existsb (fun old => String.eqb (sale_receiptNumber old) receipt) (sales db) = false.
Proof.
  unfold receipt_unused. induction 1 as [| old rest Hne _ IH]; simpl; [reflexivity |].
  rewrite IH, orb_false_r. by apply String.eqb_neq.
Qed.

Lemma Num_eq_not_gt (a b : num) : Num.eq a b -> Num.gt a b = false.
Proof.
  destruct a as [| | | x], b as [| | | y]; simpl; try contradiction; try reflexivity.
  intros H. unfold Num.gt, Num.lt. apply negb_false_iff, Qle_bool_iff.
  rewrite H. apply Qle_refl.
Qed.

(** A request that went through validation and pricing against [db], with
    no failure of the persistence layer and a fresh receipt number, commits
    when the transaction starts from the same [db]. *)
Lemma POST_commits (P : Platform) (env : Env) (body : jsval) (db : DB)
      (req : ValidRequest) (payload : list ItemPayload) (sub : num) :
  validate P body = Next req ->
  price_request P env db req = Next (payload, sub) ->
  Num.gt (toCents (vr_discount req)) sub = false ->
  no_faults env ->
  receipt_unused db (resolve_receiptNumber P env (vr_receiptNumber req)) ->
  let sale := new_sale P env {| pr_request := req;
                                pr_itemsPayload := payload;
                                pr_subtotalInCents := sub;
                                pr_discountInCents := toCents (vr_discount req) |} in
  exists db',
    POST P env (inr body) db db
    = ({| status := 201; body := SaleBody (formatSale (load_relations db sale)) |}, db')
    /\ decrement_stock env (with_sales db (sales db ++ [sale])%list) 0 payload = inr db'
    /\ sales db' = (sales db ++ [sale])%list.
Proof.
  intros Hval Hprice Hgt Hnf Hfresh sale.
  pose proof (validate_valid _ _ _ Hval) as [Hitems _].
  pose proof (price_request_Next _ _ _ _ _ Hprice) as (_ & _ & Hbuild).
  cbn zeta in Hbuild.
  pose proof (priced_lines_covered _ _ _ _ _ Hitems
                (build_itemsPayload_Next _ _ _ _ _ _ Hbuild)) as Hcov.
  destruct (decrement_stock_succeeds env payload Hnf
              (with_sales db (sales db ++ [sale])%list) 0) as [db' Hdec].
  { eapply Forall_impl; [exact Hcov |]. intros item (a & Ha & _). cbn.
    unfold stock_findUnique in *. cbn. rewrite Ha. eauto. }
  exists db'. split; [| split; [exact Hdec |]].
  - unfold POST. rewrite Hval. cbn. unfold prepare. rewrite Hprice. cbn.
    unfold check_discount. cbn. rewrite Hgt. cbn.
    unfold transaction, transaction_body. cbn.
    rewrite (recheck_stock_covered env db payload Hnf Hcov 0).
    rewrite (Hnf AtCreate). unfold sale_create. fold sale.
    rewrite (receipt_unused_existsb db (sale_receiptNumber sale) Hfresh).
    rewrite Hdec. by rewrite (Hnf AtCommit).
  - by apply decrement_stock_frame in Hdec as (-> & _ & _).
Qed.

(** The subtotal of a priced request is a whole number of cents. *)
Lemma priced_subtotal_integer (P : Platform) (env : Env) (body : jsval) (db : DB)
      (req : ValidRequest) (payload : list ItemPayload) (sub : num) :
  validate P body = Next req ->
  price_request P env db req = Next (payload, sub) ->
  Num.is_integer sub.
Proof.
  intros Hval Hprice.
  apply validate_valid in Hval as [Hitems _].
  apply price_request_Next in Hprice as (_ & _ & Hbuild).
  destruct (build_itemsPayload_cents _ _ _ _ 0%Z _ _ Hitems (Num_eq_refl_of_Z 0) Hbuild)
    as (lines & _ & Hsub).
  by eexists.
Qed.

(** C5. With a discount that equals the subtotal in cents the sale commits
    and its total is 0; with a discount of one cent more the handler answers
    400 at the discount check, before the transaction, and whatever state
    the transaction would have started from is left as it is. *)
Theorem discount_boundary
        (P : Platform) (env : Env) (body : jsval) (db : DB)
        (req : ValidRequest) (payload : list ItemPayload) (sub : num) :
  validate P body = Next req ->
  price_request P env db req = Next (payload, sub) ->
  (Num.eq (toCents (vr_discount req)) sub ->
   no_faults env ->
   receipt_unused db (resolve_receiptNumber P env (vr_receiptNumber req)) ->
   exists (sale : Sale) (db' : DB),
     POST P env (inr body) db db
     = ({| status := 201; body := SaleBody (formatSale (load_relations db sale)) |}, db')
     /\ sales db' = (sales db ++ [sale])%list
     /\ is_cents (sale_totalAmount sale) 0)
  /\ (Num.eq (toCents (vr_discount req)) (Num.add sub (Num.of_Z 1)) ->
      validate P body ≫= prepare P env db
      = Return (error_response 400 "Discount cannot exceed subtotal.")
      /\ forall db_tx,
          POST P env (inr body) db db_tx
          = (error_response 400 "Discount cannot exceed subtotal.", db_tx)).
Proof.
  intros Hval Hprice.
  destruct (priced_subtotal_integer _ _ _ _ _ _ _ Hval Hprice) as [s Hs].
  destruct sub as [| | | y]; simpl in Hs; try contradiction.
  split.
  - intros Heq Hnf Hfresh.
    destruct (POST_commits _ _ _ _ _ _ _ Hval Hprice (Num_eq_not_gt _ _ Heq) Hnf Hfresh)
      as (db' & HPOST & _ & Hsales).
    eexists _, db'. split; [exact HPOST |]. split; [exact Hsales |].
    cbn. unfold is_cents.
    destruct (toCents (vr_discount req)) as [| | | x];
      simpl in Heq |- *; try contradiction.
    rewrite Heq. unfold Qminus. rewrite Qplus_opp_r. reflexivity.
  - intros Heq.
    assert (Num.gt (toCents (vr_discount req)) (Fin y) = true) as Hgt.
    { destruct (toCents (vr_discount req)) as [| | | x];
        simpl in Heq; try contradiction.
      unfold Num.gt, Num.lt. apply negb_true_iff.
      destruct (Qle_bool x y) eqn:Hle; [| reflexivity].
      apply Qle_bool_iff in Hle. rewrite Heq in Hle. exfalso.
      apply (Qlt_irrefl y). eapply Qlt_le_trans; [| exact Hle].
      rewrite <- (Qplus_0_r y) at 1. apply Qplus_lt_r. reflexivity. }
    assert (validate P body ≫= prepare P env db
            = Return (error_response 400 "Discount cannot exceed subtotal.")) as Hflow.
    { rewrite Hval. cbn. unfold prepare. rewrite Hprice. cbn.
      unfold check_discount. cbn -[Num.gt toCents]. by rewrite Hgt. }
    split; [exact Hflow |]. intros db_tx. unfold POST. by rewrite Hflow.
Qed.

(** ** Unit prices and line totals *)





(** ** What is stored of each line *)




(** ** Order of the validator's checks *)

Lemma validate_userId (P : Platform) (body : jsval) :
  userId_present body = false ->
  validate P body = bad_request "userId is required.".
Proof.
  unfold userId_present, body_field, validate. by intros ->.
Qed.

Lemma validate_paymentMethod (P : Platform) (body : jsval) :
  userId_present body = true ->
  paymentMethod_accepted P body = false ->
  validate P body = bad_request "paymentMethod is invalid.".
Proof.
  unfold userId_present, paymentMethod_accepted, body_field, validate.
  intros -> H. cbn. apply andb_false_iff in H.
  destruct (negb (truthy _) || negb (paymentMethodSet_has P _)) eqn:E; [reflexivity |].
  apply orb_false_iff in E as [E1 E2].
  apply negb_false_iff in E1, E2. destruct H; congruence.
Qed.

Lemma validate_items (P : Platform) (body : jsval) :
  userId_present body = true ->
  paymentMethod_accepted P body = true ->
  items_of body = None ->
  validate P body = bad_request "At least one sale item is required.".
Proof.
  unfold userId_present, paymentMethod_accepted, items_of, body_field, validate.
  intros -> H Hitems. cbn. apply andb_true_iff in H as [-> ->]. cbn.
  by destruct (get _ "items") as [| | | | | [| first others] |].
Qed.

Lemma validate_discount (P : Platform) (body : jsval) (items : list jsval) :
  userId_present body = true ->
  paymentMethod_accepted P body = true ->
  items_of body = Some items ->
  discount_rejected P body = true ->
  validate P body = bad_request "discount must be a positive number.".
Proof.
  unfold userId_present, paymentMethod_accepted, items_of, discount_rejected,
    discount_of, body_field, validate.
  intros -> H Hitems Hd. cbn. apply andb_true_iff in H as [-> ->]. cbn.
  destruct (get _ "items") as [| | | | | [| first others] |]; try discriminate.
  by rewrite Hd.
Qed.

Lemma validate_item_loop (P : Platform) (body : jsval) (items : list jsval) :
  userId_present body = true ->
  paymentMethod_accepted P body = true ->
  items_of body = Some items ->
  discount_rejected P body = false ->
  validate P body
  = sanitize_items P 0 items ≫= fun sanitizedItems =>
      Next {| vr_receiptNumber := body_field body "receiptNumber";
              vr_userId := body_field body "userId";
              vr_paymentMethod :=
                toUpperCase P (js_String P (body_field body "paymentMethod"));
              vr_discount := discount_of P body;
              vr_items := sanitizedItems |}.
Proof.
  unfold userId_present, paymentMethod_accepted, items_of, discount_rejected,
    discount_of, body_field, validate.
  intros -> H Hitems Hd. cbn. apply andb_true_iff in H as [-> ->]. cbn.
  destruct (get _ "items") as [| | | | | [| first others] |]; try discriminate.
  injection Hitems as <-. by rewrite Hd.
Qed.

Lemma sanitize_item_order (P : Platform) (index : nat) (item : jsval) :
  let n := pretty (index + 1)%nat in
  (item_shape_ok item = false ->
   sanitize_item P index item
   = bad_request ("Item at position " ++ n ++ " is invalid."))
  /\ (item_shape_ok item = true ->
      truthy (get item "productId") = false ->
      sanitize_item P index item = bad_request ("Item " ++ n ++ " is missing productId."))
  /\ (item_shape_ok item = true ->
      truthy (get item "productId") = true ->
      item_quantity_rejected P item = true ->
      sanitize_item P index item
      = bad_request ("Item " ++ n ++ " quantity must be a positive number."))
  /\ (item_shape_ok item = true ->
      truthy (get item "productId") = true ->
      item_quantity_rejected P item = false ->
      item_price_rejected P item = true ->
      sanitize_item P index item
      = bad_request ("Item " ++ n ++ " price must be a positive number.")).
Proof.
  unfold item_shape_ok, item_quantity_rejected, item_price_rejected, sanitize_item.
  cbn zeta. repeat split.
  - intros H. apply andb_false_iff in H.
    destruct (negb (truthy item) || negb (typeof_object item)) eqn:E; [reflexivity |].
    apply orb_false_iff in E as [E1 E2]. apply negb_false_iff in E1, E2.
    destruct H; congruence.
  - intros H ->. apply andb_true_iff in H as [-> ->]. reflexivity.
  - intros H -> ->. apply andb_true_iff in H as [-> ->]. reflexivity.
  - intros H -> -> Hp. apply andb_true_iff in H as [-> ->].
    apply andb_true_iff in Hp as [-> ->]. reflexivity.
Qed.

(** C6, as the handler has it.  The checks run in this order: the attendant
    identity, the payment method, the non-empty items, the discount
    (rejected when it is NaN or negative), and only then the items one by
    one (the item is an object, productId is present, quantity is a finite
    number above 0, a supplied price is a finite number that is not
    negative).  A request that passes the first three checks and carries a
    rejected discount is answered with the discount message, whatever its
    items are; the items decide only when the discount is accepted. *)
Theorem validation_order (P : Platform) (body : jsval) :
  (userId_present body = false ->
   validate P body = bad_request "userId is required.")
  /\ (userId_present body = true ->
      paymentMethod_accepted P body = false ->
      validate P body = bad_request "paymentMethod is invalid.")
  /\ (userId_present body = true ->
      paymentMethod_accepted P body = true ->
      items_of body = None ->
      validate P body = bad_request "At least one sale item is required.")
  /\ (forall items,
         userId_present body = true ->
         paymentMethod_accepted P body = true ->
         items_of body = Some items ->
         discount_rejected P body = true ->
         validate P body = bad_request "discount must be a positive number.")
  /\ (forall items r,
         userId_present body = true ->
         paymentMethod_accepted P body = true ->
         items_of body = Some items ->
         discount_rejected P body = false ->
         sanitize_items P 0 items = Return r ->
         validate P body = Return r)
  /\ (forall index item,
         let n := pretty (index + 1)%nat in
         (item_shape_ok item = false ->
          sanitize_item P index item
          = bad_request ("Item at position " ++ n ++ " is invalid."))
         /\ (item_shape_ok item = true ->
             truthy (get item "productId") = false ->
             sanitize_item P index item
             = bad_request ("Item " ++ n ++ " is missing productId."))
         /\ (item_shape_ok item = true ->
             truthy (get item "productId") = true ->
             item_quantity_rejected P item = true ->
             sanitize_item P index item
             = bad_request ("Item " ++ n ++ " quantity must be a positive number."))
         /\ (item_shape_ok item = true ->
             truthy (get item "productId") = true ->
             item_quantity_rejected P item = false ->
             item_price_rejected P item = true ->
             sanitize_item P index item
             = bad_request ("Item " ++ n ++ " price must be a positive number."))).
Proof.
  split; [apply validate_userId |].
  split; [apply validate_paymentMethod |].
  split; [apply validate_items |].
  split; [apply validate_discount |].
  split; [| intros index item; apply sanitize_item_order].
  intros items r Hu Hp Hi Hd Hr.
  rewrite (validate_item_loop P body items Hu Hp Hi Hd), Hr. reflexivity.
Qed.

(** C6 as stated fails: this body has an item without productId and a
    negative discount; its item is rejected by the item checks taken alone,
    and yet the answer names the discount. *)
Lemma invalid_discount_is_reported_before_invalid_item :
  sanitize_items Scenario.platform 0 [Scenario.item_without_productId]
  = bad_request "Item 1 is missing productId."
  /\ discount_rejected Scenario.platform Scenario.bad_item_and_bad_discount = true
  /\ (POST Scenario.platform (Scenario.env 1000)
           (inr Scenario.bad_item_and_bad_discount) Scenario.shop Scenario.shop).1
     = error_response 400 "discount must be a positive number.".
Proof. repeat split; vm_compute; reflexivity. Qed.

Lemma validation_order_witness :
  validate Scenario.platform Scenario.bad_item_and_bad_discount
  = bad_request "discount must be a positive number.".
Proof.
  apply (proj1 (proj2 (proj2 (proj2
           (validation_order Scenario.platform Scenario.bad_item_and_bad_discount))))
           [Scenario.item_without_productId]);
    vm_compute; reflexivity.
Defined.

(** ** Receipt numbers *)

Lemma validate_Next_fields (P : Platform) (body : jsval) (req : ValidRequest) :
  validate P body = Next req ->
  vr_receiptNumber req = body_field body "receiptNumber"
  /\ vr_userId req = body_field body "userId".
Proof.
  unfold validate, body_field, bad_request.
  destruct (negb (truthy _)); [discriminate |].
  destruct (negb (truthy _) || _); [discriminate |].
  destruct (get _ "items") as [| | | | | [| first others] |]; try discriminate.
  destruct (Num.isNaN _ || Num.lt _ Num.zero); [discriminate |].
  destruct (sanitize_items P 0 (first :: others)); cbn; try discriminate.
  by intros [= <-].
Qed.





(** ** Sale formatter *)

(** C9, as the formatter has it.  The attendant of a formatted sale is null
    when the sale has none, and otherwise the id, the full name and the
    username as they are stored, either of which may be null; no name is
    substituted and no literal is filled in.  Every item carries a product
    summary that is null when the product is absent and otherwise its id,
    name and sku.  The fallback chain full name, username, literal text is
    what a reader of the formatted sale obtains by applying it, as the
    activity feed of the dashboard does on the stored attendant. *)
Theorem formatted_attendant_and_products (sale : SaleWithRelations) :
  (fs_attendant (formatSale sale) = None <-> swr_attendant sale = None)
  /\ (forall a, fs_attendant (formatSale sale) = Some a ->
                exists u, swr_attendant sale = Some (fa_id a, u)
                          /\ fa_fullName a = user_fullName u
                          /\ fa_username a = user_username u)
  /\ Forall2 (fun item out =>
                (fi_product out = None <-> iwp_product item = None)
                /\ (forall s, fi_product out = Some s ->
                              exists p, iwp_product item = Some (fp_id s, p)
                                        /\ fp_name s = product_name p
                                        /\ fp_sku s = product_sku p))
             (swr_items sale) (fs_items (formatSale sale))
  /\ formatted_attendant_label (fs_attendant (formatSale sale))
     = activity_context (snd <$> swr_attendant sale).
Proof.
  unfold formatSale. cbn.
  destruct (swr_attendant sale) as [[id u] |]; cbn.
  - repeat split; try discriminate.
    + intros a [= <-]. cbn. eauto.
    + apply Forall2_fmap_r, Forall_Forall2_diag, Forall_forall. intros item _. cbn.
      destruct (iwp_product item) as [[pid p] |]; cbn.
      * repeat split; try discriminate. intros s [= <-]. cbn. eauto.
      * repeat split; discriminate.
  - repeat split; try discriminate.
    apply Forall2_fmap_r, Forall_Forall2_diag, Forall_forall. intros item _. cbn.
    destruct (iwp_product item) as [[pid p] |]; cbn.
    + repeat split; try discriminate. intros s [= <-]. cbn. eauto.
    + repeat split; discriminate.
Qed.

(** C9 as stated fails: for a sale without attendant the formatter puts
    null where the chain ends in its literal text, and for an attendant with
    a username and no full name it keeps the null full name beside the
    username, where the chain yields the username. *)
Lemma formatter_applies_no_fallback :
  fs_attendant (formatSale Scenario.sale_without_attendant) = None
  /\ activity_context (snd <$> swr_attendant Scenario.sale_without_attendant)
     = "Walk-in customer"
  /\ fs_attendant (formatSale Scenario.sale_by_username_only)
     = Some {| fa_id := "U2"; fa_fullName := None; fa_username := Some "kofi" |}
  /\ activity_context (snd <$> swr_attendant Scenario.sale_by_username_only) = "kofi".
Proof. repeat split. Qed.

(** ** Stock after a committed sale *)









(** ** Oversold stock and the answers of the catch block *)

(** C1 at a failing input.  With 5 units of P1 in stock, a request with two
    lines of 3 units of P1 each passes both stock checks, which look at one
    line at a time, and commits; the stock of P1 is then -1. *)
Theorem two_lines_of_one_product_oversell :
  let answer := POST Scenario.platform (Scenario.env 1000)
                     (inr (Scenario.request [Scenario.line "P1" 3; Scenario.line "P1" 3] []))
                     Scenario.shop Scenario.shop in
  stocks Scenario.shop !! "P1" = Some (Num.of_Z 5)
  /\ status answer.1 = 201%Z
  /\ stocks answer.2 !! "P1" = Some (Num.of_Z (-1))
  /\ Num.lt (Num.of_Z (-1)) Num.zero = true.
Proof. cbn zeta. repeat split; vm_compute; reflexivity. Qed.

(** C4 at failing inputs.  A line whose resolved price is 0 makes the
    pricing throw its invalid-price error, and a stock that shrank between
    the product query and the transaction makes the re-check throw its
    stock-changed error; the catch block answers both with status 500 and
    its general message, while the insufficient stock found by the advisory
    check is answered with 400 and the reason. *)
Theorem price_and_recheck_failures_answer_500 :
  price_request Scenario.platform (Scenario.env 1000) Scenario.shop
                {| vr_receiptNumber := VUndef;
                   vr_userId := VStr "U1";
                   vr_paymentMethod := "CASH";
                   vr_discount := Num.zero;
                   vr_items := [{| si_productId := VStr "P1";
                                   si_quantity := Num.of_Z 1;
                                   si_priceOverride := Some Num.zero |}] |}
  = Throw (Error "Invalid price for Soap.")
  /\ (POST Scenario.platform (Scenario.env 1000)
           (inr (Scenario.one_unit_at Num.zero)) Scenario.shop Scenario.shop).1
     = error_response 500 "Unable to create sale."
  /\ (POST Scenario.platform (Scenario.env 1000)
           (inr (Scenario.request [Scenario.line "P1" 4] []))
           Scenario.shop (Scenario.shop_with_stock 2)).1
     = error_response 500 "Unable to create sale."
  /\ handle_error stock_changed = error_response 500 "Unable to create sale."
  /\ (POST Scenario.platform (Scenario.env 1000)
           (inr (Scenario.request [Scenario.line "P1" 9] []))
           Scenario.shop Scenario.shop).1
     = error_response 400 "Insufficient stock for Soap. Available: 5".
Proof. repeat split; vm_compute; reflexivity. Qed.

(** ** The theorems at concrete requests *)

Lemma committed_sale_totals_exact_witness :
  let answer := POST Scenario.platform (Scenario.env 1000)
                     (inr (Scenario.two_units 98)) Scenario.shop Scenario.shop in
  exists (sale : Sale) (subtotal discount : Z) (lines : list Z),
    sales answer.2 = (sales Scenario.shop ++ [sale])%list
    /\ is_cents (sale_subtotal sale) subtotal
    /\ (exists d, sale_discount sale = Some d /\ is_cents d discount)
    /\ is_cents (sale_totalAmount sale) (subtotal - discount)
    /\ Forall2 (fun item c => is_cents (item_total item) c) (sale_items sale) lines
    /\ subtotal = sum_cents lines
    /\ (0 <= discount <= subtotal)%Z.
Proof.
  cbn zeta.
  apply (committed_sale_totals_exact
           Scenario.platform (Scenario.env 1000) (inr (Scenario.two_units 98))
           Scenario.shop Scenario.shop
           (POST Scenario.platform (Scenario.env 1000)
                 (inr (Scenario.two_units 98)) Scenario.shop Scenario.shop).1).
  - apply surjective_pairing.
  - vm_compute. reflexivity.
Defined.

Lemma transaction_failure_rolls_back_witness :
  POST Scenario.platform Scenario.env_timeout
       (inr (Scenario.request [Scenario.line "P1" 1; Scenario.line "P1" 1] []))
       Scenario.shop Scenario.shop
  = (handle_error Scenario.timeout_error, Scenario.shop)
  /\ status (handle_error Scenario.timeout_error) <> 201%Z.
Proof.
  eapply (transaction_failure_rolls_back Scenario.platform Scenario.env_timeout).
  - vm_compute. reflexivity.
  - left. vm_compute. reflexivity.
Defined.

Lemma discount_boundary_witness :
  (exists (sale : Sale) (db' : DB),
      POST Scenario.platform (Scenario.env 1000) (inr (Scenario.two_units 1998))
           Scenario.shop Scenario.shop
      = ({| status := 201;
            body := SaleBody (formatSale (load_relations Scenario.shop sale)) |}, db')
      /\ sales db' = (sales Scenario.shop ++ [sale])%list
      /\ is_cents (sale_totalAmount sale) 0)
  /\ POST Scenario.platform (Scenario.env 1000) (inr (Scenario.two_units 1999))
          Scenario.shop Scenario.shop
     = (error_response 400 "Discount cannot exceed subtotal.", Scenario.shop).
Proof.
  split.
  - pose proof (discount_boundary Scenario.platform (Scenario.env 1000)
                  (Scenario.two_units 1998) Scenario.shop _ _ _
                  ltac:(vm_compute; reflexivity) ltac:(vm_compute; reflexivity))
      as [Hequal _].
    apply Hequal.
    + vm_compute. reflexivity.
    + intros site. reflexivity.
    + constructor.
  - pose proof (discount_boundary Scenario.platform (Scenario.env 1000)
                  (Scenario.two_units 1999) Scenario.shop _ _ _
                  ltac:(vm_compute; reflexivity) ltac:(vm_compute; reflexivity))
      as [_ Habove].
    apply Habove. vm_compute. reflexivity.
Defined.



Lemma formatted_attendant_and_products_witness :
  formatted_attendant_label (fs_attendant (formatSale Scenario.sale_by_username_only))
  = activity_context (snd <$> swr_attendant Scenario.sale_by_username_only).
Proof.
  apply (formatted_attendant_and_products Scenario.sale_by_username_only).
Defined.


(** * Further properties *)

(** ** Answers of the handler *)

(** X1. The handler answers in one of two ways only: with status 201 and a
    formatted sale, or with status 400, 404 or 500 and an error message. *)
Theorem POST_answer_shapes (P : Platform) (env : Env) (request : js_error + jsval)
        (db_read db_tx : DB) :
  let answer := (POST P env request db_read db_tx).1 in
  (status answer = 201%Z /\ exists sale, body answer = SaleBody sale)
  \/ ((status answer = 400%Z \/ status answer = 404%Z \/ status answer = 500%Z)
      /\ exists msg, body answer = ErrorBody msg).
Proof.
  assert (forall e, (status (handle_error e) = 400%Z \/ status (handle_error e) = 404%Z
                     \/ status (handle_error e) = 500%Z)
                    /\ exists msg, body (handle_error e) = ErrorBody msg) as Herr.
  { intros e. unfold handle_error.
    destruct (is_Error e && _); [destruct (includes _ _ || _) |]; cbn; eauto 6. }
  cbn zeta. unfold POST. destruct request as [e | b]; [right; apply Herr |].
  destruct (validate P b) as [req | r | e] eqn:Hval; cbn.
  2: { right. unfold validate, bad_request in Hval.
       assert (exists msg, r = error_response 400 msg) as [msg ->]; [| cbn; eauto 6].
       revert Hval.
       destruct (negb (truthy _)); [intros [= <-]; eauto |].
       destruct (negb (truthy _) || _); [intros [= <-]; eauto |].
       destruct (get _ "items") as [| | | | | [| first others] |];
         try (intros [= <-]; eauto).
       destruct (Num.isNaN _ || Num.lt _ Num.zero); [intros [= <-]; eauto |].
       generalize 0%nat. generalize (first :: others) at 1. intros items.
       induction items as [| item rest IH]; intros index; cbn; [discriminate |].
       unfold sanitize_item at 1, bad_request.
       repeat match goal with
              | |- context [if ?c then _ else _] => destruct c
              end; cbn; try (intros [= <-]; eauto);
         destruct (sanitize_items P (S index) rest) eqn:Hrest; cbn;
         try discriminate; intros [= <-]; eapply IH; rewrite Hrest; reflexivity. }
  2: { right. apply Herr. }
  unfold prepare, price_request.
  destruct (fault env AtFindMany); cbn; [right; apply Herr |].
  destruct (negb _); cbn; [right; eauto 6 |].
  destruct (build_itemsPayload P _ (vr_items req) Num.zero) as [[payload sub] | r | e]
    eqn:Hbuild; cbn.
  - unfold check_discount. cbn. destruct (Num.gt _ sub); cbn; [right; eauto 6 |].
    unfold transaction.
    destruct (transaction_body P env _ db_tx) as [e | [sale db2]]; [right; apply Herr |].
    destruct (fault env AtCommit); [right; apply Herr |]. left. cbn. eauto.
  - by apply build_itemsPayload_not_Return in Hbuild.
  - right. apply Herr.
Qed.

(** ** Invariants of the database *)

(** X2. Receipt numbers stay unique: when no two stored sales share a
    receipt number before a request, none do after it, whatever the request
    is and however it ends. *)
Theorem receipt_numbers_stay_unique
        (P : Platform) (env : Env) (request : js_error + jsval)
        (db_read db_tx : DB) (resp : response) (db' : DB) :
  POST P env request db_read db_tx = (resp, db') ->
  NoDup (receiptNumbers db_tx) ->
  NoDup (receiptNumbers db').
Proof.
  intros HPOST Hnd. unfold receiptNumbers in *.
  destruct (decide (status resp = 201%Z)) as [Hok | Hno].
  - destruct (POST_created _ _ _ _ _ _ _ HPOST Hok)
      as (body & req & payload & sub & _ & _ & _ & _ & _ & Hrun).
    cbn zeta in Hrun. destruct Hrun as (_ & Hfresh & _ & -> & _).
    rewrite map_app. cbn. apply NoDup_app. split; [exact Hnd |]. split.
    + intros r Hin Hr. apply list_elem_of_singleton in Hr as ->.
      apply list_elem_of_fmap in Hin as (old & Heq & Hold).
      unfold receipt_unused in Hfresh. rewrite Forall_forall in Hfresh.
      by apply (Hfresh old Hold).
    + apply NoDup_singleton.
  - by rewrite (rejected_request_changes_nothing _ _ _ _ _ _ _ HPOST Hno).
Qed.

Lemma receipt_numbers_stay_unique_witness :
  NoDup (receiptNumbers
           (POST Scenario.platform (Scenario.env 1000)
                 (inr (Scenario.two_units 98)) Scenario.shop Scenario.shop).2).
Proof.
  eapply (receipt_numbers_stay_unique Scenario.platform (Scenario.env 1000)).
  - apply surjective_pairing.
  - vm_compute. constructor.
Defined.

(** The stock of a product that no line of the payload names is not touched
    by the decrements. *)
Lemma decrement_stock_other (env : Env) (items : list ItemPayload) (s : string) :
  VStr s ∉ map ip_productId items ->
  forall (db : DB) (i : nat) (db' : DB),
    decrement_stock env db i items = inr db' ->
    stocks db' !! s = stocks db !! s.
Proof.
  induction items as [| item rest IH]; intros Hnot db i db'; simpl.
  - by intros [= <-].
  - cbn in Hnot. apply not_elem_of_cons in Hnot as [Hne Hrest].
    destruct (fault env (AtUpdate i)); [discriminate |].
    unfold stock_update_decrement.
    destruct (ip_productId item) as [| | | | t | |]; try discriminate.
    destruct (stocks db !! t) as [q |]; [| discriminate].
    intros Hdec. rewrite (IH Hrest _ _ _ Hdec). cbn.
    apply lookup_insert_ne. congruence.
Qed.

(** The decrements neither create nor delete a stock row. *)
Lemma decrement_stock_rows (env : Env) (items : list ItemPayload) :
  forall (db : DB) (i : nat) (db' : DB),
    decrement_stock env db i items = inr db' ->
    forall s, is_Some (stocks db' !! s) <-> is_Some (stocks db !! s).
Proof.
  induction items as [| item rest IH]; intros db i db'; simpl.
  - by intros [= <-].
  - destruct (fault env (AtUpdate i)); [discriminate |].
    unfold stock_update_decrement.
    destruct (ip_productId item) as [| | | | t | |]; try discriminate.
    destruct (stocks db !! t) as [q |] eqn:Ht; [| discriminate].
    intros Hdec s. rewrite (IH _ _ _ Hdec s). cbn.
    destruct (decide (t = s)) as [-> | Hne].
    + rewrite lookup_insert_eq, Ht. split; eauto.
    + by rewrite lookup_insert_ne.
Qed.

Lemma sanitize_item_productId (P : Platform) (index : nat) (item : jsval)
      (s : SanitizedItem) :
  sanitize_item P index item = Next s -> si_productId s = get item "productId".
Proof.
  unfold sanitize_item, bad_request.
  repeat match goal with
         | |- context [if ?c then _ else _] => destruct c
         end; try discriminate; by intros [= <-].
Qed.

Lemma sanitize_items_productIds (P : Platform) (items : list jsval) :
  forall (index : nat) (l : list SanitizedItem),
    sanitize_items P index items = Next l ->
    map si_productId l = map (fun item => get item "productId") items.
Proof.
  induction items as [| item rest IH]; intros index l; simpl.
  - by intros [= <-].
  - destruct (sanitize_item P index item) as [s | r | e] eqn:Hs; simpl; try discriminate.
    destruct (sanitize_items P (S index) rest) as [more | r | e] eqn:Hm; simpl;
      try discriminate.
    intros [= <-]. cbn. f_equal.
    + eapply sanitize_item_productId; eassumption.
    + eapply IH; eassumption.
Qed.

Lemma validate_named_products (P : Platform) (body : jsval) (req : ValidRequest) :
  validate P body = Next req ->
  map si_productId (vr_items req) = named_products body.
Proof.
  unfold validate, named_products, items_of, body_field, bad_request.
  destruct (negb (truthy _)); [discriminate |].
  destruct (negb (truthy _) || _); [discriminate |].
  destruct (get _ "items") as [| | | | | [| first others] |]; try discriminate.
  destruct (Num.isNaN _ || Num.lt _ Num.zero); [discriminate |].
  destruct (sanitize_items P 0 (first :: others)) as [l | r | e] eqn:Hl;
    cbn; try discriminate.
  intros [= <-]. cbn. eapply (sanitize_items_productIds P (first :: others)); eassumption.
Qed.

Lemma priced_lines_productIds (P : Platform) (pm : gmap string ProductWithStock)
      (items : list SanitizedItem) (payload : list ItemPayload) :
  Forall2 (fun item p => exists line, price_item P pm item = Next (p, line))
          items payload ->
  map ip_productId payload = map si_productId items.
Proof.
  induction 1 as [| item p items payload [line Hp] _ IH]; [reflexivity |].
  cbn. f_equal; [| exact IH].
  unfold price_item in Hp.
  destruct (productMap_get pm (si_productId item)); [| discriminate].
  destruct (pws_stock p0); [| discriminate].
  destruct (Num.gt _ _); [discriminate |].
  destruct (negb _ || _); [discriminate |].
  by injection Hp as <- _.
Qed.

(** X3. A request changes nothing but the sales and the stock of the
    products it names: products and users stay as they are, earlier sales
    are kept and at most one sale is added after them, no stock row appears
    or disappears, and the stock of a product that no item of the body names
    is what it was. *)
Theorem POST_frame
        (P : Platform) (env : Env) (body : jsval)
        (db_read db_tx : DB) (resp : response) (db' : DB) :
  POST P env (inr body) db_read db_tx = (resp, db') ->
  products db' = products db_tx
  /\ users db' = users db_tx
  /\ (sales db' = sales db_tx \/ exists sale, sales db' = (sales db_tx ++ [sale])%list)
  /\ (forall s, is_Some (stocks db' !! s) <-> is_Some (stocks db_tx !! s))
  /\ (forall s, VStr s ∉ named_products body -> stocks db' !! s = stocks db_tx !! s).
Proof.
  intros HPOST.
  destruct (decide (status resp = 201%Z)) as [Hok | Hno].
  - destruct (POST_created _ _ _ _ _ _ _ HPOST Hok)
      as (body' & req & payload & sub & [= <-] & Hval & Hprice & _ & _ & Hrun).
    cbn zeta in Hrun. destruct Hrun as (_ & _ & Hdec & Hsales & _).
    pose proof (decrement_stock_frame _ _ _ _ _ Hdec) as (_ & Hp & Hu).
    split; [exact Hp |]. split; [exact Hu |]. split; [right; eauto |].
    split; [exact (decrement_stock_rows _ _ _ _ _ Hdec) |].
    intros s Hs.
    assert (VStr s ∉ map ip_productId payload) as Hnot.
    { apply price_request_Next in Hprice as (_ & _ & Hbuild).
      apply build_itemsPayload_Next, priced_lines_productIds in Hbuild.
      rewrite Hbuild. by rewrite (validate_named_products _ _ _ Hval). }
    exact (decrement_stock_other env payload s Hnot _ _ _ Hdec).
  - rewrite (rejected_request_changes_nothing _ _ _ _ _ _ _ HPOST Hno).
    repeat split; auto.
Qed.

(** ** The product query and the product map *)

Lemma unique_step_elem (acc l : list jsval) (x : jsval) :
  x ∈ foldl (fun acc v => if existsb (same_value_zero v) acc then acc
                          else (acc ++ [v])%list) acc l ->
  x ∈ acc \/ x ∈ l.
Proof.
  revert acc. induction l as [| v rest IH]; intros acc; simpl; [auto |].
  intros H. apply IH in H as [H | H]; [| right; by apply elem_of_cons; right].
  destruct (existsb (same_value_zero v) acc); [by left |].
  apply elem_of_app in H as [H | H]; [by left |].
  apply list_elem_of_singleton in H as ->. right. apply list_elem_of_here.
Qed.

Lemma unique_elem (l : list jsval) (x : jsval) : x ∈ unique l -> x ∈ l.
Proof.
  unfold unique. intros H. apply unique_step_elem in H as [H | H]; [| done].
  by apply elem_of_nil in H.
Qed.

Lemma same_value_zero_VStr (s : string) (y : jsval) :
  same_value_zero (VStr s) y = true -> y = VStr s.
Proof.
  destruct y; simpl; try discriminate. intros H. by apply String.eqb_eq in H as ->.
Qed.

Lemma unique_step_VStr (acc l : list jsval) (s : string) :
  VStr s ∈ acc \/ VStr s ∈ l ->
  VStr s ∈ foldl (fun acc v => if existsb (same_value_zero v) acc then acc
                               else (acc ++ [v])%list) acc l.
Proof.
  revert acc. induction l as [| v rest IH]; intros acc; simpl.
  - intros [H | H]; [done | by apply elem_of_nil in H].
  - intros [H | H]; apply IH.
    + left. destruct (existsb (same_value_zero v) acc); [done |].
      apply elem_of_app. by left.
    + apply elem_of_cons in H as [<- | H]; [| by right].
      left. destruct (existsb (same_value_zero (VStr s)) acc) eqn:E.
      * apply existsb_exists in E as (y & Hy & Heq).
        apply same_value_zero_VStr in Heq as ->. by apply list_elem_of_In.
      * apply elem_of_app. right. apply list_elem_of_here.
Qed.

Lemma unique_VStr (l : list jsval) (s : string) : VStr s ∈ l -> VStr s ∈ unique l.
Proof. intros H. apply unique_step_VStr. by right. Qed.

(** The query returns one row per id exactly when every id is the id of a
    product. *)
Lemma product_findMany_length (db : DB) (ids : list jsval) :
  length (product_findMany db ids) = length ids <->
  Forall (fun id => in_catalog db id = true) ids.
Proof.
  unfold product_findMany.
  set (f := fun id => match id with
                      | VStr s => _ <$> products db !! s
                      | _ => None
                      end).
  assert (forall l, length (omap f l) <= length l) as Hle.
  { induction l as [| x l IH]; cbn; [lia |]. destruct (f x); cbn; lia. }
  assert (forall id, is_Some (f id) <-> in_catalog db id = true) as Hf.
  { intros id. unfold f, in_catalog.
    destruct id as [| | | | s | |]; try (split; [by intros [? ?] | discriminate]).
    rewrite bool_decide_eq_true. destruct (products db !! s); cbn.
    - split; eauto.
    - split; by intros [? ?]. }
  induction ids as [| id rest IH]; cbn.
  - split; [constructor | reflexivity].
  - destruct (f id) as [row |] eqn:Hrow; cbn.
    + split.
      * intros [= H]. constructor; [apply Hf; eauto | by apply IH].
      * intros H. inversion H; subst. f_equal. by apply IH.
    + split.
      * intros H. pose proof (Hle rest). lia.
      * intros H. inversion H as [| ? ? Hid _]; subst.
        apply Hf in Hid as [? Hid]. congruence.
Qed.

Lemma product_findMany_row (db : DB) (ids : list jsval) (p : ProductWithStock) :
  p ∈ product_findMany db ids <->
  exists product, VStr (pws_id p) ∈ ids
                  /\ products db !! pws_id p = Some product
                  /\ p = product_row db (pws_id p) product.
Proof.
  unfold product_findMany. rewrite list_elem_of_omap. split.
  - intros (id & Hin & Hid).
    destruct id as [| | | | s | |]; try discriminate.
    destruct (products db !! s) as [product |] eqn:Hs; [| discriminate].
    injection Hid as <-. cbn. exists product. by rewrite Hs.
  - intros (product & Hin & Hs & ->). exists (VStr (pws_id p)). split; [exact Hin |].
    rewrite Hs. reflexivity.
Qed.

Lemma productMap_of_keeps (found : list ProductWithStock) (k : string) :
  forall m : gmap string ProductWithStock,
    is_Some (m !! k) ->
    is_Some (foldl (fun m product => <[pws_id product := product]> m) m found !! k).
Proof.
  induction found as [| x rest IH]; intros m Hm; simpl; [exact Hm |].
  apply IH. destruct (decide (pws_id x = k)) as [<- | Hne].
  - rewrite lookup_insert_eq. eauto.
  - by rewrite lookup_insert_ne.
Qed.

Lemma productMap_of_complete (found : list ProductWithStock) (p : ProductWithStock) :
  p ∈ found -> is_Some (productMap_of found !! pws_id p).
Proof.
  unfold productMap_of. generalize (∅ : gmap string ProductWithStock).
  induction found as [| x rest IH]; intros m Hin; [by apply elem_of_nil in Hin |].
  simpl. apply elem_of_cons in Hin as [-> | Hin]; [| by apply IH].
  apply productMap_of_keeps. rewrite lookup_insert_eq. eauto.
Qed.

(** The map the handler builds holds, for every queried id of the catalog,
    the row of that product. *)
Lemma productMap_get_row (db : DB) (ids : list jsval) (s : string) (product : Product) :
  VStr s ∈ ids ->
  products db !! s = Some product ->
  productMap_get (productMap_of (product_findMany db ids)) (VStr s)
  = Some (product_row db s product).
Proof.
  intros Hin Hs. cbn.
  assert (product_row db s product ∈ product_findMany db ids) as Hrow.
  { apply product_findMany_row. exists product. cbn. auto. }
  destruct (productMap_of_complete _ _ Hrow) as [p Hp]. cbn in Hp. rewrite Hp.
  apply productMap_of_lookup in Hp as [Hp Hid].
  apply product_findMany_row in Hp as (product' & _ & Hs' & ->).
  rewrite Hid in Hs'. rewrite Hs in Hs'. injection Hs' as <-. by rewrite Hid.
Qed.

(** ** Which requests are priced *)

Lemma price_item_sellable (P : Platform) (db : DB) (ids : list jsval)
      (item : SanitizedItem) :
  sellable db item ->
  si_productId item ∈ ids ->
  exists p line,
    price_item P (productMap_of (product_findMany db ids)) item = Next (p, line).
Proof.
  intros (s & product & available & Hid & Hs & Hst & Hgt & Hfin & Hpos) Hin.
  unfold price_item. rewrite Hid in Hin |- *.
  rewrite (productMap_get_row db ids s product Hin Hs). cbn.
  rewrite Hst, Hgt, Hfin, Hpos. cbn. eauto.
Qed.

Lemma build_itemsPayload_sellable (P : Platform) (db : DB) (ids : list jsval)
      (items : list SanitizedItem) :
  Forall (sellable db) items ->
  Forall (fun item => si_productId item ∈ ids) items ->
  forall sub0, exists payload sub,
      build_itemsPayload P (productMap_of (product_findMany db ids)) items sub0
      = Next (payload, sub).
Proof.
  induction 1 as [| item rest Hitem _ IH]; intros Hin sub0; simpl; [eauto |].
  inversion Hin as [| ? ? Hhere Hrest]; subst.
  destruct (price_item_sellable P db ids item Hitem Hhere) as (p & line & ->). cbn.
  destruct (IH Hrest (Num.add sub0 line)) as (payload & sub & ->). cbn. eauto.
Qed.

Lemma sellable_in_unique (db : DB) (items : list SanitizedItem) :
  Forall (sellable db) items ->
  Forall (fun item => si_productId item ∈ unique (map si_productId items)) items
  /\ Forall (fun id => in_catalog db id = true) (unique (map si_productId items)).
Proof.
  intros Hall. split.
  - apply Forall_forall. intros item Hin.
    pose proof (proj1 (Forall_forall _ _) Hall item Hin) as (s & _ & _ & Hid & _).
    rewrite Hid. apply unique_VStr. rewrite <- Hid.
    apply list_elem_of_fmap. eauto.
  - apply Forall_forall. intros id Hin. apply unique_elem in Hin.
    apply list_elem_of_fmap in Hin as (item & -> & Hin).
    pose proof (proj1 (Forall_forall _ _) Hall item Hin)
      as (s & product & _ & Hid & Hs & _).
    rewrite Hid. cbn. apply bool_decide_eq_true. rewrite Hs. eauto.
Qed.

(** A request whose lines are all sellable is priced. *)
Lemma price_request_sellable (P : Platform) (env : Env) (db : DB) (req : ValidRequest) :
  fault env AtFindMany = None ->
  Forall (sellable db) (vr_items req) ->
  exists payload sub, price_request P env db req = Next (payload, sub).
Proof.
  intros Hnf Hall. unfold price_request. rewrite Hnf.
  destruct (sellable_in_unique db (vr_items req) Hall) as [Hin Hcat].
  apply product_findMany_length in Hcat. rewrite Hcat, Nat.eqb_refl. cbn.
  apply build_itemsPayload_sellable; assumption.
Qed.

(** The run of the handler from the discount check on, when nothing fails
    on its own and the transaction starts from the state the products were
    read from: the stock re-check passes, and the outcome is decided by the
    creation of the sale. *)
Lemma POST_reaches_create (P : Platform) (env : Env) (body : jsval) (db : DB)
      (req : ValidRequest) (payload : list ItemPayload) (sub : num) :
  validate P body = Next req ->
  price_request P env db req = Next (payload, sub) ->
  Num.gt (toCents (vr_discount req)) sub = false ->
  no_faults env ->
  let sale := new_sale P env {| pr_request := req;
                                pr_itemsPayload := payload;
                                pr_subtotalInCents := sub;
                                pr_discountInCents := toCents (vr_discount req) |} in
  POST P env (inr body) db db
  = match sale_create db sale with
    | inl e => (handle_error e, db)
    | inr (created, db1) =>
        match decrement_stock env db1 0 payload with
        | inl e => (handle_error e, db)
        | inr db2 => ({| status := 201; body := SaleBody (formatSale created) |}, db2)
        end
    end.
Proof.
  intros Hval Hprice Hgt Hnf sale.
  pose proof (validate_valid _ _ _ Hval) as [Hitems _].
  pose proof (price_request_Next _ _ _ _ _ Hprice) as (_ & _ & Hbuild).
  cbn zeta in Hbuild.
  pose proof (priced_lines_covered _ _ _ _ _ Hitems
                (build_itemsPayload_Next _ _ _ _ _ _ Hbuild)) as Hcov.
  unfold POST. rewrite Hval. cbn. unfold prepare. rewrite Hprice. cbn.
  unfold check_discount. cbn. rewrite Hgt. cbn.
  unfold transaction, transaction_body. cbn.
  rewrite (recheck_stock_covered env db payload Hnf Hcov 0).
  rewrite (Hnf AtCreate). fold sale.
  destruct (sale_create db sale) as [e | [created db1]]; [reflexivity |].
  destruct (decrement_stock env db1 0 payload) as [e | db2]; [reflexivity |].
  by rewrite (Hnf AtCommit).
Qed.

(** ** Substrings of the thrown messages *)

Lemma includes_prefix (haystack needle : string) :
  String.prefix needle haystack = true -> includes haystack needle = true.
Proof.
  intros H. destruct haystack as [| c rest].
  - change (includes EmptyString needle)
      with (String.prefix needle EmptyString || false).
    by rewrite H.
  - change (includes (String c rest) needle)
      with (String.prefix needle (String c rest) || includes rest needle).
    by rewrite H.
Qed.

Lemma includes_app (before haystack needle : string) :
  includes haystack needle = true -> includes (before ++ haystack) needle = true.
Proof.
  intros H. induction before as [| c rest IH]; [exact H |].
  change (String c rest ++ haystack) with (String c (rest ++ haystack)).
  simpl. rewrite IH. apply orb_true_r.
Qed.

Lemma prefix_app (needle rest : string) : String.prefix needle (needle ++ rest) = true.
Proof.
  induction needle as [| c n IH]; [by destruct rest |].
  change (String c n ++ rest) with (String c (n ++ rest)).
  simpl. rewrite IH. by destruct (Ascii.ascii_dec c c).
Qed.

Lemma handle_error_insufficient_stock (name shown : string) :
  handle_error (Error ("Insufficient stock for " ++ name ++ ". Available: " ++ shown))
  = error_response 400 ("Insufficient stock for " ++ name ++ ". Available: " ++ shown).
Proof.
  unfold handle_error.
  set (msg := "Insufficient stock for " ++ name ++ ". Available: " ++ shown).
  assert (includes msg "Insufficient stock" = true) as Hinc.
  { subst msg.
    change ("Insufficient stock for " ++ name ++ ". Available: " ++ shown)
      with ("Insufficient stock" ++ (" for " ++ name ++ ". Available: " ++ shown)).
    apply includes_prefix, prefix_app. }
  cbn [is_Error message Error]. rewrite Hinc. cbn.
  by destruct (String.eqb msg EmptyString) eqn:E; [apply String.eqb_eq in E |].
Qed.

Lemma handle_error_no_stock_record (name : string) :
  handle_error (Error ("Product " ++ dquote ++ name ++ dquote ++ " has no stock record."))
  = error_response 400 ("Product " ++ dquote ++ name ++ dquote ++ " has no stock record.").
Proof.
  unfold handle_error.
  set (msg := "Product " ++ dquote ++ name ++ dquote ++ " has no stock record.").
  assert (includes msg "no stock record" = true) as Hinc.
  { subst msg. do 4 apply includes_app. reflexivity. }
  cbn [is_Error message Error]. rewrite Hinc, orb_true_r. cbn.
  by destruct (String.eqb msg EmptyString) eqn:E; [apply String.eqb_eq in E |].
Qed.

(** ** Failures of the pricing *)

Lemma unique_step_covers (acc l : list jsval) (v : jsval) :
  (exists y, y ∈ acc /\ (y = v \/ same_value_zero v y = true)) \/ v ∈ l ->
  exists y,
    y ∈ foldl (fun acc v => if existsb (same_value_zero v) acc then acc
                            else (acc ++ [v])%list) acc l
    /\ (y = v \/ same_value_zero v y = true).
Proof.
  revert acc. induction l as [| v0 rest IH]; intros acc; simpl.
  - intros [H | H]; [exact H | by apply elem_of_nil in H].
  - intros [(y & Hy & Hv) | H]; apply IH.
    + left. exists y. split; [| exact Hv].
      destruct (existsb (same_value_zero v0) acc); [exact Hy |].
      apply elem_of_app. by left.
    + apply elem_of_cons in H as [-> | H]; [| by right].
      left. destruct (existsb (same_value_zero v0) acc) eqn:E.
      * apply existsb_exists in E as (y & Hy & Heq).
        exists y. split; [by apply list_elem_of_In | by right].
      * exists v0. split; [| by left]. apply elem_of_app. right. apply list_elem_of_here.
Qed.

Lemma same_value_zero_VStr_r (v : jsval) (t : string) :
  same_value_zero v (VStr t) = true -> v = VStr t.
Proof.
  destruct v; simpl; try discriminate. intros H. by apply String.eqb_eq in H as ->.
Qed.

(** Past the 404 check every line names a product of the catalog. *)
Lemma lines_name_products (db : DB) (items : list SanitizedItem) :
  Forall (fun id => in_catalog db id = true) (unique (map si_productId items)) ->
  Forall (fun item => exists s product,
              si_productId item = VStr s
              /\ VStr s ∈ unique (map si_productId items)
              /\ products db !! s = Some product) items.
Proof.
  intros Hcat. apply Forall_forall. intros item Hin.
  assert (si_productId item ∈ map si_productId items) as Hid
      by (apply list_elem_of_fmap; eauto).
  destruct (unique_step_covers [] _ _ (or_intror Hid)) as (y & Hy & Hv).
  fold (unique (map si_productId items)) in Hy.
  pose proof (proj1 (Forall_forall _ _) Hcat y Hy) as Hc.
  destruct y as [| | | | t | |]; try discriminate.
  cbn in Hc. apply bool_decide_eq_true in Hc as [product Hproduct].
  exists t, product. split; [| split; [exact Hy | exact Hproduct]].
  destruct Hv as [<- | Hv]; [reflexivity | by apply same_value_zero_VStr_r].
Qed.

Lemma price_item_Throw (P : Platform) (db : DB) (ids : list jsval)
      (item : SanitizedItem) (s : string) (product : Product) (e : js_error) :
  si_productId item = VStr s ->
  VStr s ∈ ids ->
  products db !! s = Some product ->
  price_item P (productMap_of (product_findMany db ids)) item = Throw e ->
  pricing_failure P db item s product e.
Proof.
  intros Hid Hin Hs. unfold price_item, pricing_failure. rewrite Hid.
  rewrite (productMap_get_row db ids s product Hin Hs). cbn.
  destruct (stocks db !! s) as [available |]; [| intros [= <-]; by left].
  destruct (Num.gt (si_quantity item) available) eqn:Hgt.
  { intros [= <-]. right. left. eauto. }
  destruct (negb _ || _) eqn:Hbad; [| discriminate].
  intros [= <-]. right. right. exists available. auto.
Qed.

Lemma build_itemsPayload_Throw (P : Platform) (db : DB) (ids : list jsval)
      (items : list SanitizedItem) :
  Forall (fun item => exists s product,
              si_productId item = VStr s /\ VStr s ∈ ids
              /\ products db !! s = Some product) items ->
  forall (sub0 : num) (e : js_error),
    build_itemsPayload P (productMap_of (product_findMany db ids)) items sub0 = Throw e ->
    exists item s product,
      item ∈ items /\ si_productId item = VStr s /\ products db !! s = Some product
      /\ pricing_failure P db item s product e.
Proof.
  induction 1 as [| item rest (s & product & Hid & Hin & Hs) _ IH]; intros sub0 e; simpl;
    [discriminate |].
  destruct (price_item P _ item) as [[p l] | r | e'] eqn:Hp; simpl; try discriminate.
  - destruct (build_itemsPayload P _ rest (Num.add sub0 l)) as [[ps sub] | r | e'] eqn:Hb;
      simpl; try discriminate.
    intros [= <-]. destruct (IH _ _ Hb) as (item' & s' & product' & Hin' & H').
    exists item', s', product'. split; [by apply elem_of_cons; right | exact H'].
  - intros [= <-]. exists item, s, product.
    split; [apply list_elem_of_here |]. split; [exact Hid |]. split; [exact Hs |].
    eapply price_item_Throw; eassumption.
Qed.

Lemma price_request_Throw (P : Platform) (env : Env) (db : DB) (req : ValidRequest)
      (e : js_error) :
  fault env AtFindMany = None ->
  price_request P env db req = Throw e ->
  exists item s product,
    item ∈ vr_items req /\ si_productId item = VStr s /\ products db !! s = Some product
    /\ pricing_failure P db item s product e.
Proof.
  intros Hnf. unfold price_request. rewrite Hnf.
  destruct (length _ =? length _)%nat eqn:Hlen; cbn; [| discriminate].
  apply Nat.eqb_eq, product_findMany_length, lines_name_products in Hlen.
  apply build_itemsPayload_Throw. eapply Forall_impl; [exact Hlen |].
  intros item (s & product & H1 & H2 & H3). eauto.
Qed.

(** X4. When the product query does not fail and the pricing throws, it is
    for a line of the request whose product exists, and for one of three
    reasons.  The product has no stock row, or the line asks for more than
    the stock row holds: the answer is 400 with the message that names the
    product (and the available quantity).  Or the resolved unit price is not
    a finite number above 0: the answer is the one the catch block gives to
    the invalid-price error.  The database is left as it is. *)
Theorem pricing_failure_answers
        (P : Platform) (env : Env) (body : jsval) (db_read db_tx : DB)
        (req : ValidRequest) (e : js_error) :
  validate P body = Next req ->
  fault env AtFindMany = None ->
  price_request P env db_read req = Throw e ->
  exists item s product,
    item ∈ vr_items req
    /\ si_productId item = VStr s
    /\ products db_read !! s = Some product
    /\ ((stocks db_read !! s = None
         /\ POST P env (inr body) db_read db_tx
            = (error_response 400 ("Product " ++ dquote ++ product_name product ++ dquote
                                     ++ " has no stock record."), db_tx))
        \/ (exists available,
               stocks db_read !! s = Some available
               /\ Num.gt (si_quantity item) available = true
               /\ POST P env (inr body) db_read db_tx
                  = (error_response 400
                       ("Insufficient stock for " ++ product_name product
                          ++ ". Available: " ++ num_to_str P available), db_tx))
        \/ ((negb (Num.isFinite (resolve_unitPrice (si_priceOverride item)
                                                   (product_price product)))
             || Num.le (resolve_unitPrice (si_priceOverride item)
                                          (product_price product)) Num.zero) = true
            /\ POST P env (inr body) db_read db_tx
               = (handle_error (Error ("Invalid price for " ++ product_name product
                                         ++ ".")), db_tx))).
Proof.
  intros Hval Hnf Hthrow.
  assert (POST P env (inr body) db_read db_tx = (handle_error e, db_tx)) as HPOST.
  { unfold POST. rewrite Hval. cbn. unfold prepare. by rewrite Hthrow. }
  destruct (price_request_Throw _ _ _ _ _ Hnf Hthrow)
    as (item & s & product & Hin & Hid & Hs & Hwhy).
  exists item, s, product. repeat split; try assumption.
  destruct Hwhy as [[Hnone ->] | [(available & Hst & Hgt & ->)
                                 | (available & Hst & Hgt & Hbad & ->)]].
  - left. split; [exact Hnone |]. by rewrite HPOST, handle_error_no_stock_record.
  - right. left. exists available. split; [exact Hst |]. split; [exact Hgt |].
    by rewrite HPOST, handle_error_insufficient_stock.
  - right. right. split; [exact Hbad | exact HPOST].
Qed.

(** X5. The handler never throws its product-missing error: when the
    product query does not fail, every line that reaches the pricing names a
    product the query has returned. *)
Theorem product_missing_is_never_thrown
        (P : Platform) (env : Env) (db : DB) (req : ValidRequest) :
  fault env AtFindMany = None ->
  price_request P env db req <> Throw (Error "Product missing during sale creation.").
Proof.
  intros Hnf Hthrow.
  destruct (price_request_Throw _ _ _ _ _ Hnf Hthrow)
    as (item & s & product & _ & _ & _ & Hwhy).
  destruct Hwhy as [[_ H] | [(available & _ & _ & H) | (available & _ & _ & _ & H)]];
    injection H as H; unfold String.append in H; cbn in H; discriminate.
Qed.

(** ** Unknown products *)

Lemma filter_ext_elem {A : Type} (F G : A -> Prop)
      `{forall x, Decision (F x)} `{forall x, Decision (G x)} (l : list A) :
  (forall x, x ∈ l -> F x <-> G x) -> filter F l = filter G l.
Proof.
  induction l as [| x l IH]; intros Hext; [reflexivity |].
  rewrite !filter_cons.
  assert (filter F l = filter G l) as ->.
  { apply IH. intros y Hy. apply Hext. by apply elem_of_cons; right. }
  pose proof (Hext x (list_elem_of_here x l)) as Hx.
  destruct (decide (F x)), (decide (G x)); tauto.
Qed.

Lemma found_in_catalog (db : DB) (ids : list jsval) (id : jsval) :
  id ∈ ids -> found_in (product_findMany db ids) id = in_catalog db id.
Proof.
  intros Hin. unfold found_in, in_catalog.
  destruct (existsb _ (product_findMany db ids)) eqn:E.
  - apply existsb_exists in E as (p & Hp & Heq).
    apply same_value_zero_VStr in Heq as ->.
    apply list_elem_of_In, product_findMany_row in Hp as (product & _ & Hs & _).
    symmetry. apply bool_decide_eq_true. rewrite Hs. eauto.
  - destruct id as [| | | | s | |]; try reflexivity.
    symmetry. apply bool_decide_eq_false. intros [product Hs].
    assert (existsb (fun product => same_value_zero (VStr (pws_id product)) (VStr s))
                    (product_findMany db ids) = true) as Htrue; [| congruence].
    apply existsb_exists. exists (product_row db s product). split.
    + apply list_elem_of_In, product_findMany_row. exists product. cbn. auto.
    + cbn. apply String.eqb_refl.
Qed.

Lemma handle_error_not_404 (e : js_error) (db : DB) :
  status (handle_error e, db).1 <> 404%Z.
Proof. cbn [fst]. destruct (handle_error_status e) as [-> | ->]; discriminate. Qed.

Lemma no_missing_in_catalog (db : DB) (ids : list jsval) :
  Forall (fun id => in_catalog db id = true) ids ->
  filter (fun id => in_catalog db id = false) ids = [].
Proof.
  induction 1 as [| id rest Hid _ IH]; [reflexivity |].
  rewrite filter_cons. destruct (decide (in_catalog db id = false)); [congruence | exact IH].
Qed.

(** X6. When the request passes validation and the product query does not
    fail, the answer is 404 exactly when one of the productIds the body
    names is not the id of a product; the message then lists those ids, each
    once, in the order of their first appearance, and nothing is stored. *)
Theorem unknown_products_answer_404
        (P : Platform) (env : Env) (body : jsval) (db_read db_tx : DB)
        (req : ValidRequest) :
  validate P body = Next req ->
  fault env AtFindMany = None ->
  let missing := filter (fun id => in_catalog db_read id = false)
                        (unique (named_products body)) in
  (missing <> [] ->
   POST P env (inr body) db_read db_tx
   = (error_response 404 ("Products not found: " ++ join ", " (map (js_String P) missing)),
      db_tx))
  /\ (missing = [] -> status (POST P env (inr body) db_read db_tx).1 <> 404%Z).
Proof.
  intros Hval Hnf missing.
  pose proof (validate_named_products _ _ _ Hval) as Hnamed.
  set (ids := unique (named_products body)) in *.
  assert (filter (fun id => negb (found_in (product_findMany db_read ids) id)) ids
          = missing) as Hmissing.
  { apply filter_ext_elem. intros id Hid. rewrite (found_in_catalog _ _ _ Hid).
    destruct (in_catalog db_read id); cbn; split; (done || discriminate). }
  assert (missing = [] <-> length (product_findMany db_read ids) = length ids) as Hiff.
  { rewrite product_findMany_length. subst missing. split.
    - intros Hnil. apply Forall_forall. intros id Hid.
      destruct (in_catalog db_read id) eqn:E; [reflexivity |].
      exfalso. eapply filter_nil_not_elem_of; [exact Hnil | exact E | exact Hid].
    - apply no_missing_in_catalog. }
  unfold POST. rewrite Hval. cbn. unfold prepare, price_request.
  rewrite Hnf, Hnamed. fold ids. split.
  - intros Hne. destruct (length _ =? length ids)%nat eqn:Hlen.
    + apply Nat.eqb_eq, Hiff in Hlen. contradiction.
    + cbn. by rewrite Hmissing.
  - intros Hnil. apply Hiff in Hnil. rewrite Hnil, Nat.eqb_refl. cbn.
    destruct (build_itemsPayload P _ (vr_items req) Num.zero) as [[payload sub] | r | e]
      eqn:Hbuild; cbn.
    + unfold check_discount. cbn. destruct (Num.gt _ sub); cbn; [discriminate |].
      unfold transaction.
      destruct (transaction_body P env _ db_tx) as [e | [sale db2]].
      * apply handle_error_not_404.
      * destruct (fault env AtCommit) as [e |]; [apply handle_error_not_404 | discriminate].
    + by apply build_itemsPayload_not_Return in Hbuild.
    + apply (handle_error_not_404 e db_tx).
Qed.

(** ** Requests that commit, and the receipt number that is taken *)

Lemma validate_discount_field (P : Platform) (body : jsval) (req : ValidRequest) :
  validate P body = Next req -> vr_discount req = discount_of P body.
Proof.
  unfold validate, discount_of, body_field, bad_request.
  destruct (negb (truthy _)); [discriminate |].
  destruct (negb (truthy _) || _); [discriminate |].
  destruct (get _ "items") as [| | | | | [| first others] |]; try discriminate.
  destruct (Num.isNaN _ || Num.lt _ Num.zero); [discriminate |].
  destruct (sanitize_items P 0 (first :: others)); cbn; try discriminate.
  by intros [= <-].
Qed.

Lemma priced_line_nonneg (P : Platform) (pm : gmap string ProductWithStock)
      (item : SanitizedItem) (payload : ItemPayload) (line : num) :
  valid_item item ->
  price_item P pm item = Next (payload, line) ->
  exists l, line = Fin l /\ (0 <= l)%Q.
Proof.
  intros Hv Hp.
  destruct (price_item_Next _ _ _ _ _ Hv Hp)
    as (product & available & q & u & _ & _ & _ & Hq & _ & _ & Hu & -> & _).
  rewrite toCents_Fin, round_mul_cents. eexists. split; [reflexivity |].
  change 0%Q with (inject_Z 0). rewrite <- Zle_Qle.
  change 0%Z with (Qfloor 0). apply Qfloor_resp_le.
  assert (0 <= inject_Z (Qfloor (u * inject_Z 100 + (1 # 2))))%Q as Hpc.
  { change 0%Q with (inject_Z 0). rewrite <- Zle_Qle.
    change 0%Z with (Qfloor 0). apply Qfloor_resp_le.
    replace 0%Q with (0 + 0)%Q by reflexivity. apply Qplus_le_compat; [| done].
    apply Qmult_le_0_compat; [by apply Qlt_le_weak | done]. }
  replace 0%Q with (0 + 0)%Q by reflexivity. apply Qplus_le_compat; [| done].
  apply Qmult_le_0_compat; [exact Hpc | by apply Qlt_le_weak].
Qed.

Lemma priced_subtotal_nonneg (P : Platform) (pm : gmap string ProductWithStock)
      (items : list SanitizedItem) :
  Forall valid_item items ->
  forall (sub0 : num) (payload : list ItemPayload) (sub : num),
    (exists x0, sub0 = Fin x0 /\ (0 <= x0)%Q) ->
    build_itemsPayload P pm items sub0 = Next (payload, sub) ->
    exists x, sub = Fin x /\ (0 <= x)%Q.
Proof.
  induction 1 as [| item rest Hitem _ IH]; intros sub0 payload sub H0; simpl.
  - by intros [= _ <-].
  - destruct (price_item P pm item) as [[p l] | r | e] eqn:Hp; simpl; try discriminate.
    destruct (build_itemsPayload P pm rest (Num.add sub0 l)) as [[ps s] | r | e] eqn:Hb;
      simpl; try discriminate.
    intros [= _ <-]. eapply IH; [| exact Hb].
    destruct H0 as (x0 & -> & Hx0).
    destruct (priced_line_nonneg _ _ _ _ _ Hitem Hp) as (l' & -> & Hl).
    eexists. split; [reflexivity |].
    replace 0%Q with (0 + 0)%Q by reflexivity. by apply Qplus_le_compat.
Qed.

(** X7. A request that passes validation, carries no discount, and whose
    lines can all be sold from the database (the product exists, its stock
    row covers the quantity, the resolved price is a finite number above 0)
    commits when no call to the persistence layer fails on its own, the
    receipt number is not stored yet and the database does not change in
    between: the answer is 201 with the stored sale, added after the sales
    that were there. *)
Theorem sellable_request_commits
        (P : Platform) (env : Env) (body : jsval) (db : DB) (req : ValidRequest) :
  validate P body = Next req ->
  Forall (sellable db) (vr_items req) ->
  discount_of P body = Num.zero ->
  no_faults env ->
  receipt_unused db (resolve_receiptNumber P env (body_field body "receiptNumber")) ->
  exists (sale : Sale) (db' : DB),
    POST P env (inr body) db db
    = ({| status := 201; body := SaleBody (formatSale (load_relations db sale)) |}, db')
    /\ sales db' = (sales db ++ [sale])%list.
Proof.
  intros Hval Hsell Hzero Hnf Hfresh.
  destruct (price_request_sellable P env db req (Hnf AtFindMany) Hsell)
    as (payload & sub & Hprice).
  pose proof (validate_valid _ _ _ Hval) as [Hitems _].
  pose proof (price_request_Next _ _ _ _ _ Hprice) as (_ & _ & Hbuild).
  cbn zeta in Hbuild.
  destruct (priced_subtotal_nonneg P _ _ Hitems Num.zero payload sub
              (ex_intro _ 0%Q (conj eq_refl (Qle_refl 0))) Hbuild) as (x & -> & Hx).
  assert (Num.gt (toCents (vr_discount req)) (Fin x) = false) as Hgt.
  { rewrite (validate_discount_field _ _ _ Hval), Hzero.
    unfold Num.gt, Num.lt. cbn. apply negb_false_iff, Qle_bool_iff. exact Hx. }
  pose proof (validate_Next_fields _ _ _ Hval) as [Hreceipt _].
  rewrite <- Hreceipt in Hfresh.
  destruct (POST_commits _ _ _ _ _ _ _ Hval Hprice Hgt Hnf Hfresh)
    as (db' & HPOST & _ & Hsales).
  eauto.
Qed.

(** X8. A request that would otherwise commit is refused when its receipt
    number, supplied or generated, is the receipt number of a stored sale:
    the answer is 500 with the receipt-number message and nothing is
    stored. *)
Theorem stored_receipt_number_is_refused
        (P : Platform) (env : Env) (body : jsval) (db : DB)
        (req : ValidRequest) (payload : list ItemPayload) (sub : num) :
  validate P body = Next req ->
  price_request P env db req = Next (payload, sub) ->
  Num.gt (toCents (vr_discount req)) sub = false ->
  no_faults env ->
  resolve_receiptNumber P env (body_field body "receiptNumber") ∈ receiptNumbers db ->
  POST P env (inr body) db db
  = (error_response 500 "Receipt number must be unique.", db).
Proof.
  intros Hval Hprice Hgt Hnf Hused.
  rewrite (POST_reaches_create _ _ _ _ _ _ _ Hval Hprice Hgt Hnf).
  unfold sale_create.
  assert (existsb (fun old =>
                     String.eqb (sale_receiptNumber old)
                                (resolve_receiptNumber P env (vr_receiptNumber req)))
                  (sales db) = true) as Hex.
  { apply existsb_exists. unfold receiptNumbers in Hused.
    apply list_elem_of_fmap in Hused as (old & Heq & Hold).
    exists old. split; [by apply list_elem_of_In |].
    apply String.eqb_eq. rewrite (proj1 (validate_Next_fields _ _ _ Hval)).
    by symmetry. }
  cbn. by rewrite Hex.
Qed.

(** ** Stock after a committed sale *)


(** ** Monetary normaliser *)




(** ** The further properties of the handler at concrete requests *)

Lemma POST_frame_witness :
  let after := (POST Scenario.platform (Scenario.env 1000) (inr Cases.soap_body)
                     Cases.shop Cases.shop).2 in
  products after = products Cases.shop
  /\ users after = users Cases.shop
  /\ stocks after !! "P2" = stocks Cases.shop !! "P2".
Proof.
  cbn zeta.
  pose proof (POST_frame Scenario.platform (Scenario.env 1000) Cases.soap_body
                         Cases.shop Cases.shop _ _ (surjective_pairing _))
    as (Hp & Hu & _ & _ & Hother).
  split; [exact Hp |]. split; [exact Hu |]. apply Hother.
  change (named_products Cases.soap_body) with [VStr "P1"].
  rewrite list_elem_of_singleton. discriminate.
Defined.

Lemma pricing_failure_answers_witness :
  exists item s product,
    item ∈ vr_items Cases.greedy_request
    /\ si_productId item = VStr s
    /\ products Cases.shop !! s = Some product
    /\ ((stocks Cases.shop !! s = None
         /\ POST Scenario.platform (Scenario.env 1000) (inr Cases.greedy_body)
                 Cases.shop Cases.shop
            = (error_response 400 ("Product " ++ dquote ++ product_name product ++ dquote
                                     ++ " has no stock record."), Cases.shop))
        \/ (exists available,
               stocks Cases.shop !! s = Some available
               /\ Num.gt (si_quantity item) available = true
               /\ POST Scenario.platform (Scenario.env 1000) (inr Cases.greedy_body)
                       Cases.shop Cases.shop
                  = (error_response 400
                       ("Insufficient stock for " ++ product_name product
                          ++ ". Available: " ++ num_to_str Scenario.platform available),
                     Cases.shop))
        \/ ((negb (Num.isFinite (resolve_unitPrice (si_priceOverride item)
                                                   (product_price product)))
             || Num.le (resolve_unitPrice (si_priceOverride item)
                                          (product_price product)) Num.zero) = true
            /\ POST Scenario.platform (Scenario.env 1000) (inr Cases.greedy_body)
                    Cases.shop Cases.shop
               = (handle_error (Error ("Invalid price for " ++ product_name product
                                         ++ ".")), Cases.shop))).
Proof.
  apply (pricing_failure_answers Scenario.platform (Scenario.env 1000) Cases.greedy_body
           Cases.shop Cases.shop Cases.greedy_request
           (Error "Insufficient stock for Soap. Available: 5")).
  - vm_compute. reflexivity.
  - reflexivity.
  - vm_compute. reflexivity.
Defined.

Lemma product_missing_is_never_thrown_witness :
  price_request Scenario.platform (Scenario.env 1000) Cases.shop Cases.greedy_request
  <> Throw (Error "Product missing during sale creation.").
Proof.
  apply (product_missing_is_never_thrown Scenario.platform (Scenario.env 1000)).
  reflexivity.
Defined.

Lemma unknown_products_answer_404_witness :
  POST Scenario.platform (Scenario.env 1000) (inr Cases.unknown_body)
       Cases.shop Cases.shop
  = (error_response 404 "Products not found: P9, P8", Cases.shop).
Proof.
  apply (proj1 (unknown_products_answer_404
                  Scenario.platform (Scenario.env 1000) Cases.unknown_body
                  Cases.shop Cases.shop Cases.unknown_request
                  ltac:(vm_compute; reflexivity) eq_refl)).
  vm_compute. discriminate.
Defined.

Lemma sellable_request_commits_witness :
  exists (sale : Sale) (db' : DB),
    POST Scenario.platform (Scenario.env 1000) (inr Cases.soap_body) Cases.shop Cases.shop
    = ({| status := 201;
          body := SaleBody (formatSale (load_relations Cases.shop sale)) |}, db')
    /\ sales db' = (sales Cases.shop ++ [sale])%list.
Proof.
  apply (sellable_request_commits Scenario.platform (Scenario.env 1000) Cases.soap_body
           Cases.shop Cases.soap_request).
  - vm_compute. reflexivity.
  - constructor; [| constructor].
    exists "P1", {| product_name := "Soap"; product_sku := "S-1";
                    product_price := Scenario.num_of 999 100 |}, (Num.of_Z 5).
    repeat split; vm_compute; reflexivity.
  - vm_compute. reflexivity.
  - intros site. reflexivity.
  - constructor; [vm_compute; discriminate | constructor].
Defined.

Lemma stored_receipt_number_is_refused_witness :
  POST Scenario.platform (Scenario.env 1000) (inr Cases.taken_receipt_body)
       Cases.shop Cases.shop
  = (error_response 500 "Receipt number must be unique.", Cases.shop).
Proof.
  eapply (stored_receipt_number_is_refused Scenario.platform (Scenario.env 1000)
            Cases.taken_receipt_body Cases.shop Cases.taken_receipt_request).
  - vm_compute. reflexivity.
  - vm_compute. reflexivity.
  - vm_compute. reflexivity.
  - intros site. reflexivity.
  - change (receiptNumbers Cases.shop) with ["R-1"].
    change (resolve_receiptNumber Scenario.platform (Scenario.env 1000)
              (body_field Cases.taken_receipt_body "receiptNumber"))
      with (Scenario.trim_ascii "R-1").
    vm_compute. apply list_elem_of_here.
Defined.


(** ** Rounded percentages *)

Lemma ten_pow_pos (f : nat) : (0 < ten_pow f)%Q.
Proof.
  unfold ten_pow. change 0%Q with (inject_Z 0). rewrite <- Zlt_Qlt.
  apply Z.pow_pos_nonneg; lia.
Qed.

(** What [Number(x.toFixed(f))] is for a finite [x]: a number of the same
    sign, or zero, at most half a unit of the last digit away. *)
Lemma Number_toFixed_Fin (f : nat) (q : Q) :
  exists x,
    Number_toFixed f (Fin q) = Fin x
    /\ ((0 <= q)%Q -> (0 <= x)%Q)
    /\ ((q <= 0)%Q -> (x <= 0)%Q)
    /\ (Qabs.Qabs (x - q) <= (1 # 2) / ten_pow f)%Q.
Proof.
  pose proof (ten_pow_pos f) as Hten.
  assert (0 <= (1 # 2) / ten_pow f)%Q as Hhalf.
  { apply Qle_shift_div_l; [exact Hten |]. rewrite Qmult_0_l. done. }
  unfold Number_toFixed.
  destruct (Qle_bool (inject_Z (10 ^ 21)) (Qabs.Qabs q)).
  { exists q. repeat split; auto.
    assert (q - q == 0)%Q as -> by ring. exact Hhalf. }
  set (n := inject_Z (Qfloor (Qabs.Qabs q * ten_pow f + (1 # 2)))).
  pose proof (Qfloor_le (Qabs.Qabs q * ten_pow f + (1 # 2))) as Hle.
  pose proof (Qlt_floor (Qabs.Qabs q * ten_pow f + (1 # 2))) as Hlt.
  rewrite inject_Z_plus in Hlt. fold n in Hle, Hlt.
  change (inject_Z 1) with 1%Q in Hlt.
  assert (0 <= n)%Q as Hn.
  { unfold n. change 0%Q with (inject_Z 0). rewrite <- Zle_Qle.
    change 0%Z with (Qfloor 0). apply Qfloor_resp_le.
    pose proof (Qabs.Qabs_nonneg q) as Ha.
    assert (0 <= Qabs.Qabs q * ten_pow f)%Q
      by (apply Qmult_le_0_compat; [exact Ha | by apply Qlt_le_weak]).
    lra. }
  assert (Qabs.Qabs q - (1 # 2) / ten_pow f < n / ten_pow f)%Q as Hlow.
  { apply Qlt_shift_div_l; [exact Hten |].
    assert ((Qabs.Qabs q - (1 # 2) / ten_pow f) * ten_pow f == Qabs.Qabs q * ten_pow f - (1 # 2))%Q
      as -> by (field; lra).
    lra. }
  assert (n / ten_pow f <= Qabs.Qabs q + (1 # 2) / ten_pow f)%Q as Hhigh.
  { apply Qle_shift_div_r; [exact Hten |].
    assert ((Qabs.Qabs q + (1 # 2) / ten_pow f) * ten_pow f == Qabs.Qabs q * ten_pow f + (1 # 2))%Q
      as -> by (field; lra).
    lra. }
  assert (0 <= n / ten_pow f)%Q as Hquot.
  { apply Qle_shift_div_l; [exact Hten |]. rewrite Qmult_0_l. exact Hn. }
  destruct (Qle_bool 0 q) eqn:Hsign.
  - apply Qle_bool_iff in Hsign. rewrite (Qabs.Qabs_pos q Hsign) in Hlow, Hhigh.
    exists (n / ten_pow f)%Q. repeat split; auto.
    + intros Hq. assert (q == 0)%Q as Hzero by lra.
      rewrite Hzero in Hhigh, Hlow.
      assert (n < 1)%Q as Hn1.
      { rewrite Hzero in Hle. rewrite Qabs.Qabs_pos in Hle by lra. lra. }
      assert (n == 0)%Q as ->; [| by rewrite Qmult_0_l || (unfold Qdiv; rewrite Qmult_0_l; lra)].
      unfold n in *. set (z := Qfloor _) in *.
      change 1%Q with (inject_Z 1) in Hn1. change 0%Q with (inject_Z 0) in Hn.
      rewrite <- Zlt_Qlt in Hn1. rewrite <- Zle_Qle in Hn.
      assert (z = 0%Z) as -> by lia. reflexivity.
    + apply Qabs.Qabs_Qle_condition. lra.
  - assert (q < 0)%Q as Hneg.
    { apply Qnot_le_lt. intros H. apply Qle_bool_iff in H. congruence. }
    rewrite (Qabs.Qabs_neg q) in Hlow, Hhigh by lra.
    exists (- (n / ten_pow f))%Q. repeat split; auto.
    + intros Hq. lra.
    + intros _. lra.
    + apply Qabs.Qabs_Qle_condition. lra.
Qed.

(** ** Week-over-week changes *)

Lemma change_percentage_finite (current previous : Q) :
  ~ (previous == 0)%Q ->
  exists x,
    mc_percentage (buildChangeSummary (Fin current) (Fin previous)) = Some (Fin x)
    /\ ((previous <= current)%Q -> (0 <= x)%Q)
    /\ ((current <= previous)%Q -> (x <= 0)%Q)
    /\ (Qabs.Qabs (x - (current - previous) / Qabs.Qabs previous * 100) <= 1 # 20)%Q.
Proof.
  intros Hp. unfold buildChangeSummary. cbn [mc_percentage Num.eqb Num.zero Num.sub
                                              Math_abs].
  assert (Qeq_bool previous 0 = false) as ->.
  { destruct (Qeq_bool previous 0) eqn:E; [| reflexivity].
    apply Qeq_bool_iff in E. contradiction. }
  assert (0 < Qabs.Qabs previous)%Q as Habs.
  { destruct (Qlt_le_dec previous 0) as [Hn | Hn].
    - rewrite Qabs.Qabs_neg by lra. lra.
    - rewrite Qabs.Qabs_pos by lra.
      apply Qle_lteq in Hn as [Hn | Hn]; [exact Hn |].
      exfalso. apply Hp. by symmetry. }
  unfold Num.div. assert (Qeq_bool (Qabs.Qabs previous) 0 = false) as ->.
  { destruct (Qeq_bool (Qabs.Qabs previous) 0) eqn:E; [| reflexivity].
    apply Qeq_bool_iff in E. lra. }
  cbn [Num.mul Num.of_Z].
  set (e := ((current - previous) / Qabs.Qabs previous * inject_Z 100)%Q).
  destruct (Number_toFixed_Fin 1 e) as (x & -> & Hpos & Hneg & Hbound).
  exists x. split; [reflexivity |].
  assert (forall d, (0 <= d)%Q -> (0 <= d / Qabs.Qabs previous * inject_Z 100)%Q) as Hsign.
  { intros d Hd. apply Qmult_le_0_compat; [| done].
    apply Qle_shift_div_l; [exact Habs |]. by rewrite Qmult_0_l. }
  repeat split.
  - intros Hle. apply Hpos. apply Hsign. lra.
  - intros Hle. apply Hneg.
    assert (e == - ((previous - current) / Qabs.Qabs previous * inject_Z 100))%Q as ->
        by (unfold e; field; lra).
    pose proof (Hsign (previous - current)%Q). lra.
  - exact Hbound.
Qed.

(** X11. For finite values [buildChangeSummary] returns the difference as
    delta.  With a previous value of 0 the percentage is 0 when the current
    value is 0 too and null otherwise (no division by zero).  With any other
    previous value the percentage is a number that never has the sign
    opposite to the delta and that differs from 100 * delta / |previous| by
    0.05 at most. *)
Theorem change_summary_of_finite_values (current previous : Q) :
  let summary := buildChangeSummary (Fin current) (Fin previous) in
  mc_delta summary = Fin (current - previous)
  /\ ((previous == 0)%Q -> (current == 0)%Q -> mc_percentage summary = Some Num.zero)
  /\ ((previous == 0)%Q -> ~ (current == 0)%Q -> mc_percentage summary = None)
  /\ (~ (previous == 0)%Q ->
      exists x,
        mc_percentage summary = Some (Fin x)
        /\ ((previous <= current)%Q -> (0 <= x)%Q)
        /\ ((current <= previous)%Q -> (x <= 0)%Q)
        /\ (Qabs.Qabs (x - (current - previous) / Qabs.Qabs previous * 100) <= 1 # 20)%Q).
Proof.
  cbn zeta. split; [reflexivity |]. split; [| split].
  - intros Hp Hc. unfold buildChangeSummary. cbn.
    apply Qeq_bool_iff in Hp, Hc. by rewrite Hp, Hc.
  - intros Hp Hc. unfold buildChangeSummary. cbn.
    apply Qeq_bool_iff in Hp. rewrite Hp.
    destruct (Qeq_bool current 0) eqn:E; [| reflexivity].
    apply Qeq_bool_iff in E. contradiction.
  - apply change_percentage_finite.
Qed.

Lemma Num_ge_zero_Fin (d : Q) : Num_ge (Fin d) Num.zero = Qle_bool 0 d.
Proof.
  unfold Num_ge, Num.le, Num.lt, Num.eqb, Num.zero.
  destruct (Qle_bool 0 d) eqn:E.
  - apply Qle_bool_iff in E.
    destruct (Qle_bool d 0) eqn:E'; cbn; [| reflexivity].
    apply Qle_bool_iff in E'. apply Qeq_bool_iff. lra.
  - assert (d < 0)%Q as Hneg.
    { apply Qnot_le_lt. intros H. apply Qle_bool_iff in H. congruence. }
    assert (Qle_bool d 0 = true) as -> by (apply Qle_bool_iff; lra). cbn.
    destruct (Qeq_bool 0 d) eqn:E'; [| reflexivity].
    apply Qeq_bool_iff in E'. lra.
Qed.

(** X12. What the sales page shows for a change computed from two finite
    values: the label is positive exactly when the current value is not
    below the previous one, and its text is the sign (plus for positive,
    minus for negative), a magnitude that is never negative, and the
    descriptor.  The magnitude is the rounded percentage, within 0.05 of
    100 * |delta| / |previous|, unless the previous value is 0 and the
    current one is not; then it is the absolute delta, handed to the
    formatter of the caller or else to the locale formatting.  Without a
    change the text is the fallback (No prior data unless the caller gives
    another) and the label is positive. *)
Theorem described_change_of_finite_values
        (D : Display) (options : DescribeChangeOptions) (current previous : Q) :
  let shown := describeChange D (Some (buildChangeSummary (Fin current) (Fin previous)))
                              options in
  let sign := if Qle_bool previous current then "+" else "-" in
  (cd_type shown = positive <-> (previous <= current)%Q)
  /\ (~ (previous == 0)%Q ->
      exists m,
        (0 <= m)%Q
        /\ (Qabs.Qabs (m - Qabs.Qabs (current - previous) / Qabs.Qabs previous * 100)
            <= 1 # 20)%Q
        /\ cd_text shown
           = sign ++ toFixed_string D 1 (Fin m) ++ "% " ++ descriptor options)
  /\ ((previous == 0)%Q -> (current == 0)%Q ->
      cd_text shown
      = "+" ++ toFixed_string D 1 (Fin (Qabs.Qabs 0)) ++ "% " ++ descriptor options)
  /\ ((previous == 0)%Q -> ~ (current == 0)%Q ->
      cd_text shown
      = sign ++ match formatter options with
                | Some format => format (Fin (Qabs.Qabs (current - previous)))
                | None => toLocaleString D (Fin (Qabs.Qabs (current - previous)))
                end ++ " " ++ descriptor options)
  /\ describeChange D None options
     = {| cd_text := default "No prior data" (fallbackText options);
          cd_type := positive |}.
Proof.
  cbn zeta.
  assert (Qle_bool 0 (current - previous) = Qle_bool previous current) as Hsign.
  { destruct (Qle_bool previous current) eqn:E.
    - apply Qle_bool_iff in E. apply Qle_bool_iff. lra.
    - destruct (Qle_bool 0 (current - previous)) eqn:E'; [| reflexivity].
      apply Qle_bool_iff in E'.
      assert (Qle_bool previous current = true) by (apply Qle_bool_iff; lra).
      congruence. }
  assert (forall summary,
             mc_delta summary = Fin (current - previous) ->
             Num_ge (mc_delta summary) Num.zero = Qle_bool previous current) as Hge.
  { intros summary ->. by rewrite Num_ge_zero_Fin. }
  pose proof (change_summary_of_finite_values current previous)
    as (Hdelta & Hzero & Hnull & Hpct).
  cbn zeta in Hdelta, Hzero, Hnull, Hpct.
  set (summary := buildChangeSummary (Fin current) (Fin previous)) in *.
  unfold describeChange. rewrite (Hge summary Hdelta).
  split; [| split; [| split; [| split; [| reflexivity]]]].
  - destruct (mc_percentage summary); cbn;
      destruct (Qle_bool previous current) eqn:E; cbn; split;
      try (intros _; by apply Qle_bool_iff); try discriminate;
      intros H; apply Qle_bool_iff in H; congruence.
  - intros Hp. destruct (Hpct Hp) as (x & -> & Hpos & Hneg & Hbound).
    exists (Qabs.Qabs x). split; [apply Qabs.Qabs_nonneg |]. split; [| reflexivity].
    destruct (Qlt_le_dec current previous) as [Hlt | Hle].
    + assert (x <= 0)%Q as Hx by (apply Hneg; lra).
      rewrite (Qabs.Qabs_neg x Hx), (Qabs.Qabs_neg (current - previous)) by lra.
      apply Qabs.Qabs_Qle_condition in Hbound as [Hb1 Hb2].
      apply Qabs.Qabs_Qle_condition.
      assert (- (current - previous) / Qabs.Qabs previous * 100
              == - ((current - previous) / Qabs.Qabs previous * 100))%Q as ->
          by (field; destruct (Qlt_le_dec previous 0);
              [rewrite Qabs.Qabs_neg by lra | rewrite Qabs.Qabs_pos by lra]; lra).
      lra.
    + assert (0 <= x)%Q as Hx by (apply Hpos; lra).
      rewrite (Qabs.Qabs_pos x Hx), (Qabs.Qabs_pos (current - previous)) by lra.
      exact Hbound.
  - intros Hp Hc. rewrite (Hzero Hp Hc).
    assert (Qle_bool previous current = true) as -> by (apply Qle_bool_iff; lra).
    reflexivity.
  - intros Hp Hc. rewrite (Hnull Hp Hc), Hdelta. reflexivity.
Qed.

(** ** Summary of the sales listing *)

Lemma revenueByDate_fold (C : Calendar) (key : string) (sales : list FormattedSale) :
  forall m : gmap string num,
    default Num.zero
            (foldl (fun m sale =>
                      <[iso_date C (fs_createdAt sale)
                        := Num.add (default Num.zero (m !! iso_date C (fs_createdAt sale)))
                                   (fs_totalAmount sale)]> m) m sales !! key)
    = foldl Num.add (default Num.zero (m !! key))
            (map fs_totalAmount
                 (filter (fun sale => iso_date C (fs_createdAt sale) = key) sales)).
Proof.
  induction sales as [| sale rest IH]; intros m; [reflexivity |].
  simpl. rewrite IH, filter_cons.
  destruct (decide (iso_date C (fs_createdAt sale) = key)) as [-> | Hne].
  - by rewrite lookup_insert_eq.
  - by rewrite lookup_insert_ne.
Qed.

(** X13. The revenue overview always has seven entries, one per day from
    six days before today to today, labelled with the weekday.  The revenue
    of a day is the sum, rounded to two decimals, of the totals of exactly
    the sales whose date key is the key of that day; a sale of another day
    than the seven counts nowhere, and without sales every revenue is 0. *)
Theorem revenue_overview_by_day (C : Calendar) (today : Z) (sales : list FormattedSale) :
  length (buildRevenueOverview C today sales) = 7%nat
  /\ (forall index, (index < 7)%nat ->
        let date := days_before C today (6 - index) in
        buildRevenueOverview C today sales !! index
        = Some (weekday_short C date,
                Number_toFixed 2 (revenue_of_day C (iso_date C date) sales)))
  /\ (forall extra,
        (forall index, (index < 7)%nat ->
                       iso_date C (fs_createdAt extra)
                       <> iso_date C (days_before C today (6 - index))) ->
        forall before after,
          sales = (before ++ extra :: after)%list ->
          buildRevenueOverview C today sales
          = buildRevenueOverview C today (before ++ after)%list)
  /\ Forall (fun entry => Num.eq entry.2 Num.zero) (buildRevenueOverview C today []).
Proof.
  assert (forall sales' index, (index < 7)%nat ->
             buildRevenueOverview C today sales' !! index
             = Some (weekday_short C (days_before C today (6 - index)),
                     Number_toFixed 2
                       (revenue_of_day C (iso_date C (days_before C today (6 - index)))
                                       sales'))) as Hentry.
  { intros sales' index Hindex. unfold buildRevenueOverview, lastSevenDays.
    rewrite !list_lookup_fmap.
    assert (seq 0 7 !! index = Some index) as ->
        by (rewrite lookup_seq; split; [reflexivity | exact Hindex]).
    cbn. unfold revenueByDate, revenue_of_day.
    by rewrite (revenueByDate_fold C _ sales' ∅). }
  split; [reflexivity |]. split; [exact (Hentry sales) |]. split.
  - intros extra Hother before after ->.
    apply list_eq. intros index.
    destruct (decide (index < 7)%nat) as [Hlt | Hge].
    + rewrite !Hentry by exact Hlt. do 3 f_equal. unfold revenue_of_day.
      rewrite !filter_app, filter_cons.
      destruct (decide _) as [Heq | _]; [| reflexivity].
      by apply Hother in Heq.
    + rewrite !lookup_ge_None_2; [reflexivity | |];
        (change (length (buildRevenueOverview C today _)) with 7%nat; lia).
  - unfold buildRevenueOverview, lastSevenDays. cbn [map seq].
    repeat constructor.
Qed.





(** ** Pages of the transactions table *)

Lemma totalPages_div {A : Type} (l : list A) :
  SalesPage.totalPages l = ((Z.of_nat (length l) + 5) / 6)%Z.
Proof.
  unfold SalesPage.totalPages, SalesPage.TRANSACTIONS_PER_PAGE.
  destruct (length l) as [| n] eqn:Hlen; [reflexivity |].
  change (S n =? 0)%nat with false. cbv iota.
  set (len := Z.of_nat (S n)).
  unfold Qceiling, Qfloor, Qdiv, Qmult, Qopp, Qinv, inject_Z. cbn [Qnum Qden].
  change (Z.pos (1 * 6)) with 6%Z.
  pose proof (Z.div_mod (- (len * 1)) 6 ltac:(lia)) as H1.
  pose proof (Z.mod_pos_bound (- (len * 1)) 6 ltac:(lia)) as H2.
  apply (Z.div_unique _ _ _ (len + 5 + 6 * ((- (len * 1)) / 6))%Z); lia.
Qed.

Lemma paginatedTransactions_take_drop {A : Type} (l : list A) (page : nat) :
  SalesPage.paginatedTransactions l (Z.of_nat (S page)) = take 6 (drop (6 * page) l).
Proof.
  unfold SalesPage.paginatedTransactions, SalesPage.TRANSACTIONS_PER_PAGE.
  destruct l as [| x l']; [by rewrite drop_nil |].
  set (l := x :: l'). change (length l =? 0)%nat with false. cbv iota.
  unfold slice.
  assert (0 <= (Z.of_nat (S page) - 1) * 6)%Z as Hstart by lia.
  destruct (Z.ltb_spec ((Z.of_nat (S page) - 1) * 6) 0) as [? | _]; [lia |].
  destruct (Z.ltb_spec ((Z.of_nat (S page) - 1) * 6 + 6) 0) as [? | _]; [lia |].
  destruct (decide (6 * page <= length l)%nat) as [Hin | Hout].
  - replace (Z.to_nat (Z.min ((Z.of_nat (S page) - 1) * 6) (Z.of_nat (length l))))
      with (6 * page)%nat by lia.
    apply list_eq. intros i.
    rewrite !lookup_take, !lookup_drop.
    repeat case_decide; try reflexivity; try lia.
    symmetry. apply lookup_ge_None_2. lia.
  - rewrite (drop_ge l (6 * page)) by lia. rewrite take_nil.
    replace (Z.to_nat _) with 0%nat by lia. reflexivity.
Qed.

Lemma pages_concat {A : Type} (l : list A) (pages : nat) :
  concat (map (fun page => SalesPage.paginatedTransactions l (Z.of_nat page))
              (seq 1 pages))
  = take (6 * pages) l.
Proof.
  induction pages as [| pages IH]; [reflexivity |].
  rewrite seq_S, map_app, concat_app, IH. cbn [map concat].
  rewrite app_nil_r.
  change (1 + pages)%nat with (S pages).
  rewrite paginatedTransactions_take_drop, take_take_drop.
  f_equal. lia.
Qed.

(** X15. The pages of the transactions table partition the list: the pages
    1 .. totalPages, one after the other, are the whole list in its order;
    there is no page exactly when there is no transaction; every page from
    1 to totalPages holds between one and six transactions, those at the
    positions showingFrom .. showingTo of the list, and showingTo never
    exceeds the number of transactions. *)
Theorem pages_partition_the_transactions {A : Type} (filteredTransactions : list A) :
  let pages := SalesPage.totalPages filteredTransactions in
  (pages = 0%Z <-> filteredTransactions = [])
  /\ concat (map (fun page =>
                    SalesPage.paginatedTransactions filteredTransactions (Z.of_nat page))
                 (seq 1 (Z.to_nat pages)))
     = filteredTransactions
  /\ forall currentPage,
      (1 <= currentPage <= pages)%Z ->
      let page := SalesPage.paginatedTransactions filteredTransactions currentPage in
      let from := SalesPage.showingFrom filteredTransactions currentPage in
      let to := SalesPage.showingTo filteredTransactions currentPage in
      (1 <= length page <= 6)%nat
      /\ (Z.of_nat (length page) = to - from + 1)%Z
      /\ (to <= Z.of_nat (length filteredTransactions))%Z
      /\ forall position,
          (position < length page)%nat ->
          page !! position = filteredTransactions !! (Z.to_nat (from - 1) + position)%nat.
Proof.
  intros pages. unfold pages. rewrite totalPages_div.
  set (len := length filteredTransactions).
  pose proof (Z.div_mod (Z.of_nat len + 5) 6 ltac:(lia)) as Hdiv.
  pose proof (Z.mod_pos_bound (Z.of_nat len + 5) 6 ltac:(lia)) as Hmod.
  split; [| split].
  - split.
    + intros Hzero. apply nil_length_inv. fold len. lia.
    + intros ->. reflexivity.
  - rewrite pages_concat. apply take_ge. fold len. lia.
  - intros currentPage [Hlow Hhigh].
    assert (exists k : nat, currentPage = Z.of_nat (S k)) as [k ->]
        by (exists (Z.to_nat (currentPage - 1)); lia).
    assert (len <> 0)%nat as Hlen by lia.
    unfold SalesPage.showingFrom, SalesPage.showingTo,
      SalesPage.TRANSACTIONS_PER_PAGE.
    rewrite paginatedTransactions_take_drop.
    fold len. destruct (Nat.eqb_spec len 0) as [? | _]; [lia |].
    rewrite length_take, length_drop. fold len.
    repeat split; try lia.
    intros position Hposition.
    rewrite lookup_take_lt, lookup_drop by lia. f_equal. lia.
Qed.

Lemma elem_of_window (first count page : Z) :
  page ∈ map (fun index => (first + Z.of_nat index)%Z) (seq 0 (Z.to_nat count))
  <-> (first <= page < first + count)%Z.
Proof.
  change (map ?f ?l) with (f <$> l). rewrite list_elem_of_fmap. split.
  - intros (index & -> & Hindex). apply elem_of_seq in Hindex. lia.
  - intros Hpage. exists (Z.to_nat (page - first)). split; [lia |].
    apply elem_of_seq. lia.
Qed.

Lemma paginationNumbers_window (totalPages currentPage : Z) :
  (1 <= currentPage <= totalPages)%Z ->
  SalesPage.paginationNumbers totalPages currentPage
  = map (fun index => (Z.max 1 (Z.min (currentPage - 2) (totalPages - 4))
                       + Z.of_nat index)%Z)
        (seq 0 (Z.to_nat (Z.min totalPages 5))).
Proof.
  intros Hrange. unfold SalesPage.paginationNumbers, Array_from.
  destruct (Z.leb_spec totalPages 1) as [Hone | Hmore].
  - replace totalPages with 1%Z by lia. replace currentPage with 1%Z by lia.
    reflexivity.
  - destruct (Z.leb_spec totalPages 5) as [Hfew | Hmany].
    + replace (Z.min totalPages 5) with totalPages by lia.
      apply map_ext. intros index. lia.
    + change (Qfloor (inject_Z 5 / 2)) with 2%Z.
      destruct (Z.ltb_spec (currentPage - 2) 1) as [Hleft | Hleft];
        cbv beta iota zeta.
      * destruct (Z.ltb_spec totalPages 5) as [? | _]; [lia |].
        replace (Z.min totalPages 5) with (5 - 1 + 1)%Z by lia.
        apply map_ext. intros index. lia.
      * destruct (Z.ltb_spec totalPages (currentPage + 2)) as [Hright | Hright].
        -- replace (Z.min totalPages 5)
             with (totalPages - (totalPages - 5 + 1) + 1)%Z by lia.
           apply map_ext. intros index. lia.
        -- replace (Z.min totalPages 5)
             with (currentPage + 2 - (currentPage - 2) + 1)%Z by lia.
           apply map_ext. intros index. lia.
Qed.

(** X16. On a page between 1 and totalPages, the page-number buttons are
    the consecutive numbers first, first + 1, ... : min(totalPages, 5) of
    them, where first is currentPage - 2 moved into the range from 1 to
    totalPages - 4 (and 1 when there are at most five pages).  Hence every
    number shown is a page from 1 to totalPages, the current page is always
    among them, and away from both ends the current page is the middle
    one. *)
Theorem page_numbers_are_a_window_on_the_current_page (totalPages currentPage : Z) :
  (1 <= currentPage <= totalPages)%Z ->
  let numbers := SalesPage.paginationNumbers totalPages currentPage in
  let first := Z.max 1 (Z.min (currentPage - 2) (totalPages - 4)) in
  numbers = map (fun index => (first + Z.of_nat index)%Z)
                (seq 0 (Z.to_nat (Z.min totalPages 5)))
  /\ Forall (fun page => (1 <= page <= totalPages)%Z) numbers
  /\ currentPage ∈ numbers
  /\ ((3 <= currentPage <= totalPages - 2)%Z -> numbers !! 2%nat = Some currentPage).
Proof.
  intros Hrange numbers first.
  assert (numbers = map (fun index => (first + Z.of_nat index)%Z)
                        (seq 0 (Z.to_nat (Z.min totalPages 5)))) as Hnumbers
      by exact (paginationNumbers_window totalPages currentPage Hrange).
  split; [exact Hnumbers |]. rewrite Hnumbers. split; [| split].
  - apply Forall_forall. intros page Hpage.
    apply elem_of_window in Hpage. lia.
  - apply elem_of_window. lia.
  - intros Hmiddle. rewrite list_lookup_fmap.
    assert (seq 0 (Z.to_nat (Z.min totalPages 5)) !! 2%nat = Some 2%nat) as ->
        by (rewrite lookup_seq; lia).
    cbn. f_equal. lia.
Qed.

Lemma page_numbers_are_a_window_on_the_current_page_witness :
  SalesPage.paginationNumbers 9 9 = [5; 6; 7; 8; 9]%Z
  /\ SalesPage.paginationNumbers 9 4 = [2; 3; 4; 5; 6]%Z.
Proof.
  split.
  - exact (proj1 (page_numbers_are_a_window_on_the_current_page 9 9 ltac:(lia))).
  - exact (proj1 (page_numbers_are_a_window_on_the_current_page 9 4 ltac:(lia))).
Defined.

(** X17. Navigation never leaves the pages: from a page between 1 and
    totalPages, a click on Previous, on Next or on any page number that is
    shown leads to a page between 1 and totalPages; Previous on page 1 and
    Next on the last page stay where they are.  When the list changes and
    leaves at least one page, the effect that follows brings any page from 1
    upwards back to a page between 1 and the new totalPages. *)
Theorem navigation_stays_on_a_page (totalPages currentPage : Z) :
  (1 <= currentPage <= totalPages)%Z ->
  (forall button,
      SalesPage.rendered totalPages currentPage button ->
      (1 <= SalesPage.click totalPages button currentPage <= totalPages)%Z)
  /\ SalesPage.click totalPages SalesPage.Previous 1 = 1%Z
  /\ SalesPage.click totalPages SalesPage.Next totalPages = totalPages
  /\ forall newTotalPages,
      (1 <= newTotalPages)%Z ->
      (1 <= SalesPage.clamp_effect newTotalPages currentPage <= newTotalPages)%Z
      /\ ((currentPage <= newTotalPages)%Z ->
          SalesPage.clamp_effect newTotalPages currentPage = currentPage).
Proof.
  intros Hrange. split; [| split; [| split]].
  - intros [| page |] Hrendered; cbn in *; try lia.
    rewrite (paginationNumbers_window totalPages currentPage Hrange) in Hrendered.
    apply elem_of_window in Hrendered. lia.
  - reflexivity.
  - cbn. lia.
  - intros newTotalPages Hnew. unfold SalesPage.clamp_effect.
    destruct (Z.ltb_spec 0 newTotalPages); [| lia].
    destruct (Z.ltb_spec newTotalPages currentPage); cbn; lia.
Qed.

Lemma navigation_stays_on_a_page_witness :
  (1 <= SalesPage.click 9 (SalesPage.PageNumber 6) 4 <= 9)%Z.
Proof.
  apply (proj1 (navigation_stays_on_a_page 9 4 ltac:(lia)) (SalesPage.PageNumber 6)).
  cbn. unfold SalesPage.paginationNumbers. vm_compute. set_solver.
Defined.

(** ** The activity feed of the dashboard *)

Lemma sort_insert_perm {A : Type} (compare : A -> A -> Z) (x : A) (l : list A) :
  sort_insert compare x l ≡ₚ x :: l.
Proof.
  induction l as [| y rest IH]; [reflexivity |].
  cbn. destruct (0 <? compare x y)%Z; [| reflexivity].
  rewrite IH. apply Permutation_swap.
Qed.

Lemma Array_sort_perm {A : Type} (compare : A -> A -> Z) (l : list A) :
  Array_sort compare l ≡ₚ l.
Proof.
  induction l as [| x rest IH]; [reflexivity |].
  cbn. rewrite sort_insert_perm. by f_equiv.
Qed.

Lemma sort_insert_descending {A : Type} (key : A -> Z) (x : A) (l : list A) :
  StronglySorted (fun a b => (key b <= key a)%Z) l ->
  StronglySorted (fun a b => (key b <= key a)%Z)
                 (sort_insert (fun a b => (key b - key a)%Z) x l).
Proof.
  induction 1 as [| y rest Hrest IH Hy]; cbn.
  - repeat constructor.
  - destruct (Z.ltb_spec 0 (key y - key x)) as [Hlt | Hge].
    + constructor; [exact IH |].
      apply Forall_forall. intros z Hz.
      apply (elem_of_Permutation_proper _ _ _ (sort_insert_perm _ x rest)) in Hz.
      apply elem_of_cons in Hz as [-> | Hz]; [lia |].
      rewrite Forall_forall in Hy. exact (Hy z Hz).
    + constructor; [by constructor |].
      constructor; [lia |].
      eapply Forall_impl; [exact Hy |]. cbn. intros z Hz. lia.
Qed.

Lemma Array_sort_descending {A : Type} (key : A -> Z) (l : list A) :
  StronglySorted (fun a b => (key b <= key a)%Z)
                 (Array_sort (fun a b => (key b - key a)%Z) l).
Proof.
  induction l as [| x rest IH]; [constructor |].
  cbn. by apply sort_insert_descending.
Qed.

Lemma sort_insert_stable {A : Type} (key : A -> Z) (t : Z) (x : A) (l : list A) :
  filter (fun a => key a = t) (sort_insert (fun a b => (key b - key a)%Z) x l)
  = filter (fun a => key a = t) (x :: l).
Proof.
  induction l as [| y rest IH]; [reflexivity |].
  cbn [sort_insert]. destruct (Z.ltb_spec 0 (key y - key x)) as [Hlt | Hge];
    [| reflexivity].
  rewrite filter_cons, IH, !filter_cons.
  repeat case_decide; try reflexivity; lia.
Qed.

Lemma Array_sort_stable {A : Type} (key : A -> Z) (t : Z) (l : list A) :
  filter (fun a => key a = t) (Array_sort (fun a b => (key b - key a)%Z) l)
  = filter (fun a => key a = t) l.
Proof.
  induction l as [| x rest IH]; [reflexivity |].
  cbn [Array_sort foldr]. rewrite sort_insert_stable, !filter_cons.
  fold (Array_sort (fun a b => (key b - key a)%Z) rest). by rewrite IH.
Qed.

Lemma slice_from_start {A : Type} (l : list A) (count : Z) :
  (0 <= count)%Z -> slice l 0 count = take (Z.to_nat count) l.
Proof.
  intros Hcount. unfold slice.
  destruct (Z.ltb_spec count 0) as [? | _]; [lia |].
  change (0 <? 0)%Z with false. cbv iota.
  rewrite (Z.min_l 0) by lia. change (Z.to_nat 0) with 0%nat.
  rewrite drop_0, Z.sub_0_r.
  destruct (Z.le_ge_cases count (Z.of_nat (length l))) as [Hle | Hge].
  - by rewrite Z.min_l.
  - rewrite Z.min_r by lia. rewrite !take_ge; [reflexivity | lia | lia].
Qed.

Lemma StronglySorted_lookup {A : Type} (R : A -> A -> Prop) (l : list A) :
  StronglySorted R l ->
  forall i j a b, (i < j)%nat -> l !! i = Some a -> l !! j = Some b -> R a b.
Proof.
  induction 1 as [| x rest Hrest IH Hx]; intros i j a b Hij Hi Hj;
    [by rewrite lookup_nil in Hi |].
  destruct j as [| j]; [lia |]. cbn in Hj.
  destruct i as [| i].
  - cbn in Hi. injection Hi as <-.
    rewrite Forall_forall in Hx. apply Hx. by eapply list_elem_of_lookup_2.
  - cbn in Hi. apply (IH i j); [lia | exact Hi | exact Hj].
Qed.

(** X18. The activity feed shows the newest activities, newest first: it
    has min(6, sales + products) entries and is the head of a list, newest
    first by the instant of the timestamp, that holds every sale and every
    product activity exactly once; so nothing left out is newer than
    anything shown.  Activities of the same instant keep the order of the
    input, sales before products. *)
Theorem recent_activity_is_the_newest_six
  (toISOString : Z -> string) (Date_getTime : string -> Z)
  (sales : list Dashboard.RecentSale) (products : list Dashboard.ProductRecord) :
  let instant := fun a => Date_getTime (Dashboard.act_timestamp a) in
  let all := (map (Dashboard.saleActivity toISOString) sales
              ++ map (Dashboard.productActivity toISOString) products)%list in
  let shown := Dashboard.buildRecentActivity toISOString Date_getTime sales products in
  length shown = Nat.min 6 (length sales + length products)
  /\ exists left_out,
      (shown ++ left_out)%list ≡ₚ all
      /\ (forall i j a b,
             (i < j)%nat ->
             (shown ++ left_out)%list !! i = Some a ->
             (shown ++ left_out)%list !! j = Some b ->
             (instant b <= instant a)%Z)
      /\ (forall a b, a ∈ shown -> b ∈ left_out -> (instant b <= instant a)%Z)
      /\ forall t,
          filter (fun a => instant a = t) (shown ++ left_out)%list
          = filter (fun a => instant a = t) all.
Proof.
  intros instant all shown.
  set (sorted := Array_sort (Dashboard.newest_first Date_getTime) all).
  assert (shown = take 6 sorted) as Hshown
      by (apply (slice_from_start sorted 6); lia).
  assert (sorted ≡ₚ all) as Hperm by apply Array_sort_perm.
  assert (StronglySorted (fun a b => (instant b <= instant a)%Z) sorted) as Hsorted
      by apply (Array_sort_descending instant).
  split.
  - rewrite Hshown, length_take, (Permutation_length Hperm).
    unfold all. rewrite length_app, !length_map. reflexivity.
  - exists (drop 6 sorted). rewrite Hshown, take_drop.
    split; [exact Hperm |]. split; [| split].
    + exact (StronglySorted_lookup _ sorted Hsorted).
    + intros a b Ha Hb.
      apply list_elem_of_lookup in Ha as [i Hi], Hb as [j Hj].
      pose proof (lookup_lt_Some _ _ _ Hi) as Hlt. rewrite length_take in Hlt.
      rewrite lookup_take_lt in Hi by lia. rewrite lookup_drop in Hj.
      apply (StronglySorted_lookup _ sorted Hsorted i (6 + j)); [lia | exact Hi | exact Hj].
    + intros t. apply (Array_sort_stable instant).
Qed.

(** ** Quick statistics of the dashboard *)

(** X19. For any counts of sales and products the conversion rate is a
    finite number between 0 and 100: it is 100 * totalSales / totalProducts
    while there are no more sales than products, 100 when there are more
    sales than products (also without any product), and 0 without sales. *)
Theorem conversion_rate_is_a_percentage (totalSales totalProducts : nat) :
  exists rate : Q,
    Dashboard.conversionRate (Z.of_nat totalSales) (Z.of_nat totalProducts) = Fin rate
    /\ (0 <= rate <= 100)%Q
    /\ ((0 < totalProducts)%nat -> (totalSales <= totalProducts)%nat ->
        (rate == 100 * inject_Z (Z.of_nat totalSales)
                 / inject_Z (Z.of_nat totalProducts))%Q)
    /\ ((totalProducts < totalSales)%nat -> (rate == 100)%Q)
    /\ (totalSales = 0%nat -> (rate == 0)%Q).
Proof.
  unfold Dashboard.conversionRate.
  destruct (Z.ltb_spec 0 (Z.of_nat totalProducts)) as [Hproducts | Hnone].
  - set (s := inject_Z (Z.of_nat totalSales)).
    set (p := inject_Z (Z.of_nat totalProducts)).
    assert (0 <= s)%Q as Hs
        by (unfold s; change 0%Q with (inject_Z 0); rewrite <- Zle_Qle; lia).
    assert (0 < p)%Q as Hp
        by (unfold p; change 0%Q with (inject_Z 0); rewrite <- Zlt_Qlt; lia).
    assert (Num.div (Num.of_Z (Z.of_nat totalSales)) (Num.of_Z (Z.of_nat totalProducts))
            = Fin (s / p)) as ->.
    { unfold Num.div, Num.of_Z. fold s p.
      destruct (Qeq_bool p 0) eqn:Hzero; [| reflexivity].
      apply Qeq_bool_iff in Hzero. lra. }
    assert (0 <= s / p)%Q as Hratio.
    { apply Qle_shift_div_l; [exact Hp | lra]. }
    assert ((totalSales <= totalProducts)%nat -> s / p * 100 <= 100)%Q as Hbelow.
    { intros Hle. assert (s <= p)%Q by (unfold s, p; rewrite <- Zle_Qle; lia).
      assert (s / p <= 1)%Q by (apply Qle_shift_div_r; [exact Hp | lra]). lra. }
    assert ((totalProducts < totalSales)%nat -> 100 < s / p * 100)%Q as Habove.
    { intros Hlt. assert (p < s)%Q by (unfold s, p; rewrite <- Zlt_Qlt; lia).
      assert (1 < s / p)%Q by (apply Qlt_shift_div_l; [exact Hp | lra]). lra. }
    unfold Math_min, Num.mul, Num.of_Z, Num.isNaN, Num.lt. cbn [orb].
    change (inject_Z 100) with 100%Q.
    destruct (Qle_bool 100 (s / p * 100)) eqn:Hcap; cbn [negb].
    + apply Qle_bool_iff in Hcap.
      exists 100%Q. split; [reflexivity |]. split; [lra |]. split; [| split].
      * intros _ Hle. specialize (Hbelow Hle).
        assert (100 * s / p == s / p * 100)%Q as Heq by (field; lra).
        lra.
      * intros _. reflexivity.
      * intros Hnone. exfalso.
        assert (s == 0)%Q as Hzero by (unfold s; rewrite Hnone; reflexivity).
        assert (s / p * 100 == 0)%Q as Hrate by (rewrite Hzero; field; lra).
        lra.
    + assert (~ (100 <= s / p * 100)%Q) as Hnot
          by (intros Hle; apply Qle_bool_iff in Hle; congruence).
      exists (s / p * 100)%Q. split; [reflexivity |]. split; [lra |]. split; [| split].
      * intros _ _. field. lra.
      * intros Hlt. specialize (Habove Hlt). lra.
      * intros Hnone.
        assert (s == 0)%Q as Hzero by (unfold s; rewrite Hnone; reflexivity).
        rewrite Hzero. field. lra.
  - destruct (Z.ltb_spec 0 (Z.of_nat totalSales)) as [Hsales | Hnosales].
    + exists 100%Q. split; [reflexivity |]. split; [lra |].
      split; [lia |]. split; [reflexivity | lia].
    + exists 0%Q. split; [reflexivity |]. split; [lra |].
      split; [lia |]. split; [lia | reflexivity].
Qed.

Lemma change_summary_finite_parts (current previous : Q) :
  mc_delta (buildChangeSummary (Fin current) (Fin previous)) = Fin (current - previous)
  /\ ((previous == 0)%Q -> (current == 0)%Q ->
      mc_percentage (buildChangeSummary (Fin current) (Fin previous)) = Some Num.zero)
  /\ ((previous == 0)%Q -> ~ (current == 0)%Q ->
      mc_percentage (buildChangeSummary (Fin current) (Fin previous)) = None)
  /\ (~ (previous == 0)%Q ->
      exists x,
        mc_percentage (buildChangeSummary (Fin current) (Fin previous)) = Some (Fin x)
        /\ ((previous <= current)%Q -> (0 <= x)%Q)
        /\ ((current <= previous)%Q -> (x <= 0)%Q)).
Proof.
  split; [reflexivity |]. split; [| split].
  - intros Hp Hc. unfold buildChangeSummary. cbn.
    apply Qeq_bool_iff in Hp, Hc. by rewrite Hp, Hc.
  - intros Hp Hc. unfold buildChangeSummary. cbn.
    apply Qeq_bool_iff in Hp. rewrite Hp.
    destruct (Qeq_bool current 0) eqn:E; [| reflexivity].
    apply Qeq_bool_iff in E. contradiction.
  - intros Hp. destruct (change_percentage_finite current previous Hp)
      as (x & Hx & Hpos & Hneg & _).
    exists x. split; [exact Hx |]. split; [exact Hpos | exact Hneg].
Qed.

(** X20. The change of the product count is never a decrease: delta is the
    number of products created this week, capped by the number of products.
    The percentage is null exactly when there are products and all of them
    were created this week; it is 0 without products, and otherwise a finite
    number that is not negative. *)
Theorem product_count_change_is_never_a_decrease
  (totalProducts productsCreatedThisWeek : nat) :
  let change := Dashboard.totalProducts_change (Z.of_nat totalProducts)
                                               (Z.of_nat productsCreatedThisWeek) in
  (exists delta,
      mc_delta change = Fin delta
      /\ (delta == inject_Z (Z.of_nat (Nat.min totalProducts productsCreatedThisWeek)))%Q)
  /\ (mc_percentage change = None
      <-> (0 < totalProducts <= productsCreatedThisWeek)%nat)
  /\ (totalProducts = 0%nat -> mc_percentage change = Some Num.zero)
  /\ ((productsCreatedThisWeek < totalProducts)%nat ->
      exists percentage,
        mc_percentage change = Some (Fin percentage) /\ (0 <= percentage)%Q).
Proof.
  intros change. unfold change, Dashboard.totalProducts_change,
    Dashboard.previousTotalProducts.
  set (t := Z.of_nat totalProducts). set (c := Z.of_nat productsCreatedThisWeek).
  assert (Math_max (Num.sub (Num.of_Z t) (Num.of_Z c)) Num.zero
          = if Qle_bool 0 (inject_Z t - inject_Z c) then Fin (inject_Z t - inject_Z c)
            else Num.zero) as ->.
  { unfold Math_max, Num.sub, Num.of_Z, Num.zero, Num.isNaN, Num.lt. cbn [orb].
    by destruct (Qle_bool 0 (inject_Z t - inject_Z c)). }
  assert (forall a b : Z, inject_Z a - inject_Z b == inject_Z (a - b))%Q as Hsub.
  { intros a b. unfold Z.sub, Qminus. by rewrite inject_Z_plus, inject_Z_opp. }
  change (Num.of_Z t) with (Fin (inject_Z t)).
  destruct (Qle_bool 0 (inject_Z t - inject_Z c)) eqn:Hprevious;
    [| change Num.zero with (Fin 0) at 1 2 3 4].
  - apply Qle_bool_iff in Hprevious. rewrite Hsub in Hprevious.
    change 0%Q with (inject_Z 0) in Hprevious. rewrite <- Zle_Qle in Hprevious.
    assert (productsCreatedThisWeek <= totalProducts)%nat as Hle by lia.
    pose proof (change_summary_finite_parts (inject_Z t) (inject_Z t - inject_Z c))
      as (Hdelta & Hzero & Hnull & Hother).
    split; [| split; [| split]].
    + eexists. split; [exact Hdelta |].
      rewrite Nat.min_r by lia. fold c. lra.
    + split.
      * intros Hnone.
        destruct (decide (productsCreatedThisWeek = totalProducts)) as [Heq | Hne].
        -- destruct totalProducts; [| lia].
           rewrite Hzero in Hnone; [discriminate | |]; subst c t.
           ++ replace productsCreatedThisWeek with 0%nat by lia. cbn. lra.
           ++ reflexivity.
        -- assert (~ (inject_Z t - inject_Z c == 0)%Q) as Hnz.
           { rewrite Hsub. change 0%Q with (inject_Z 0).
             rewrite inject_Z_injective. lia. }
           destruct (Hother Hnz) as (x & Hx & _). congruence.
      * intros [Hpos Hall]. apply Hnull.
        -- rewrite Hsub. change 0%Q with (inject_Z 0).
           rewrite inject_Z_injective. lia.
        -- change 0%Q with (inject_Z 0). rewrite inject_Z_injective. lia.
    + intros Hnone. apply Hzero.
      * rewrite Hsub. change 0%Q with (inject_Z 0).
        rewrite inject_Z_injective. lia.
      * change 0%Q with (inject_Z 0). rewrite inject_Z_injective. lia.
    + intros Hlt.
      assert (~ (inject_Z t - inject_Z c == 0)%Q) as Hnz.
      { rewrite Hsub. change 0%Q with (inject_Z 0).
        rewrite inject_Z_injective. lia. }
      destruct (Hother Hnz) as (x & Hx & Hsign & _).
      exists x. split; [exact Hx |]. apply Hsign.
      assert (0 <= inject_Z c)%Q
        by (change 0%Q with (inject_Z 0); rewrite <- Zle_Qle; lia).
      lra.
  - assert (~ (0 <= inject_Z t - inject_Z c)%Q) as Hneg
        by (intros Hle; apply Qle_bool_iff in Hle; congruence).
    rewrite Hsub in Hneg. change 0%Q with (inject_Z 0) in Hneg.
    rewrite <- Zle_Qle in Hneg.
    assert (totalProducts < productsCreatedThisWeek)%nat as Hlt by lia.
    pose proof (change_summary_finite_parts (inject_Z t) 0)
      as (Hdelta & Hzero & Hnull & _).
    split; [| split; [| split]].
    + eexists. split; [exact Hdelta |]. rewrite Nat.min_l by lia. fold t. lra.
    + split.
      * intros Hnone. split; [| lia].
        destruct totalProducts; [| lia].
        rewrite Hzero in Hnone; [discriminate | reflexivity | reflexivity].
      * intros [Hpos _]. apply Hnull; [reflexivity |].
        change 0%Q with (inject_Z 0). rewrite inject_Z_injective. lia.
    + intros ->. apply Hzero; reflexivity.
    + lia.
Qed.

(** ** Weekly overview of the dashboard *)

Lemma revenue_fold {S : Type} (date : S -> string) (amount : S -> num)
  (key : string) (sales : list S) :
  forall m : gmap string num,
    default Num.zero
            (foldl (fun m sale =>
                      <[date sale := Num.add (default Num.zero (m !! date sale))
                                             (amount sale)]> m) m sales !! key)
    = foldl Num.add (default Num.zero (m !! key))
            (map amount (filter (fun sale => date sale = key) sales)).
Proof.
  induction sales as [| sale rest IH]; intros m; [reflexivity |].
  simpl. rewrite IH, filter_cons.
  destruct (decide (date sale = key)) as [-> | Hne].
  - by rewrite lookup_insert_eq.
  - by rewrite lookup_insert_ne.
Qed.

(** X21. The weekly overview of the dashboard has seven entries, for the
    days from six days before the start of today up to today, named by
    weekday.  The figure of a day is the sum, rounded to two decimals, of
    the totals of exactly the sales whose date key is the key of that day, a
    sale without total counting as 0; a sale of another day changes
    nothing. *)
Theorem weekly_overview_by_day
  (C : Calendar) (start_of_day : Z -> Z) (now : Z) (sales : list Dashboard.WeeklySale) :
  let today := start_of_day now in
  let overview := Dashboard.buildWeeklySalesOverview C start_of_day now in
  length (overview sales) = 7%nat
  /\ (forall index, (index < 7)%nat ->
        let date := days_before C today (6 - index) in
        overview sales !! index
        = Some (weekday_short C date,
                Number_toFixed 2
                  (Dashboard.weekly_revenue_of_day C (iso_date C date) sales)))
  /\ (forall extra,
        (forall index, (index < 7)%nat ->
                       iso_date C (Dashboard.ws_createdAt extra)
                       <> iso_date C (days_before C today (6 - index))) ->
        forall before after,
          sales = (before ++ extra :: after)%list ->
          overview sales = overview (before ++ after)%list)
  /\ (forall index sale,
        (index < 7)%nat ->
        Dashboard.ws_totalAmount sale = None ->
        iso_date C (Dashboard.ws_createdAt sale)
        = iso_date C (days_before C today (6 - index)) ->
        Num.eq (Dashboard.weekly_revenue_of_day
                  C (iso_date C (days_before C today (6 - index))) [sale])
               Num.zero).
Proof.
  intros today overview.
  assert (forall sales' index, (index < 7)%nat ->
             overview sales' !! index
             = Some (weekday_short C (days_before C today (6 - index)),
                     Number_toFixed 2
                       (Dashboard.weekly_revenue_of_day
                          C (iso_date C (days_before C today (6 - index))) sales')))
    as Hentry.
  { intros sales' index Hindex.
    unfold overview, Dashboard.buildWeeklySalesOverview, Dashboard.days.
    rewrite !list_lookup_fmap.
    assert (seq 0 7 !! index = Some index) as ->
        by (rewrite lookup_seq; split; [reflexivity | exact Hindex]).
    cbn. unfold Dashboard.weekly_revenueByDate, Dashboard.weekly_revenue_of_day.
    by rewrite (revenue_fold (fun sale => iso_date C (Dashboard.ws_createdAt sale))
                  (fun sale => default Num.zero (Dashboard.ws_totalAmount sale))
                  _ sales' ∅). }
  split; [reflexivity |]. split; [exact (Hentry sales) |]. split.
  - intros extra Hother before after ->.
    apply list_eq. intros index.
    destruct (decide (index < 7)%nat) as [Hlt | Hge].
    + rewrite !Hentry by exact Hlt. do 3 f_equal.
      unfold Dashboard.weekly_revenue_of_day.
      rewrite !filter_app, filter_cons.
      destruct (decide _) as [Heq | _]; [| reflexivity].
      by apply Hother in Heq.
    + rewrite !lookup_ge_None_2; [reflexivity | |];
        (change (length (overview _)) with 7%nat; lia).
  - intros index sale Hindex Hnone Hkey.
    unfold Dashboard.weekly_revenue_of_day.
    rewrite filter_cons, decide_True by exact Hkey.
    rewrite filter_nil. cbn. rewrite Hnone. cbn. reflexivity.
Qed.

(** ** Inventory *)

Lemma determineStatus_Fin (q : Q) :
  Inventory.determineStatus (Fin q)
  = if Qle_bool q 0 then Inventory.out_of_stock
    else if Qle_bool q 10 then Inventory.low_stock
    else Inventory.in_stock.
Proof.
  assert (forall a b : Q, Num.le (Fin a) (Fin b) = Qle_bool a b) as Hle.
  { intros a b. unfold Num.le, Num.lt, Num.eqb.
    destruct (Qle_bool a b) eqn:Hab.
    - apply Qle_bool_iff in Hab.
      destruct (Qle_bool b a) eqn:Hba; cbn; [| reflexivity].
      apply Qle_bool_iff in Hba. apply Qeq_bool_iff. lra.
    - assert (b < a)%Q as Hlt
          by (apply Qnot_le_lt; intros H; apply Qle_bool_iff in H; congruence).
      assert (Qle_bool b a = true) as -> by (apply Qle_bool_iff; lra). cbn.
      destruct (Qeq_bool a b) eqn:Heq; [| reflexivity].
      apply Qeq_bool_iff in Heq. lra. }
  unfold Inventory.determineStatus, Inventory.LOW_STOCK_THRESHOLD, Num.zero, Num.of_Z.
  by rewrite !Hle.
Qed.

Lemma Qfloor_half_up_le (x : Q) (n : Z) :
  (x < inject_Z n + (1 # 2))%Q -> (Qfloor (x + (1 # 2)) <= n)%Z.
Proof.
  intros Hx. apply Z.lt_succ_r. rewrite Zlt_Qlt.
  eapply Qle_lt_trans; [apply Qfloor_le |].
  unfold Z.succ. rewrite inject_Z_plus. change (inject_Z 1) with 1%Q. lra.
Qed.

Lemma reorderLevel_Fin (q : Q) :
  Math_max Inventory.REORDER_LEVEL_DEFAULT (Num.round (Num.mul (Fin q) (Fin (1 # 2))))
  = Num.of_Z (Z.max 20 (Qfloor (q * (1 # 2) + (1 # 2)))).
Proof.
  unfold Math_max, Inventory.REORDER_LEVEL_DEFAULT, Num.round, Num.mul, Num.of_Z,
    Num.isNaN, Num.lt. cbn [orb].
  destruct (Qle_bool _ _) eqn:Hcmp; cbn [negb].
  - apply Qle_bool_iff in Hcmp. rewrite <- Zle_Qle in Hcmp. by rewrite Z.max_l.
  - assert (~ (inject_Z (Qfloor (q * (1 # 2) + (1 # 2))) <= inject_Z 20)%Q)
      as Hnot by (intros H; apply Qle_bool_iff in H; congruence).
    rewrite <- Zle_Qle in Hnot. by rewrite Z.max_r by lia.
Qed.

(** X22. What the inventory lists for a product.  Without a stock row the
    quantity is 0, the status out-of-stock and the reorder level 20.  With a
    finite quantity q the quantity is q; the status is out-of-stock exactly
    when q <= 0, low-stock exactly when 0 < q <= 10 and in-stock exactly
    when q > 10; the reorder level is the larger of 20 and q / 2 rounded to
    the nearest integer, so it is 20 for every quantity below 41.  A quantity
    that is not a finite number is listed as 0, although NaN and Infinity
    are classified in-stock. *)
Theorem inventory_item_of_a_product
  (toISOString : Z -> string) (product : Inventory.StockedProduct) :
  let item := Inventory.item_of toISOString product in
  (Inventory.sp_stock product = None ->
   Inventory.ii_quantity item = Num.zero
   /\ Inventory.ii_status item = Inventory.out_of_stock
   /\ Inventory.ii_reorderLevel item = Num.of_Z 20
   /\ Inventory.ii_lastRestocked item = toISOString (Inventory.sp_updatedAt product))
  /\ (forall row q,
         Inventory.sp_stock product = Some row ->
         Inventory.stock_quantity row = Fin q ->
         Inventory.ii_quantity item = Fin q
         /\ (Inventory.ii_status item = Inventory.out_of_stock <-> (q <= 0)%Q)
         /\ (Inventory.ii_status item = Inventory.low_stock <-> (0 < q <= 10)%Q)
         /\ (Inventory.ii_status item = Inventory.in_stock <-> (10 < q)%Q)
         /\ exists level : Z,
             Inventory.ii_reorderLevel item = Num.of_Z level
             /\ level = Z.max 20 (Qfloor (q * (1 # 2) + (1 # 2)))
             /\ ((q < 41)%Q -> level = 20%Z))
  /\ (forall row,
         Inventory.sp_stock product = Some row ->
         Num.isFinite (Inventory.stock_quantity row) = false ->
         Inventory.ii_quantity item = Num.zero
         /\ (Inventory.stock_quantity row <> NInf ->
             Inventory.ii_status item = Inventory.in_stock)).
Proof.
  intros item. unfold item, Inventory.item_of. split; [| split].
  - intros ->. cbn. repeat split; reflexivity.
  - intros row q -> Hq.
    cbn -[Math_max Num.round Num.mul Inventory.determineStatus
          Inventory.REORDER_LEVEL_DEFAULT].
    rewrite Hq. cbn [Num.isFinite].
    split; [reflexivity |]. rewrite determineStatus_Fin, reorderLevel_Fin.
    assert (exists level : Z,
               Num.of_Z (Z.max 20 (Qfloor (q * (1 # 2) + (1 # 2)))) = Num.of_Z level
               /\ level = Z.max 20 (Qfloor (q * (1 # 2) + (1 # 2)))
               /\ ((q < 41)%Q -> level = 20%Z)) as Hlevel.
    { eexists. split; [reflexivity |]. split; [reflexivity |].
      intros Hq41.
      pose proof (Qfloor_half_up_le (q * (1 # 2)) 20) as Hfloor.
      change (inject_Z 20) with 20%Q in Hfloor.
      specialize (Hfloor ltac:(lra)). lia. }
    destruct (Qle_bool q 0) eqn:Hzero; [| destruct (Qle_bool q 10) eqn:Hten].
    + apply Qle_bool_iff in Hzero.
      split; [split; [intros _; exact Hzero | reflexivity] |].
      split; [split; [discriminate | intros; lra] |].
      split; [split; [discriminate | intros; lra] |]. exact Hlevel.
    + assert (~ (q <= 0)%Q) as Hpos
          by (intros H; apply Qle_bool_iff in H; congruence).
      apply Qle_bool_iff in Hten.
      split; [split; [discriminate | intros; lra] |].
      split; [split; [intros _; lra | reflexivity] |].
      split; [split; [discriminate | intros; lra] |]. exact Hlevel.
    + assert (~ (q <= 0)%Q) as Hpos
          by (intros H; apply Qle_bool_iff in H; congruence).
      assert (~ (q <= 10)%Q) as Hmore
          by (intros H; apply Qle_bool_iff in H; congruence).
      split; [split; [discriminate | intros; lra] |].
      split; [split; [discriminate | intros; lra] |].
      split; [split; [intros _; lra | reflexivity] |]. exact Hlevel.
  - intros row -> Hnot. cbn.
    destruct (Inventory.stock_quantity row) as [| | | q]; try discriminate;
      (split; [reflexivity |]); intros Hninf; try reflexivity; congruence.
Qed.

Lemma item_quantity_counted (toISOString : Z -> string) (product : Inventory.StockedProduct) :
  Inventory.ii_quantity (Inventory.item_of toISOString product)
  = Fin (counted_quantity product).
Proof.
  unfold Inventory.item_of, counted_quantity. cbn.
  destruct (Inventory.sp_stock product) as [[[| | | q] updated] |]; reflexivity.
Qed.

Lemma totalUnits_fold (toISOString : Z -> string) (products : list Inventory.StockedProduct) :
  forall start : Q,
    exists units,
      foldl (fun sum item => Num.add sum (Inventory.ii_quantity item)) (Fin start)
            (Inventory.items toISOString products)
      = Fin units
      /\ (units == start + foldr (fun product sum => counted_quantity product + sum) 0
                                 products)%Q.
Proof.
  induction products as [| product rest IH]; intros start.
  - exists start. split; [reflexivity |]. cbn. lra.
  - cbn [Inventory.items map foldl]. rewrite item_quantity_counted.
    destruct (IH (start + counted_quantity product)%Q) as (units & Hunits & Hsum).
    exists units. split; [exact Hunits |]. cbn [foldr]. lra.
Qed.

(** X23. The metrics of the inventory: every product is counted once,
    and is counted as low on stock, as out of stock or as neither, never as
    both; the total of units is always a finite number, the sum of the
    finite quantities, where a product without stock row or with a quantity
    that is not finite adds 0. *)
Theorem inventory_metrics_add_up
  (toISOString : Z -> string) (products : list Inventory.StockedProduct) :
  let metrics := Inventory.metrics toISOString products in
  let status := fun product =>
                  Inventory.ii_status (Inventory.item_of toISOString product) in
  Inventory.productCount metrics = length products
  /\ Inventory.lowStockCount metrics
     = length (filter (fun product => status product = Inventory.low_stock) products)
  /\ Inventory.outOfStockCount metrics
     = length (filter (fun product => status product = Inventory.out_of_stock) products)
  /\ (Inventory.lowStockCount metrics + Inventory.outOfStockCount metrics
      + length (filter (fun product => status product = Inventory.in_stock) products)
      = Inventory.productCount metrics)%nat
  /\ exists units,
      Inventory.totalUnits metrics = Fin units
      /\ (units == foldr (fun product sum => counted_quantity product + sum) 0 products)%Q.
Proof.
  intros metrics status.
  assert (forall wanted,
             length (filter (fun item => Inventory.ii_status item = wanted)
                            (Inventory.items toISOString products))
             = length (filter (fun product => status product = wanted) products))
    as Hcount.
  { intros wanted. induction products as [| product rest IH]; [reflexivity |].
    cbn [Inventory.items map]. rewrite !filter_cons. fold (status product).
    destruct (decide (status product = wanted)); cbn [length];
      fold (Inventory.items toISOString rest); by rewrite IH. }
  split; [apply length_map |]. split; [apply Hcount |]. split; [apply Hcount |].
  split.
  - unfold metrics, Inventory.metrics.
    cbn [Inventory.lowStockCount Inventory.outOfStockCount Inventory.productCount].
    rewrite !Hcount. unfold Inventory.items. rewrite length_map.
    clear Hcount metrics.
    induction products as [| product rest IH]; [reflexivity |].
    rewrite !filter_cons. cbn [length].
    destruct (status product) eqn:Hstatus; repeat case_decide; try congruence;
      cbn [length]; lia.
  - destruct (totalUnits_fold toISOString products 0) as (units & Hunits & Hsum).
    exists units. split; [exact Hunits | lra].
Qed.

Lemma getStockPercentage_Fin (stock reorderLevel : Q) :
  exists x : Q,
    Inventory.getStockPercentage (Fin stock) (Fin reorderLevel) = Fin x
    /\ (x <= 100)%Q
    /\ ((reorderLevel == 0)%Q -> (stock * 100 <= 100)%Q -> (x == stock * 100)%Q)
    /\ ((reorderLevel == 0)%Q -> (100 <= stock * 100)%Q -> (x == 100)%Q)
    /\ ((0 < reorderLevel)%Q -> (0 <= stock)%Q -> (0 <= x)%Q)
    /\ ((0 < reorderLevel)%Q -> (stock <= 2 * reorderLevel)%Q ->
        (x == stock / (2 * reorderLevel) * 100)%Q)
    /\ ((0 < reorderLevel)%Q -> (2 * reorderLevel <= stock)%Q -> (x == 100)%Q).
Proof.
  unfold Inventory.getStockPercentage, Num.of_Z.
  cbn [Num.mul Num.isNaN orb Num.eqb Num.zero].
  change (inject_Z 2) with 2%Q. change (inject_Z 100) with 100%Q.
  change (inject_Z 1) with 1%Q.
  assert (exists d,
             (if Qeq_bool (reorderLevel * 2) 0 then Fin 1 else Fin (reorderLevel * 2))
             = Fin d
             /\ ~ (d == 0)%Q
             /\ ((reorderLevel == 0)%Q -> (d == 1)%Q)
             /\ (~ (reorderLevel == 0)%Q -> (d == 2 * reorderLevel)%Q))
    as (d & -> & Hd & Hzero & Hother).
  { destruct (Qeq_bool (reorderLevel * 2) 0) eqn:Hdouble.
    - apply Qeq_bool_iff in Hdouble. exists 1%Q.
      split; [reflexivity |]. split; [lra |]. split; [reflexivity |]. intros H. lra.
    - assert (~ (reorderLevel * 2 == 0)%Q) as Hnz
          by (intros H; apply Qeq_bool_iff in H; congruence).
      exists (reorderLevel * 2)%Q.
      split; [reflexivity |]. split; [exact Hnz |]. split; [intros; lra | intros; lra]. }
  cbn [Num.div].
  assert (Qeq_bool d 0 = false) as ->.
  { destruct (Qeq_bool d 0) eqn:E; [| reflexivity].
    apply Qeq_bool_iff in E. contradiction. }
  cbn [Num.mul]. unfold Math_min, Num.isNaN, Num.lt. cbn [orb].
  assert (forall r : Q, (0 < r)%Q -> (d == 2 * r)%Q ->
                        stock / d * 100 == stock / (2 * r) * 100)%Q as Hsame.
  { intros r Hr Heq. rewrite Heq. reflexivity. }
  destruct (Qle_bool (stock / d * 100) 100) eqn:Hcap; cbn [negb].
  - apply Qle_bool_iff in Hcap. exists (stock / d * 100)%Q.
    split; [reflexivity |]. split; [exact Hcap |].
    assert ((reorderLevel == 0)%Q -> stock / d * 100 == stock * 100)%Q as Hone.
    { intros H. rewrite (Hzero H). field. }
    split; [intros H _; exact (Hone H) |].
    split; [intros H Hfull; rewrite (Hone H) in *; lra |].
    assert ((0 < reorderLevel)%Q -> d == 2 * reorderLevel)%Q as Hdouble
        by (intros H; apply Hother; lra).
    split; [| split].
    + intros Hr Hs. rewrite (Hdouble Hr).
      apply Qmult_le_0_compat; [| lra].
      apply Qle_shift_div_l; lra.
    + intros Hr _. by rewrite (Hdouble Hr).
    + intros Hr Hfull. rewrite (Hdouble Hr) in *.
      assert (1 <= stock / (2 * reorderLevel))%Q
        by (apply Qle_shift_div_l; lra).
      lra.
  - assert (100 < stock / d * 100)%Q as Hover.
    { apply Qnot_le_lt. intros H. apply Qle_bool_iff in H. congruence. }
    exists 100%Q. split; [reflexivity |]. split; [lra |].
    assert ((reorderLevel == 0)%Q -> stock / d * 100 == stock * 100)%Q as Hone.
    { intros H. rewrite (Hzero H). field. }
    split; [intros H Hle; rewrite (Hone H) in Hover; lra |].
    split; [reflexivity |].
    assert ((0 < reorderLevel)%Q -> d == 2 * reorderLevel)%Q as Hdouble
        by (intros H; apply Hother; lra).
    split; [intros; lra |]. split; [| reflexivity].
    intros Hr Hpart. exfalso. rewrite (Hdouble Hr) in Hover.
    assert (stock / (2 * reorderLevel) <= 1)%Q
      by (apply Qle_shift_div_r; lra).
    lra.
Qed.

(** X24. The stock bar of the inventory page.  For a finite stock and a
    finite reorder level the percentage is a finite number of at most 100:
    with a positive reorder level it is 100 * stock / (2 * reorderLevel) up
    to twice the reorder level and 100 from there on, and it is not negative
    when the stock is not; with reorder level 0 the divisor is 1 instead of
    0.  For an item as the inventory route lists it the percentage is always
    such a number, whatever the stock row holds, and 2.5 times the quantity
    for a quantity from 0 to 40. *)
Theorem stock_percentage_is_capped
  (toISOString : Z -> string) (product : Inventory.StockedProduct)
  (stock reorderLevel : Q) :
  (exists x : Q,
      Inventory.getStockPercentage (Fin stock) (Fin reorderLevel) = Fin x
      /\ (x <= 100)%Q
      /\ ((reorderLevel == 0)%Q -> (stock * 100 <= 100)%Q -> (x == stock * 100)%Q)
      /\ ((0 < reorderLevel)%Q -> (0 <= stock)%Q -> (0 <= x)%Q)
      /\ ((0 < reorderLevel)%Q -> (stock <= 2 * reorderLevel)%Q ->
          (x == stock / (2 * reorderLevel) * 100)%Q)
      /\ ((0 < reorderLevel)%Q -> (2 * reorderLevel <= stock)%Q -> (x == 100)%Q))
  /\ let item := Inventory.item_of toISOString product in
     exists x : Q,
       Inventory.getStockPercentage (Inventory.ii_quantity item)
                                    (Inventory.ii_reorderLevel item) = Fin x
       /\ (x <= 100)%Q
       /\ ((0 <= counted_quantity product)%Q -> (0 <= x)%Q)
       /\ ((0 <= counted_quantity product <= 40)%Q ->
           (x == counted_quantity product * (5 # 2))%Q).
Proof.
  split.
  - destruct (getStockPercentage_Fin stock reorderLevel)
      as (x & Hx & Hcap & Hone & _ & Hpos & Hpart & Hfull).
    exists x. repeat (split; [assumption |]). assumption.
  - intros item. unfold item. rewrite item_quantity_counted.
    unfold Inventory.item_of, counted_quantity.
    cbn -[Math_max Num.round Num.mul Inventory.determineStatus
          Inventory.REORDER_LEVEL_DEFAULT Inventory.getStockPercentage].
    destruct (Inventory.sp_stock product) as [[[| | | q] updated] |];
      cbn -[Math_max Num.round Num.mul Inventory.determineStatus
            Inventory.REORDER_LEVEL_DEFAULT Inventory.getStockPercentage].
    1, 2, 3, 5: (eexists; split; [vm_compute; reflexivity |];
                 split; [| split]; intros; unfold Qle, Qeq; cbn; lia).
    rewrite reorderLevel_Fin. unfold Num.of_Z.
    destruct (getStockPercentage_Fin
                q (inject_Z (Z.max 20 (Qfloor (q * (1 # 2) + (1 # 2))))))
      as (x & Hx & Hcap & _ & _ & Hpos & Hpart & _).
    assert (20 <= inject_Z (Z.max 20 (Qfloor (q * (1 # 2) + (1 # 2)))))%Q as Hlevel
        by (change 20%Q with (inject_Z 20); rewrite <- Zle_Qle; lia).
    exists x. split; [exact Hx |]. split; [exact Hcap |]. split.
    + intros Hq. apply Hpos; lra.
    + intros [Hq Hq40].
      pose proof (Qfloor_half_up_le (q * (1 # 2)) 20) as Hfloor.
      change (inject_Z 20) with 20%Q in Hfloor.
      specialize (Hfloor ltac:(lra)).
      rewrite Z.max_l in * by lia. change (inject_Z 20) with 20%Q in *.
      rewrite Hpart by lra. field.
Qed.

(** ** Generated SKUs *)

Lemma string_forall_app (test : Ascii.ascii -> bool) (a b : string) :
  string_forall test (a +:+ b) = string_forall test a && string_forall test b.
Proof.
  induction a as [| c a IH]; [reflexivity |].
  change (String c a +:+ b) with (String c (a +:+ b)).
  cbn [string_forall]. rewrite IH. apply andb_assoc.
Qed.

Lemma string_forall_impl (test test' : Ascii.ascii -> bool) (text : string) :
  (forall c, test c = true -> test' c = true) ->
  string_forall test text = true -> string_forall test' text = true.
Proof.
  intros Himpl. induction text as [| c text IH]; [done |].
  cbn. intros [Hc Htext]%andb_true_iff.
  by rewrite (Himpl c Hc), IH.
Qed.

Lemma length_app_string (a b : string) :
  String.length (a +:+ b) = (String.length a + String.length b)%nat.
Proof.
  induction a as [| c a IH]; [reflexivity |].
  change (String c a +:+ b) with (String c (a +:+ b)). cbn. by rewrite IH.
Qed.

Lemma replace_other_runs_chars (in_run : bool) (text : string) :
  string_forall sku_char (Seed.replace_other_runs in_run text) = true.
Proof.
  revert in_run. induction text as [| c text IH]; intros in_run; [reflexivity |].
  cbn [Seed.replace_other_runs].
  destruct (Seed.is_upper_or_digit c) eqn:Hc.
  - cbn [string_forall]. unfold sku_char at 1. by rewrite Hc, IH.
  - destruct in_run; [apply IH |]. cbn [string_forall]. by rewrite IH.
Qed.

Lemma drop_leading_dashes_chars (test : Ascii.ascii -> bool) (text : string) :
  string_forall test text = true ->
  string_forall test (Seed.drop_leading_dashes text) = true.
Proof.
  induction text as [| c text IH]; [done |].
  cbn [Seed.drop_leading_dashes]. intros Hall.
  destruct (Seed.is_dash c); [| exact Hall].
  apply IH. cbn in Hall. by apply andb_true_iff in Hall as [_ ?].
Qed.

Lemma drop_trailing_dashes_chars (test : Ascii.ascii -> bool) (text : string) :
  string_forall test text = true ->
  string_forall test (Seed.drop_trailing_dashes text) = true.
Proof.
  induction text as [| c text IH]; [done |].
  cbn [Seed.drop_trailing_dashes string_forall].
  intros [Hc Htext]%andb_true_iff. specialize (IH Htext).
  destruct (Seed.drop_trailing_dashes text) as [| d kept].
  - destruct (Seed.is_dash c); [reflexivity |]. cbn. by rewrite Hc.
  - cbn [string_forall] in *. by rewrite Hc, IH.
Qed.

Lemma substring_prefix_chars (test : Ascii.ascii -> bool) (n : nat) (text : string) :
  string_forall test text = true ->
  string_forall test (String.substring 0 n text) = true.
Proof.
  revert text. induction n as [| n IH]; intros [| c text]; try done.
  cbn. intros [Hc Htext]%andb_true_iff. by rewrite Hc, IH.
Qed.

Lemma substring_prefix_length (n : nat) (text : string) :
  (String.length (String.substring 0 n text) <= n)%nat.
Proof.
  revert text. induction n as [| n IH]; intros [| c text]; cbn; try lia.
  specialize (IH text). lia.
Qed.

Lemma sku_base_chars (toUpperCase : string -> string) (name : string) :
  string_forall sku_char (Seed.sku_base toUpperCase name) = true
  /\ (String.length (Seed.sku_base toUpperCase name) <= 40)%nat.
Proof.
  split; [| apply substring_prefix_length].
  apply substring_prefix_chars, drop_trailing_dashes_chars, drop_leading_dashes_chars,
    replace_other_runs_chars.
Qed.

Lemma pretty_N_char_digit (x : N) : Seed.is_digit (pretty_N_char x) = true.
Proof. unfold pretty_N_char. by repeat case_match. Qed.

Lemma pretty_N_go_digits (x : N) :
  forall s, string_forall Seed.is_digit s = true ->
            string_forall Seed.is_digit (pretty_N_go x s) = true.
Proof.
  induction (N.lt_wf_0 x) as [x _ IH]. intros s Hs.
  destruct (decide (x = 0%N)) as [-> | Hx]; [by rewrite pretty_N_go_0 |].
  rewrite pretty_N_go_step by lia.
  apply IH; [apply N.div_lt; lia |].
  cbn [string_forall]. by rewrite pretty_N_char_digit, Hs.
Qed.

Lemma pretty_N_go_head (x : N) :
  forall s, (0 < x)%N ->
            exists c rest, pretty_N_go x s = String c rest /\ c <> Seed.zero_digit.
Proof.
  induction (N.lt_wf_0 x) as [x _ IH]. intros s Hx.
  rewrite pretty_N_go_step by exact Hx.
  destruct (decide (x < 10)%N) as [Hsmall | Hbig].
  - rewrite N.div_small, pretty_N_go_0 by exact Hsmall.
    rewrite N.mod_small by exact Hsmall.
    eexists _, _. split; [reflexivity |].
    assert (x = 1 \/ x = 2 \/ x = 3 \/ x = 4 \/ x = 5 \/ x = 6
            \/ x = 7 \/ x = 8 \/ x = 9)%N as Hcases by lia.
    unfold Seed.zero_digit.
    destruct Hcases as [-> | [-> | [-> | [-> | [-> | [-> | [-> | [-> | ->]]]]]]]];
      discriminate.
  - apply IH; [apply N.div_lt; lia |].
    apply N.div_str_pos. lia.
Qed.

Lemma sku_suffix_digits (index : nat) :
  string_forall Seed.is_digit (Seed.sku_suffix index) = true
  /\ (4 <= String.length (Seed.sku_suffix index))%nat.
Proof.
  unfold Seed.sku_suffix, Seed.padStart. split.
  - rewrite string_forall_app. apply andb_true_iff. split.
    + generalize (4 - String.length (pretty (N.of_nat (index + 1))))%nat.
      intros n. induction n as [| n IH]; [reflexivity |]. cbn. exact IH.
    + unfold pretty, pretty_N. case_decide; [reflexivity |].
      by apply pretty_N_go_digits.
  - rewrite length_app_string.
    assert (forall n c, String.length (Seed.repeat_char n c) = n) as ->
        by (intros n c; induction n; cbn; congruence).
    lia.
Qed.

Lemma padStart_inj (a b : string) :
  (forall c rest, a = String c rest -> c <> Seed.zero_digit) ->
  (forall c rest, b = String c rest -> c <> Seed.zero_digit) ->
  a <> EmptyString -> b <> EmptyString ->
  Seed.padStart 4 Seed.zero_digit a = Seed.padStart 4 Seed.zero_digit b -> a = b.
Proof.
  intros Ha Hb Hna Hnb. unfold Seed.padStart.
  generalize (4 - String.length a)%nat (4 - String.length b)%nat.
  intros n. induction n as [| n IH]; intros [| m]; cbn [Seed.repeat_char].
  - done.
  - change (String Seed.zero_digit (Seed.repeat_char m Seed.zero_digit) +:+ b)
      with (String Seed.zero_digit (Seed.repeat_char m Seed.zero_digit +:+ b)).
    change (EmptyString +:+ a) with a.
    intros Heq. by destruct (Ha _ _ Heq).
  - change (String Seed.zero_digit (Seed.repeat_char n Seed.zero_digit) +:+ a)
      with (String Seed.zero_digit (Seed.repeat_char n Seed.zero_digit +:+ a)).
    change (EmptyString +:+ b) with b.
    intros Heq. symmetry in Heq. by destruct (Hb _ _ Heq).
  - change (String Seed.zero_digit (Seed.repeat_char n Seed.zero_digit) +:+ a)
      with (String Seed.zero_digit (Seed.repeat_char n Seed.zero_digit +:+ a)).
    change (String Seed.zero_digit (Seed.repeat_char m Seed.zero_digit) +:+ b)
      with (String Seed.zero_digit (Seed.repeat_char m Seed.zero_digit +:+ b)).
    intros [= Heq]. by apply (IH m).
Qed.

Lemma sku_suffix_inj (index index' : nat) :
  Seed.sku_suffix index = Seed.sku_suffix index' -> index = index'.
Proof.
  assert (forall i : nat,
             (forall c rest, pretty (N.of_nat (i + 1)) = String c rest ->
                             c <> Seed.zero_digit)
             /\ pretty (N.of_nat (i + 1)) <> EmptyString) as Hhead.
  { intros i. unfold pretty, pretty_N. case_decide; [lia |].
    destruct (pretty_N_go_head (N.of_nat (i + 1)) "" ltac:(lia))
      as (c & rest & -> & Hc).
    split; [| done]. intros c' rest' [= <- _]. exact Hc. }
  intros Heq. apply padStart_inj in Heq; try apply Hhead.
  apply (inj pretty) in Heq. lia.
Qed.

Lemma digits_have_no_dash (text : string) :
  string_forall Seed.is_digit text = true ->
  string_forall (fun c => negb (Seed.is_dash c)) text = true.
Proof.
  apply string_forall_impl. intros c. unfold Seed.is_digit, Seed.is_dash.
  intros [H1 H2]%andb_true_iff. apply Nat.leb_le in H1, H2.
  apply negb_true_iff, Nat.eqb_neq. lia.
Qed.

Lemma last_dash_splits (a b s t : string) :
  string_forall (fun c => negb (Seed.is_dash c)) s = true ->
  string_forall (fun c => negb (Seed.is_dash c)) t = true ->
  a +:+ String Seed.dash s = b +:+ String Seed.dash t ->
  a = b /\ s = t.
Proof.
  intros Hs Ht. revert b. induction a as [| c a IH]; intros [| d b].
  - by intros [= ->].
  - change (EmptyString +:+ String Seed.dash s) with (String Seed.dash s).
    change (String d b +:+ String Seed.dash t) with (String d (b +:+ String Seed.dash t)).
    intros [= _ ->]. rewrite string_forall_app in Hs.
    apply andb_true_iff in Hs as [_ Hs]. cbn in Hs. discriminate.
  - change (EmptyString +:+ String Seed.dash t) with (String Seed.dash t).
    change (String c a +:+ String Seed.dash s) with (String c (a +:+ String Seed.dash s)).
    intros [= _ <-]. rewrite string_forall_app in Ht.
    apply andb_true_iff in Ht as [_ Ht]. cbn in Ht. discriminate.
  - change (String c a +:+ String Seed.dash s) with (String c (a +:+ String Seed.dash s)).
    change (String d b +:+ String Seed.dash t) with (String d (b +:+ String Seed.dash t)).
    intros [= -> Heq]. destruct (IH b Heq) as [-> ->]. done.
Qed.

(** X25. A generated SKU is a base, a dash and a suffix.  The base has
    between 1 and 40 characters, all capital letters, digits or dashes, and
    is ITEM when the name in capitals has no letter or digit at all; the
    suffix is index + 1 in decimal digits, filled with zeros to four digits
    at least.  The SKUs of different indices are different, whatever the
    names are. *)
Theorem generated_skus_are_distinct
  (toUpperCase : string -> string) (name : string) (index : nat) :
  (exists base suffix,
      Seed.generateSku toUpperCase name index = base +:+ "-" +:+ suffix
      /\ (1 <= String.length base <= 40)%nat
      /\ string_forall sku_char base = true
      /\ (4 <= String.length suffix)%nat
      /\ string_forall Seed.is_digit suffix = true
      /\ suffix = Seed.padStart 4 Seed.zero_digit (pretty (N.of_nat (index + 1)))
      /\ (string_forall (fun c => negb (Seed.is_upper_or_digit c)) (toUpperCase name)
          = true -> base = "ITEM"))
  /\ forall name' index',
      Seed.generateSku toUpperCase name index
      = Seed.generateSku toUpperCase name' index' ->
      index = index'.
Proof.
  split.
  - destruct (sku_base_chars toUpperCase name) as [Hchars Hlength].
    destruct (sku_suffix_digits index) as [Hdigits Hfour].
    exists (if String.eqb (Seed.sku_base toUpperCase name) ""
            then "ITEM" else Seed.sku_base toUpperCase name),
           (Seed.sku_suffix index).
    split; [reflexivity |].
    split; [| split; [| split; [exact Hfour | split; [exact Hdigits | split;
                                                      [reflexivity |]]]]].
    + destruct (String.eqb_spec (Seed.sku_base toUpperCase name) "") as [_ | Hne];
        [cbn; lia |].
      split; [| exact Hlength].
      destruct (Seed.sku_base toUpperCase name); [done | cbn; lia].
    + by destruct (String.eqb (Seed.sku_base toUpperCase name) "").
    + intros Hnone.
      assert (Seed.sku_base toUpperCase name = "") as ->; [| reflexivity].
      unfold Seed.sku_base.
      assert (forall text,
                 string_forall (fun c => negb (Seed.is_upper_or_digit c)) text = true ->
                 forall in_run,
                   Seed.replace_other_runs in_run text = ""
                   \/ Seed.replace_other_runs in_run text = "-") as Hruns.
      { induction text as [| c text IH]; [by left |].
        cbn [string_forall Seed.replace_other_runs].
        intros [Hc Htext]%andb_true_iff. apply negb_true_iff in Hc. rewrite Hc.
        intros [|]; [apply (IH Htext) |].
        assert (forall in_run, in_run = true ->
                               Seed.replace_other_runs in_run text = "") as Hrest.
        { clear IH. induction text as [| d text IH]; [done |].
          cbn [string_forall] in Htext.
          apply andb_true_iff in Htext as [Hd Htext]. apply negb_true_iff in Hd.
          intros in_run ->. cbn [Seed.replace_other_runs]. rewrite Hd.
          by apply IH. }
        right. by rewrite Hrest. }
      by destruct (Hruns _ Hnone false) as [-> | ->].
  - intros name' index' Heq. unfold Seed.generateSku in Heq.
    apply sku_suffix_inj.
    destruct (sku_suffix_digits index) as [Hdigits _].
    destruct (sku_suffix_digits index') as [Hdigits' _].
    eapply last_dash_splits; [by apply digits_have_no_dash .. | exact Heq].
Qed.
